(** * Order lifecycle, cart and inventory of the e-commerce API

    A shallow embedding of the mongoose models [Product], [Cart] and [Order]
    and of the express handlers that drive them (cart, checkout and order
    routes), followed by the properties of the order-lifecycle core.

    Conventions of the embedding:
    - a mongoose [ObjectId] is the 96-bit number it denotes ([N]); an id
      and a quantity that [POST /api/cart/add] reads from the request body
      are kept as they were sent, the id as a string and the quantity as a
      number or a string;
    - JavaScript numbers that the validators constrain to integers (stock
      counters, quantities) are [Z]; money amounts are exact rationals [Q],
      so rounding of binary floating point is outside the model;
    - [new Date()] is a parameter [now] of the operation that reads the clock;
    - a collection is a finite map from [_id] to document; an [async]
      function is a state-and-exception computation over the database. *)

From Stdlib Require Import ZArith QArith Bool List Lia Ascii.
From stdpp Require Import base option list gmap strings pretty.

Local Open Scope string_scope.
Local Open Scope Z_scope.

Abbreviation ObjectId := N (only parsing).
Abbreviation Date := Z (only parsing).

(** ** JavaScript helpers *)

Module JS.

(** [Math.max(a, b)] on rationals. *)
Definition Math_max (a b : Q) : Q := if Qle_bool a b then b else a.

(** [a > b] on numbers. *)
Definition gt (a b : Q) : bool := negb (Qle_bool a b).

(** [Array.prototype.findIndex]: the first index whose element satisfies
    the callback, or [-1]. *)
Fixpoint findIndex {A} (f : A -> bool) (l : list A) : Z :=
  match l with
  | [] => -1
  | x :: l' => if f x then 0 else
                 let i := findIndex f l' in
                 if i <? 0 then -1 else i + 1
  end.

(** [Array.prototype.reduce] with an initial value. *)
Definition reduce {A B} (f : B -> A -> B) (init : B) (l : list A) : B :=
  fold_left f l init.

(** [Array.prototype.includes]. *)
Definition includes {A} `{EqDecision A} (l : list A) (x : A) : bool :=
  bool_decide (x ∈ l).

End JS.

(** ** Values of a request body

    [express-validator] tests the spelling of a field and leaves the field
    as it was sent: an id that passed [isMongoId()] is still the string of
    the request, in whatever case its hexadecimal digits were typed, and a
    quantity that passed [isInt()] is a number when the body held a number
    and a string when it held a string. *)

(** The value of a hexadecimal digit, in either case. *)
Definition hex_value (c : ascii) : option N :=
  let n := N_of_ascii c in
  if (48 <=? n)%N && (n <=? 57)%N then Some (n - 48)%N
  else if (97 <=? n)%N && (n <=? 102)%N then Some (n - 87)%N
  else if (65 <=? n)%N && (n <=? 70)%N then Some (n - 55)%N
  else None.

(** The lower-case digit of a value below sixteen. *)
Definition hex_digit (d : N) : ascii :=
  ascii_of_N (if (d <? 10)%N then 48 + d else 87 + d)%N.

(** The number that a string of hexadecimal digits denotes after [acc]. *)
Fixpoint hex_number (s : string) (acc : N) : option N :=
  match s with
  | EmptyString => Some acc
  | String c rest =>
    match hex_value c with
    | Some d => hex_number rest (16 * acc + d)%N
    | None => None
    end
  end.

(** The [k] least significant hexadecimal digits of [n], in front of
    [acc]. *)
Fixpoint hex_digits (k : nat) (n : N) (acc : string) : string :=
  match k with
  | O => acc
  | S k' => hex_digits k' (n / 16)%N (String (hex_digit (n mod 16)%N) acc)
  end.

(** [id.toString()] of an [ObjectId]: its 24 hexadecimal digits, in lower
    case. *)
Definition ObjectId_toString (id : N) : string := hex_digits 24 id "".

(** The cast of a string to [ObjectId], as a query filter and a subdocument
    path do it: the string has to be 24 hexadecimal digits, in either
    case. *)
Definition ObjectId_cast (s : string) : option N :=
  if (String.length s =? 24)%nat then hex_number s 0%N else None.

(** [isHexadecimal] of the validator: [/^(0x|0h)?[0-9A-F]+$/i]. *)
Definition isHexadecimal (s : string) : bool :=
  let digits :=
    match s with
    | String "0" (String ("x" | "X" | "h" | "H") rest) => rest
    | _ => s
    end%char in
  negb (String.length digits =? 0)%nat && bool_decide (is_Some (hex_number digits 0%N)).

(** [isMongoId()]: [isHexadecimal(str) && str.length === 24]. *)
Definition isMongoId (s : string) : bool :=
  isHexadecimal s && (String.length s =? 24)%nat.

(** A field that passed [isInt()]. *)
Inductive BodyInt := AsNumber (n : Z) | AsString (s : string).

Definition digit_value (c : ascii) : option Z :=
  let n := Z.of_N (N_of_ascii c) in
  if (48 <=? n) && (n <=? 57) then Some (n - 48) else None.

(** The number that a string of decimal digits denotes after [acc]. *)
Fixpoint digits_number (s : string) (acc : Z) : option Z :=
  match s with
  | EmptyString => Some acc
  | String c rest =>
    match digit_value c with
    | Some d => digits_number rest (10 * acc + d)
    | None => None
    end
  end.

(** [Number(s)] of a string; [None] is [NaN]. The strings that reach it
    here are made of decimal digits and signs (a quantity that passed
    [isInt()], or such a quantity appended to the digits of a number), and
    among those the numbers are the non-empty runs of digits after at most
    one sign. *)
Definition ToNumber (s : string) : option Z :=
  match s with
  | EmptyString => None
  | String "+" (String c rest) => digits_number (String c rest) 0
  | String "-" (String c rest) =>
    match digits_number (String c rest) 0 with
    | Some n => Some (- n)
    | None => None
    end
  | _ => digits_number s 0
  end%char.

(** The number a field that passed [isInt()] is compared as, and the
    number mongoose casts it to when it is assigned to a [Number] path:
    [None] is [NaN], and a cast error. *)
Definition BodyInt_toNumber (v : BodyInt) : option Z :=
  match v with
  | AsNumber n => Some n
  | AsString s => ToNumber s
  end.

(** [isInt({ min })]: the spelling of an integer (with leading zeros and a
    sign, if any), and [str >= min]. *)
Definition isInt_min (min : Z) (v : BodyInt) : bool :=
  match BodyInt_toNumber v with
  | Some n => min <=? n
  | None => false
  end.

(** [a + v] for a number [a]: the sum when [v] is a number, and the
    digits of [a] followed by [v] when [v] is a string. *)
Definition plus_body (a : Z) (v : BodyInt) : BodyInt :=
  match v with
  | AsNumber n => AsNumber (a + n)
  | AsString s => AsString (pretty a ++ s)
  end.

(** [a < v] and [v > a] for a number [a]; a comparison with [NaN] is
    false. *)
Definition lt_body (a : Z) (v : BodyInt) : bool :=
  match BodyInt_toNumber v with
  | Some n => a <? n
  | None => false
  end.

(** ** models/Product.js *)

Inductive Size := sm | md | lg | xl.

#[global] Instance Size_eq_dec : EqDecision Size.
Proof. solve_decision. Defined.

Record Product := mkProduct {
  p_name : string;
  p_price : Q;
  p_colour : string;
  p_size : Size;
  inStock : bool;
  totalStock : Z;
  soldCount : Z;
  isActive : bool
}.

(** [productSchema.virtual('availableStock')]. *)
Definition availableStock (p : Product) : Z := totalStock p - soldCount p.

(** ** Exceptions *)

Inductive Exception :=
| TypeError        (* member access on null, call of an undefined member *)
| ValidationError  (* mongoose schema validation rejected a save *)
| CastError.       (* a query filter could not be cast to the schema type *)

(** ** models/Cart.js: documents *)

Record ProductVariant := mkVariant { colour : string; size : Size }.

#[global] Instance ProductVariant_eq_dec : EqDecision ProductVariant.
Proof. solve_decision. Defined.

(** [cartItemSchema]; [ci_id] is the [_id] mongoose gives every subdocument. *)
Record CartItem := mkCartItem {
  ci_id : ObjectId;
  ci_product : ObjectId;
  quantity : Z;
  variant : ProductVariant;
  ci_price : Q
}.

(** [cartSchema]. The unique index on [user] makes the owner the key of the
    collection: the [user] field of a cart is the key it is stored under. *)
Record Cart := mkCart {
  items : list CartItem;
  totalAmount : Q;
  totalItems : Z
}.

(** ** models/Order.js: documents *)

Inductive Status :=
| pending | confirmed | processing | shipped
| delivered | cancelled | refunded | returned.

#[global] Instance Status_eq_dec : EqDecision Status.
Proof. solve_decision. Defined.

Inductive DiscountType := percentage | fixed.

Record Discount := mkDiscount {
  d_amount : Q;
  d_code : string;
  d_type : DiscountType
}.

Record OrderItem := mkOrderItem {
  oi_product : ObjectId;
  oi_name : string;
  oi_price : Q;
  oi_quantity : Z
}.

Record HistoryEntry := mkHistoryEntry {
  h_status : Status;
  h_date : Date;
  h_note : string;
  h_updatedBy : option ObjectId
}.

Record Refund := mkRefund {
  r_amount : Q;
  r_reason : string;
  r_processedAt : Date;
  r_refundId : option string
}.

Record PaymentInfo := mkPaymentInfo {
  pi_method : string;
  pi_amount : Q
}.

(** [orderSchema], without the address, tracking, notes and request-metadata
    fields, which none of the operations below reads or writes. *)
Record Order := mkOrder {
  orderNumber : string;
  o_user : ObjectId;
  o_items : list OrderItem;
  subtotal : Q;
  tax : Q;
  taxRate : Q;
  shippingCost : Q;
  discount : Discount;
  total : Q;
  paymentInfo : option PaymentInfo;
  status : Status;
  statusHistory : list HistoryEntry;
  confirmedAt : option Date;
  shippedAt : option Date;
  deliveredAt : option Date;
  cancelledAt : option Date;
  refund : option Refund
}.

(** ** The database and asynchronous computations *)

Record Db := mkDb {
  products : gmap N Product;
  carts : gmap N Cart;
  orders : gmap N Order
}.

Definition with_products (ps : gmap N Product) (db : Db) : Db :=
  mkDb ps (carts db) (orders db).
Definition with_carts (cs : gmap N Cart) (db : Db) : Db :=
  mkDb (products db) cs (orders db).
Definition with_orders (os : gmap N Order) (db : Db) : Db :=
  mkDb (products db) (carts db) os.

(** How a promise settles. *)
Inductive Settled (A : Type) :=
| Fulfilled (a : A)
| Rejected (e : Exception).
Arguments Fulfilled {A} a.
Arguments Rejected {A} e.

(** An [async] function body: it reads and writes the database and either
    returns or throws. Writes made before a throw stay in the database. *)
Definition Async (A : Type) : Type := Db -> Settled A * Db.

Definition ret {A} (a : A) : Async A := fun db => (Fulfilled a, db).
Definition throw {A} (e : Exception) : Async A := fun db => (Rejected e, db).
Definition bind {A B} (m : Async A) (k : A -> Async B) : Async B :=
  fun db =>
    match m db with
    | (Fulfilled a, db') => k a db'
    | (Rejected e, db') => (Rejected e, db')
    end.
Definition get_db : Async Db := fun db => (Fulfilled db, db).
Definition put_db (db' : Db) : Async unit := fun _ => (Fulfilled tt, db').

Declare Scope async_scope.
Delimit Scope async_scope with async.
Notation "x <- m ;; k" := (bind m (fun x => k))
  (at level 100, m at next level, right associativity) : async_scope.
Notation "m ;;; k" := (bind m (fun _ => k))
  (at level 100, right associativity) : async_scope.
Local Open Scope async_scope.

(** [for (const x of xs) { await body(x) }]. *)
Fixpoint for_of {A} (xs : list A) (body : A -> Async unit) : Async unit :=
  match xs with
  | [] => ret tt
  | x :: xs' => body x ;;; for_of xs' body
  end.

(** [try { body } catch (error) { res.status(500).json(onError) }]: the
    handler's response, and the database it leaves. *)
Definition try_catch {R} (body : Async R) (onError : R) : Db -> R * Db :=
  fun db =>
    match body db with
    | (Fulfilled r, db') => (r, db')
    | (Rejected _, db') => (onError, db')
    end.

(** ** models/Product.js: persistence and methods

    [save()] of a mongoose document runs the schema validators, then the
    [pre('save')] hooks, then writes the document. The validators modelled
    are the numeric [min] constraints; presence and [enum] constraints are
    carried by the record types. *)

Definition set_inStock (b : bool) (p : Product) : Product :=
  mkProduct (p_name p) (p_price p) (p_colour p) (p_size p) b
            (totalStock p) (soldCount p) (isActive p).

Definition set_soldCount (n : Z) (p : Product) : Product :=
  mkProduct (p_name p) (p_price p) (p_colour p) (p_size p) (inStock p)
            (totalStock p) n (isActive p).

(** [min: [0, ...]] on [price], [totalStock] and [soldCount]. *)
Definition Product_validate (p : Product) : bool :=
  Qle_bool 0 (p_price p) && (0 <=? totalStock p) && (0 <=? soldCount p).

(** [productSchema.pre('save')]; the slug it derives from the name is not
    part of the model. *)
Definition Product_preSave (p : Product) : Product :=
  set_inStock (0 <? availableStock p) p.

Definition Product_save (id : ObjectId) (p : Product) : Async Product :=
  if Product_validate p then
    let p' := Product_preSave p in
    db <- get_db ;;
    put_db (with_products (<[id := p']> (products db)) db) ;;;
    ret p'
  else throw ValidationError.

Definition Product_findById (id : ObjectId) : Async (option Product) :=
  db <- get_db ;; ret (products db !! id).

(** [Product.findOne({ _id: id, isActive: true })]. *)
Definition Product_findOne_active (id : ObjectId) : Async (option Product) :=
  db <- get_db ;;
  ret (match products db !! id with
       | Some p => if isActive p then Some p else None
       | None => None
       end).

(** [productSchema.methods.updateSoldCount]. *)
Definition updateSoldCount (id : ObjectId) (this : Product) (qty : Z)
  : Async Product :=
  let this1 := set_soldCount (soldCount this + qty) this in
  let this2 := set_inStock (0 <? availableStock this1) this1 in
  Product_save id this2.

(** [productSchema.methods] holds [updateSoldCount] and nothing else, so a
    product document has no member [releaseReservedInventory] or
    [updateInventory]: the member access yields [undefined] and the call
    raises a [TypeError]. *)
Definition releaseReservedInventory (id : ObjectId) (this : Product) (qty : Z)
  : Async unit := throw TypeError.

Definition updateInventory (id : ObjectId) (this : Product) (qty : Z)
  (operation : string) : Async unit := throw TypeError.

(** ** models/Cart.js: persistence and methods *)

Definition set_quantity (q : Z) (item : CartItem) : CartItem :=
  mkCartItem (ci_id item) (ci_product item) q (variant item) (ci_price item).

Definition set_items (its : list CartItem) (c : Cart) : Cart :=
  mkCart its (totalAmount c) (totalItems c).

(** [quantity: { min: 1 }] on every line. *)
Definition Cart_validate (c : Cart) : bool :=
  forallb (fun item => 1 <=? quantity item) (items c).

(** [cartSchema.pre('save')]. *)
Definition Cart_preSave (this : Cart) : Cart :=
  mkCart (items this)
    (JS.reduce (fun total item =>
                  (total + ci_price item * inject_Z (quantity item))%Q)
               0%Q (items this))
    (JS.reduce (fun total item => total + quantity item) 0 (items this)).

Definition Cart_save (user : ObjectId) (c : Cart) : Async Cart :=
  if Cart_validate c then
    let c' := Cart_preSave c in
    db <- get_db ;;
    put_db (with_carts (<[user := c']> (carts db)) db) ;;;
    ret c'
  else throw ValidationError.

(** [Cart.findOne({ user })]. *)
Definition Cart_findOne (user : ObjectId) : Async (option Cart) :=
  db <- get_db ;; ret (carts db !! user).

(** The callback of [findIndex] in [addItem], for an [ObjectId] as
    [productId]: [item.product.toString() === productId.toString()]
    compares the digits of two ids, that is, the ids. *)
Definition same_line (productId : ObjectId) (v : ProductVariant) (item : CartItem)
  : bool :=
  bool_decide (ci_product item = productId)
  && bool_decide (colour (variant item) = colour v)
  && bool_decide (size (variant item) = size v).

(** The in-memory part of [cartSchema.methods.addItem]; [fresh] is the
    [_id] mongoose generates for a pushed subdocument. *)
Definition addItem_items (its : list CartItem) (productId : ObjectId)
  (qty : Z) (v : ProductVariant) (price : Q) (fresh : ObjectId) : list CartItem :=
  let existingItemIndex := JS.findIndex (same_line productId v) its in
  if 0 <=? existingItemIndex then
    alter (fun item => set_quantity (quantity item + qty) item)
          (Z.to_nat existingItemIndex) its
  else
    its ++ [mkCartItem fresh productId qty v price].

(** [cartSchema.methods.addItem]. *)
Definition addItem (user : ObjectId) (this : Cart) (productId : ObjectId)
  (qty : Z) (v : ProductVariant) (price : Q) (fresh : ObjectId) : Async Cart :=
  Cart_save user
            (set_items (addItem_items (items this) productId qty v price fresh)
                       this).

(** [this.items.pull({ _id: itemId })]. *)
Definition pull (itemId : ObjectId) (its : list CartItem) : list CartItem :=
  List.filter (fun item => negb (bool_decide (ci_id item = itemId))) its.

(** The in-memory part of [cartSchema.methods.updateItemQuantity];
    [this.items.id(itemId)] is the first line with that [_id]. *)
Definition updateItemQuantity_items (its : list CartItem) (itemId : ObjectId)
  (qty : Z) : list CartItem :=
  let i := JS.findIndex (fun item => bool_decide (ci_id item = itemId)) its in
  if 0 <=? i then
    if qty <=? 0 then pull itemId its
    else alter (set_quantity qty) (Z.to_nat i) its
  else its.

(** [cartSchema.methods.updateItemQuantity]. *)
Definition updateItemQuantity (user : ObjectId) (this : Cart)
  (itemId : ObjectId) (qty : Z) : Async Cart :=
  Cart_save user (set_items (updateItemQuantity_items (items this) itemId qty) this).

(** [cartSchema.methods.removeItem]. *)
Definition removeItem (user : ObjectId) (this : Cart) (itemId : ObjectId)
  : Async Cart :=
  Cart_save user (set_items (pull itemId (items this)) this).

(** [cartSchema.methods.clearCart]. *)
Definition clearCart (user : ObjectId) (this : Cart) : Async Cart :=
  Cart_save user (set_items [] this).

(** ** routes/cart.js

    Each handler is modelled after the [authenticate] middleware, with the
    authenticated user's [_id] as [user]. The [express-validator] rules whose
    outcome is not fixed by the types ([isInt({ min })], [notEmpty()]) are the
    first test of the handler, as in the source. The cart sent back is the
    saved document; populating it for the response is not modelled. *)

Inductive CartResponse :=
| CartValidationError
| ProductNotFound
| VariantNotAvailable
| InsufficientStock (available : Z)
| CartNotFound
| ItemNotFound
| CartOk (cart : Cart)
| CartCleared
| CartServerError.

(** [if (!cart) { cart = new Cart({ user, items: [] }) }]. *)
Definition or_new_cart (stored : option Cart) : Cart :=
  match stored with
  | Some cart => cart
  | None => mkCart [] 0%Q 0
  end.

(** The callback of [findIndex] in [POST /api/cart/add]:
    [item.product.toString() === productId] compares the digits of the
    stored id with the string of the request. *)
Definition sent_line (productId : string) (v : ProductVariant)
  (item : CartItem) : bool :=
  bool_decide (ObjectId_toString (ci_product item) = productId)
  && bool_decide (colour (variant item) = colour v)
  && bool_decide (size (variant item) = size v).

(** [Product.findOne({ _id: productId, isActive: true })] for the string of
    the request. *)
Definition Product_findOne_active_sent (productId : string)
  : Async (option Product) :=
  match ObjectId_cast productId with
  | Some id => Product_findOne_active id
  | None => throw CastError
  end.

(** [POST /api/cart/add]. [productId] and [qty] are the fields
    [productId] and [quantity] of the body as they were sent. Assigning
    [newQuantity] to the line and pushing a line cast the value to the
    type of the path; a value that cannot be cast makes [save()] reject. *)
Definition cart_add (user : ObjectId) (productId : string)
  (qty : BodyInt) (col : string) (sz : Size) (fresh : ObjectId)
  : Db -> CartResponse * Db :=
  try_catch
    (if negb (isMongoId productId && isInt_min 1 qty
              && negb (bool_decide (col = ""))) then
       ret CartValidationError
     else
       found <- Product_findOne_active_sent productId ;;
       match found with
       | None => ret ProductNotFound
       | Some product =>
         if negb (bool_decide (p_colour product = col))
            || negb (bool_decide (p_size product = sz))
         then ret VariantNotAvailable
         else if negb (inStock product)
                 || lt_body (availableStock product) qty
         then ret (InsufficientStock (availableStock product))
         else
           stored <- Cart_findOne user ;;
           let cart := or_new_cart stored in
           let existingItemIndex :=
             JS.findIndex (sent_line productId (mkVariant col sz))
                          (items cart) in
           if 0 <=? existingItemIndex then
             match items cart !! Z.to_nat existingItemIndex with
             | None => throw TypeError
             | Some existing =>
               let newQuantity := plus_body (quantity existing) qty in
               if lt_body (availableStock product) newQuantity then
                 ret (InsufficientStock (availableStock product))
               else
                 match BodyInt_toNumber newQuantity with
                 | None => throw ValidationError
                 | Some n =>
                   saved <- Cart_save user
                              (set_items (<[Z.to_nat existingItemIndex :=
                                              set_quantity n existing]>
                                            (items cart)) cart) ;;
                   ret (CartOk saved)
                 end
             end
           else
             match ObjectId_cast productId, BodyInt_toNumber qty with
             | Some id, Some n =>
               saved <- Cart_save user
                          (set_items (items cart ++
                                      [mkCartItem fresh id n
                                                  (mkVariant col sz)
                                                  (p_price product)]) cart) ;;
               ret (CartOk saved)
             | _, _ => throw ValidationError
             end
       end)
    CartServerError.

(** [PUT /api/cart/update/:itemId]. *)
Definition cart_update (user itemId : ObjectId) (qty : Z)
  : Db -> CartResponse * Db :=
  try_catch
    (if negb (0 <=? qty) then ret CartValidationError
     else
       stored <- Cart_findOne user ;;
       match stored with
       | None => ret CartNotFound
       | Some cart =>
         match List.find (fun item => bool_decide (ci_id item = itemId))
                         (items cart) with
         | None => ret ItemNotFound
         | Some item =>
           product <- Product_findById (ci_product item) ;;
           if (0 <? qty)
              && match product with
                 | None => true
                 | Some p => negb (inStock p) || (availableStock p <? qty)
                 end
           then ret (InsufficientStock
                       (match product with
                        | Some p => availableStock p
                        | None => 0
                        end))
           else
             saved <- updateItemQuantity user cart itemId qty ;;
             ret (CartOk saved)
         end
       end)
    CartServerError.

(** [DELETE /api/cart/remove/:itemId]. *)
Definition cart_remove (user itemId : ObjectId) : Db -> CartResponse * Db :=
  try_catch
    (stored <- Cart_findOne user ;;
     match stored with
     | None => ret CartNotFound
     | Some cart => saved <- removeItem user cart itemId ;; ret (CartOk saved)
     end)
    CartServerError.

(** [DELETE /api/cart/clear]. *)
Definition cart_clear (user : ObjectId) : Db -> CartResponse * Db :=
  try_catch
    (stored <- Cart_findOne user ;;
     match stored with
     | None => ret CartCleared
     | Some cart => clearCart user cart ;;; ret CartCleared
     end)
    CartServerError.

(** ** routes/checkout.js *)

Definition Size_toString (s : Size) : string :=
  match s with sm => "sm" | md => "md" | lg => "lg" | xl => "xl" end.

Record StockIssue := mkStockIssue {
  productName : string;
  variantLabel : string;
  requested : Z;
  available : Z
}.

(** One line of [orderSummary.items] and of [orderData.items]. *)
Record OrderLine := mkOrderLine {
  ol_product : ObjectId;
  ol_name : string;
  ol_variant : ProductVariant;
  ol_quantity : Z;
  ol_price : Q
}.

(** The numeric content of [orderSummary]; the random order and payment
    identifiers and the [toFixed] renderings are left out. *)
Record OrderSummary := mkOrderSummary {
  os_customer : ObjectId;
  os_items : list OrderLine;
  os_subtotal : Q;
  os_tax : Q;
  os_shipping : Q;
  os_total : Q;
  os_totalItems : Z;
  os_uniqueProducts : nat
}.

Inductive CheckoutResponse :=
| EmptyCart
| StockIssues (details : list StockIssue)
| CheckoutSummary (summary : OrderSummary)
| CheckoutFailed.

(** [cart.populate('items.product', ...)]: every line paired with the
    product document its reference resolves to, or [null]. *)
Definition populate (cart : Cart) : Async (list (CartItem * option Product)) :=
  db <- get_db ;;
  ret (map (fun item => (item, products db !! ci_product item)) (items cart)).

(** The test of the validation loop of [POST /api/checkout]. *)
Definition unavailable (product : Product) (item : CartItem) : bool :=
  negb (inStock product) || (availableStock product <? quantity item).

Definition issue_of (product : Product) (item : CartItem) : StockIssue :=
  mkStockIssue (p_name product)
    (colour (variant item) ++ "/" ++ Size_toString (size (variant item)))
    (quantity item) (availableStock product).

(** The validation loop, with [stockIssues] as its accumulator. Reading
    [product.inStock] of a [null] product raises a [TypeError]. *)
Fixpoint validate_stock (lines : list (CartItem * option Product))
  (stockIssues : list StockIssue) : Async (list StockIssue) :=
  match lines with
  | [] => ret stockIssues
  | (item, None) :: _ => throw TypeError
  | (item, Some product) :: rest =>
    if unavailable product item
    then validate_stock rest (stockIssues ++ [issue_of product item])
    else validate_stock rest stockIssues
  end.

(** [cart.items.map(item => ({ product: item.product._id, ... }))]. *)
Fixpoint order_lines (lines : list (CartItem * option Product))
  : Async (list OrderLine) :=
  match lines with
  | [] => ret []
  | (item, None) :: _ => throw TypeError
  | (item, Some product) :: rest =>
    tl <- order_lines rest ;;
    ret (mkOrderLine (ci_product item) (p_name product) (variant item)
                     (quantity item) (ci_price item) :: tl)
  end.

(** [POST /api/checkout]. *)
Definition checkout (user : ObjectId) : Db -> CheckoutResponse * Db :=
  try_catch
    (stored <- Cart_findOne user ;;
     match stored with
     | None => ret EmptyCart
     | Some cart =>
       if (length (items cart) =? 0)%nat then ret EmptyCart
       else
         lines <- populate cart ;;
         stockIssues <- validate_stock lines [] ;;
         if (0 <? length stockIssues)%nat then ret (StockIssues stockIssues)
         else
           let subtotal := totalAmount cart in
           let taxRate := (1 # 10)%Q in
           let tax := (subtotal * taxRate)%Q in
           let shippingThreshold := 100%Q in
           let shippingCost :=
             if Qle_bool shippingThreshold subtotal then 0%Q else 10%Q in
           let total := (subtotal + tax + shippingCost)%Q in
           summaryItems <- order_lines lines ;;
           ret (CheckoutSummary
                  (mkOrderSummary user summaryItems subtotal tax shippingCost
                                  total (totalItems cart)
                                  (length (items cart))))
     end)
    CheckoutFailed.

(** [orderData] of [POST /api/checkout/complete]. *)
Record OrderData := mkOrderData {
  od_user : ObjectId;
  od_orderId : string;
  od_items : list OrderLine;
  od_totalAmount : Q;
  od_paymentIntentId : string;
  od_status : Status
}.

Inductive CompleteResponse :=
| CompleteValidationError
| CompleteEmptyCart
| PurchaseCompleted (order : OrderData)
| CompletionFailed.

(** The body of the loop "Update product stock and sold count". *)
Definition sell_line (line : CartItem * option Product) : Async unit :=
  match line with
  | (item, None) => throw TypeError
  | (item, Some _) =>
    product <- Product_findById (ci_product item) ;;
    match product with
    | Some p => updateSoldCount (ci_product item) p (quantity item) ;;; ret tt
    | None => ret tt
    end
  end.

(** [POST /api/checkout/complete]; the simulated payment verification is
    the constant [true] of the source. *)
Definition checkout_complete (user : ObjectId)
  (paymentIntentId orderId : string) : Db -> CompleteResponse * Db :=
  try_catch
    (if bool_decide (paymentIntentId = "") || bool_decide (orderId = "") then
       ret CompleteValidationError
     else
       stored <- Cart_findOne user ;;
       match stored with
       | None => ret CompleteEmptyCart
       | Some cart =>
         if (length (items cart) =? 0)%nat then ret CompleteEmptyCart
         else
           lines <- populate cart ;;
           for_of lines sell_line ;;;
           orderItems <- order_lines lines ;;
           clearCart user cart ;;;
           ret (PurchaseCompleted
                  (mkOrderData user orderId orderItems (totalAmount cart)
                               paymentIntentId confirmed))
       end)
    CompletionFailed.

(** ** models/Order.js: persistence and methods *)

Definition Status_toString (s : Status) : string :=
  match s with
  | pending => "pending" | confirmed => "confirmed"
  | processing => "processing" | shipped => "shipped"
  | delivered => "delivered" | cancelled => "cancelled"
  | refunded => "refunded" | returned => "returned"
  end.

Definition set_orderNumber (n : string) (o : Order) : Order :=
  mkOrder n (o_user o) (o_items o) (subtotal o) (tax o) (taxRate o)
    (shippingCost o) (discount o) (total o) (paymentInfo o) (status o)
    (statusHistory o) (confirmedAt o) (shippedAt o) (deliveredAt o)
    (cancelledAt o) (refund o).

Definition set_status (s : Status) (o : Order) : Order :=
  mkOrder (orderNumber o) (o_user o) (o_items o) (subtotal o) (tax o)
    (taxRate o) (shippingCost o) (discount o) (total o) (paymentInfo o) s
    (statusHistory o) (confirmedAt o) (shippedAt o) (deliveredAt o)
    (cancelledAt o) (refund o).

(** [this.statusHistory.push(entry)]. *)
Definition push_statusHistory (e : HistoryEntry) (o : Order) : Order :=
  mkOrder (orderNumber o) (o_user o) (o_items o) (subtotal o) (tax o)
    (taxRate o) (shippingCost o) (discount o) (total o) (paymentInfo o)
    (status o) (statusHistory o ++ [e]) (confirmedAt o) (shippedAt o)
    (deliveredAt o) (cancelledAt o) (refund o).

Definition set_confirmedAt (d : option Date) (o : Order) : Order :=
  mkOrder (orderNumber o) (o_user o) (o_items o) (subtotal o) (tax o)
    (taxRate o) (shippingCost o) (discount o) (total o) (paymentInfo o)
    (status o) (statusHistory o) d (shippedAt o) (deliveredAt o)
    (cancelledAt o) (refund o).

Definition set_shippedAt (d : option Date) (o : Order) : Order :=
  mkOrder (orderNumber o) (o_user o) (o_items o) (subtotal o) (tax o)
    (taxRate o) (shippingCost o) (discount o) (total o) (paymentInfo o)
    (status o) (statusHistory o) (confirmedAt o) d (deliveredAt o)
    (cancelledAt o) (refund o).

Definition set_deliveredAt (d : option Date) (o : Order) : Order :=
  mkOrder (orderNumber o) (o_user o) (o_items o) (subtotal o) (tax o)
    (taxRate o) (shippingCost o) (discount o) (total o) (paymentInfo o)
    (status o) (statusHistory o) (confirmedAt o) (shippedAt o) d
    (cancelledAt o) (refund o).

Definition set_cancelledAt (d : option Date) (o : Order) : Order :=
  mkOrder (orderNumber o) (o_user o) (o_items o) (subtotal o) (tax o)
    (taxRate o) (shippingCost o) (discount o) (total o) (paymentInfo o)
    (status o) (statusHistory o) (confirmedAt o) (shippedAt o)
    (deliveredAt o) d (refund o).

Definition set_refund (r : option Refund) (o : Order) : Order :=
  mkOrder (orderNumber o) (o_user o) (o_items o) (subtotal o) (tax o)
    (taxRate o) (shippingCost o) (discount o) (total o) (paymentInfo o)
    (status o) (statusHistory o) (confirmedAt o) (shippedAt o)
    (deliveredAt o) (cancelledAt o) r.

(** [orderSchema.virtual('canBeCancelled')]. *)
Definition canBeCancelled (this : Order) : bool :=
  JS.includes [pending; confirmed] (status this).

Definition nonneg (q : Q) : bool := Qle_bool 0 q.

(** The numeric [min]/[max] constraints of [orderSchema] and of its
    subdocuments. *)
Definition Order_validate (o : Order) : bool :=
  forallb (fun item => nonneg (oi_price item) && (1 <=? oi_quantity item))
          (o_items o)
  && nonneg (subtotal o) && nonneg (tax o)
  && nonneg (taxRate o) && Qle_bool (taxRate o) 1
  && nonneg (shippingCost o) && nonneg (d_amount (discount o))
  && nonneg (total o)
  && match paymentInfo o with
     | Some pay => nonneg (pi_amount pay)
     | None => true
     end
  && match refund o with
     | Some r => nonneg (r_amount r)
     | None => true
     end.

(** [orderSchema.pre('save')]. [isNew] carries, for a document that has
    never been saved, the clock reading and the generated order number
    ("ORD", the last eight digits of the timestamp, four random
    characters); it is [None] for a document loaded from the database. *)
Definition Order_preSave (isNew : option (Date * string)) (this : Order)
  : Order :=
  match isNew with
  | Some (now, generated) =>
    push_statusHistory (mkHistoryEntry (status this) now "Order created" None)
                       (set_orderNumber generated this)
  | None => this
  end.

(** [save()] of an order loaded from the database. *)
Definition Order_save (id : ObjectId) (o : Order) : Async Order :=
  if Order_validate o then
    let o' := Order_preSave None o in
    db <- get_db ;;
    put_db (with_orders (<[id := o']> (orders db)) db) ;;;
    ret o'
  else throw ValidationError.

Definition Order_findById (id : ObjectId) : Async (option Order) :=
  db <- get_db ;; ret (orders db !! id).

(** The default of the history note in [updateStatus]:
    [note || `Status changed from ${oldStatus} to ${newStatus}`]. *)
Definition note_or_default (note : string) (oldStatus newStatus : Status)
  : string :=
  if bool_decide (note = "") then
    "Status changed from " ++ Status_toString oldStatus ++ " to "
    ++ Status_toString newStatus
  else note.

(** [orderSchema.methods.updateStatus]. *)
Definition updateStatus (id : ObjectId) (this : Order) (newStatus : Status)
  (note : string) (updatedBy : option ObjectId) (now : Date) : Async Order :=
  let oldStatus := status this in
  let this1 := set_status newStatus this in
  let this2 :=
    push_statusHistory
      (mkHistoryEntry newStatus now (note_or_default note oldStatus newStatus)
                      updatedBy) this1 in
  let this3 :=
    match newStatus with
    | confirmed => set_confirmedAt (Some now) this2
    | shipped => set_shippedAt (Some now) this2
    | delivered => set_deliveredAt (Some now) this2
    | cancelled => set_cancelledAt (Some now) this2
    | _ => this2
    end in
  Order_save id this3.

(** [let discountAmount] of [calculateTotals], as a function of the
    subtotal and the discount record. *)
Definition discountAmount (sub : Q) (d : Discount) : Q :=
  if JS.gt (d_amount d) 0 then
    match d_type d with
    | percentage => sub * (d_amount d / 100)
    | fixed => d_amount d
    end
  else 0.

(** [orderSchema.methods.calculateTotals]. *)
Definition calculateTotals (this : Order) : Order :=
  let subtotal' :=
    JS.reduce (fun total item =>
                 (total + oi_price item * inject_Z (oi_quantity item))%Q)
              0%Q (o_items this) in
  let tax' := (subtotal' * taxRate this)%Q in
  let discountAmount' := discountAmount subtotal' (discount this) in
  let total' :=
    JS.Math_max 0 (subtotal' + tax' + shippingCost this - discountAmount') in
  mkOrder (orderNumber this) (o_user this) (o_items this) subtotal' tax'
    (taxRate this) (shippingCost this) (discount this) total'
    (match paymentInfo this with
     | Some pay => Some (mkPaymentInfo (pi_method pay) total')
     | None => None
     end)
    (status this) (statusHistory this) (confirmedAt this) (shippedAt this)
    (deliveredAt this) (cancelledAt this) (refund this).

(** *** The order routes

    The handlers are modelled after their middleware chain
    ([authenticate], [authorize], the validators): their arguments are
    the authenticated requester and the validated request fields. *)

Record Requester := mkRequester { req_id : ObjectId; req_role : string }.

Inductive OrderResponse :=
| OrderNotFound
| InvalidStatusTransition
| CannotCancelOrder
| InvalidRefundAmount
| OrderOk (order : Order)
| OrderFailed.

(** The table [validTransitions] of [PUT /api/orders/:id/status]. *)
Definition validTransitions (s : Status) : list Status :=
  match s with
  | pending => [confirmed; cancelled]
  | confirmed => [processing; cancelled]
  | processing => [shipped; cancelled]
  | shipped => [delivered; returned]
  | delivered => [returned]
  | cancelled => []
  | refunded => []
  | returned => [refunded]
  end.

(** The body of the two inventory loops of the order routes. *)
Definition adjust_inventory (operation : string) (item : OrderItem)
  : Async unit :=
  product <- Product_findById (oi_product item) ;;
  match product with
  | Some p =>
    releaseReservedInventory (oi_product item) p (oi_quantity item) ;;;
    updateInventory (oi_product item) p (oi_quantity item) operation
  | None => ret tt
  end.

(** "Handle inventory changes based on status". *)
Definition status_inventory (order : Order) (newStatus : Status)
  : Async unit :=
  if bool_decide (newStatus = cancelled)
     && JS.includes [pending; confirmed; processing] (status order)
  then for_of (o_items order) (adjust_inventory "add")
  else if bool_decide (newStatus = shipped)
          && bool_decide (status order = processing)
  then for_of (o_items order) (adjust_inventory "subtract")
  else ret tt.

(** [await order.populate(...).populate(...)]: [populate] of a document
    returns a promise, and a promise has no member [populate], so the
    second call raises a [TypeError]. *)
Definition populate_chain {A} (document : A) : Async A := throw TypeError.

(** [PUT /api/orders/:id/status]. *)
Definition order_status (requester : Requester) (id : ObjectId)
  (newStatus : Status) (note : string) (now : Date)
  : Db -> OrderResponse * Db :=
  try_catch
    (found <- Order_findById id ;;
     match found with
     | None => ret OrderNotFound
     | Some order =>
       if negb (JS.includes (validTransitions (status order)) newStatus)
       then ret InvalidStatusTransition
       else
         status_inventory order newStatus ;;;
         saved <- updateStatus id order newStatus note
                               (Some (req_id requester)) now ;;
         populated <- populate_chain saved ;;
         ret (OrderOk populated)
     end)
    OrderFailed.

(** [Order.findOne(query)] of the owner-or-admin routes. *)
Definition Order_findOwn (requester : Requester) (id : ObjectId)
  : Async (option Order) :=
  db <- get_db ;;
  ret (match orders db !! id with
       | Some o =>
         if bool_decide (req_role requester = "admin")
            || bool_decide (o_user o = req_id requester)
         then Some o else None
       | None => None
       end).

(** [POST /api/orders/:id/cancel]. *)
Definition order_cancel (requester : Requester) (id : ObjectId)
  (reason : string) (now : Date) : Db -> OrderResponse * Db :=
  try_catch
    (found <- Order_findOwn requester id ;;
     match found with
     | None => ret OrderNotFound
     | Some order =>
       if negb (canBeCancelled order) then ret CannotCancelOrder
       else
         saved <- updateStatus id order cancelled
                    (if bool_decide (reason = "") then "Cancelled by user"
                     else reason)
                    (Some (req_id requester)) now ;;
         for_of (o_items saved) (adjust_inventory "add") ;;;
         ret (OrderOk saved)
     end)
    OrderFailed.

Section OrderOperations.

(** The rendering of a number inside a template literal. *)
Variable Number_toString : Q -> string.

Definition refund_note (amount : Q) (reason : string) : string :=
  "Refund processed: $" ++ Number_toString amount ++ ". Reason: " ++ reason.

(** [orderSchema.methods.processRefund]. *)
Definition processRefund (id : ObjectId) (this : Order) (amount : Q)
  (reason : string) (refundId : option string) (now : Date) : Async Order :=
  let this1 := set_refund (Some (mkRefund amount reason now refundId)) this in
  let this2 := set_status refunded this1 in
  let this3 :=
    push_statusHistory
      (mkHistoryEntry refunded now (refund_note amount reason) None) this2 in
  Order_save id this3.

(** What [processRefund] leaves in memory. *)
Definition refunded_order (o : Order) (amount : Q) (reason : string)
  (refundId : option string) (now : Date) : Order :=
  push_statusHistory
    (mkHistoryEntry refunded now (refund_note amount reason)
                    None)
    (set_status refunded
       (set_refund (Some (mkRefund amount reason now refundId)) o)).

(** [POST /api/orders/:id/refund]. *)
Definition order_refund (id : ObjectId) (amount : Q) (reason : string)
  (refundId : option string) (now : Date) : Db -> OrderResponse * Db :=
  try_catch
    (found <- Order_findById id ;;
     match found with
     | None => ret OrderNotFound
     | Some order =>
       if JS.gt amount (total order) then ret InvalidRefundAmount
       else
         saved <- processRefund id order amount reason refundId now ;;
         ret (OrderOk saved)
     end)
    OrderFailed.

End OrderOperations.

(** ** Properties to be checked, as predicates on documents *)

(** The stock invariant of a product. *)
Definition stock_invariant (p : Product) : Prop :=
  0 <= soldCount p <= totalStock p.

(** The sum of the line quantities, and of price times quantity. *)
Fixpoint sum_quantities (its : list CartItem) : Z :=
  match its with
  | [] => 0
  | item :: rest => quantity item + sum_quantities rest
  end.

Fixpoint sum_amounts (its : list CartItem) : Q :=
  match its with
  | [] => 0
  | item :: rest => ci_price item * inject_Z (quantity item) + sum_amounts rest
  end.

Fixpoint sum_order_amounts (its : list OrderItem) : Q :=
  match its with
  | [] => 0
  | item :: rest =>
    oi_price item * inject_Z (oi_quantity item) + sum_order_amounts rest
  end.

Definition cart_totals_ok (c : Cart) : Prop :=
  totalItems c = sum_quantities (items c)
  /\ (totalAmount c == sum_amounts (items c))%Q.

(** What identifies a line of a cart: the product and its variant. *)
Definition line_key (item : CartItem) : ObjectId * string * Size :=
  (ci_product item, colour (variant item), size (variant item)).

Definition distinct_lines (its : list CartItem) : Prop :=
  NoDup (map line_key its).

(** The lines of a cart for one product and variant. *)
Definition lines_of (productId : ObjectId) (v : ProductVariant)
  (its : list CartItem) : list CartItem :=
  List.filter (same_line productId v) its.


(** The stock conflicts of a list of cart lines, in the order of the lines:
    one entry for each line whose product is flagged out of stock or has
    less available stock than the line asks for. *)
Definition conflicts (db : Db) (its : list CartItem) : list StockIssue :=
  flat_map (fun item =>
              match products db !! ci_product item with
              | Some p => if unavailable p item then [issue_of p item] else []
              | None => []
              end) its.

(** The database a handler leaves. *)
Definition after {R} (handler : Db -> R * Db) (db : Db) : Db :=
  snd (handler db).

(** ** The writes of the cart handlers *)

(** What a handler may do to the cart collection: nothing, or store
    the user's cart with other lines, after the pre-save hook. *)
Definition cart_write (user : N) (db db' : Db) : Prop :=
  carts db' = carts db
  \/ exists its',
      carts db'
      = <[user := Cart_preSave
                    (set_items its' (or_new_cart (carts db !! user)))]>
          (carts db).

(** A property that holds of every stored cart. *)
Definition carts_satisfy (P : Cart -> Prop) (db : Db) : Prop :=
  forall user c, carts db !! user = Some c -> P c.

(** The requests through which a user's cart is read or written, as
    database transformers. *)
Inductive cart_request (user : N) : (Db -> Db) -> Prop :=
| request_add pid qty col sz fresh :
    cart_request user (after (cart_add user pid qty col sz fresh))
| request_update itemId qty :
    cart_request user (after (cart_update user itemId qty))
| request_remove itemId :
    cart_request user (after (cart_remove user itemId))
| request_clear :
    cart_request user (after (cart_clear user))
| request_complete paymentIntentId orderId :
    cart_request user (after (checkout_complete user paymentIntentId orderId)).

(** The requests of the model, as database transformers. *)
Inductive api_request : (Db -> Db) -> Prop :=
| api_cart user step :
    cart_request user step -> api_request step
| api_checkout user :
    api_request (after (checkout user))
| api_order_status requester id newStatus note now :
    api_request (after (order_status requester id newStatus note now))
| api_order_cancel requester id reason now :
    api_request (after (order_cancel requester id reason now))
| api_order_refund render id amount reason refundId now :
    api_request (after (order_refund render id amount reason refundId now)).

(** The databases that a sequence of requests leads to from [start]. *)
Inductive reachable (start : Db) : Db -> Prop :=
| reachable_start : reachable start start
| reachable_step db step :
    reachable start db -> api_request step -> reachable start (step db).

(** The order that [Order.findOne(query)] of the cancel route yields. *)
Definition visible_to (requester : Requester) (o : Order) : Prop :=
  req_role requester = "admin" \/ o_user o = req_id requester.

(** ** Sample data *)

Module Sample.

Definition tee : Product := mkProduct "Tee" 20 "black" md true 3 0 true.

(** The id of the tee, product [1], as a client sends it. *)
Definition tee_id : string := "000000000000000000000001".

Definition alice : ObjectId := 10%N.
Definition bob : ObjectId := 11%N.

(** One product with three pieces in stock, no cart, no order. *)
Definition shop : Db := mkDb {[ 1%N := tee ]} ∅ ∅.

Definition tee_line (id : ObjectId) (qty : Z) : CartItem :=
  mkCartItem id 1%N qty (mkVariant "black" md) 20.

(** The cart and the database after a [POST /api/cart/add] of alice for
    two tees. *)
Definition cart_of_two : Cart := Cart_preSave (mkCart [tee_line 100 2] 0 0).
Definition shop_added_once : Db :=
  after (cart_add alice tee_id (AsNumber 2) "black" md 100) shop.

(** Alice and bob each put the three tees in stock into their carts, and
    each completes a checkout. *)
Definition both_carted : Db :=
  after (cart_add bob tee_id (AsNumber 3) "black" md 101)
        (after (cart_add alice tee_id (AsNumber 3) "black" md 100) shop).
Definition alice_paid : Db :=
  after (checkout_complete alice "pi_a" "ORD-A") both_carted.
Definition both_paid : Db :=
  after (checkout_complete bob "pi_b" "ORD-B") alice_paid.

(** A shop with one product whose id, [10], has a letter among its
    hexadecimal digits, and the two spellings of that id. *)
Definition cap : Product := mkProduct "Cap" 15 "red" lg true 30 0 true.
Definition cap_id : string := "00000000000000000000000a".
Definition cap_id_in_capitals : string := "00000000000000000000000A".
Definition cap_shop : Db := mkDb {[ 10%N := cap ]} ∅ ∅.
Definition cap_line (id : ObjectId) (qty : Z) : CartItem :=
  mkCartItem id 10%N qty (mkVariant "red" lg) 15.

(** A catalogue of three products, one of them sold out, and a cart of
    carol that was filled when more was in stock. *)
Definition hat : Product := mkProduct "Hat" 15 "red" lg false 4 4 true.
Definition scarf : Product := mkProduct "Scarf" 10 "blue" sm true 9 0 true.
Definition carol : ObjectId := 12%N.
Definition stale_cart : Cart :=
  Cart_preSave
    (mkCart [tee_line 200 5;
             mkCartItem 201 2 1 (mkVariant "red" lg) 15;
             mkCartItem 202 3 1 (mkVariant "blue" sm) 10] 0 0).
Definition stale_shop : Db :=
  mkDb {[ 1%N := tee; 2%N := hat; 3%N := scarf ]} {[ carol := stale_cart ]} ∅.

(** The same shop after the scarf was deleted from the catalogue; carol's
    cart keeps its line for it. *)
Definition stale_shop_scarf_deleted : Db :=
  mkDb {[ 1%N := tee; 2%N := hat ]} {[ carol := stale_cart ]} ∅.

Definition order_in (s : Status) : Order :=
  mkOrder "ORD12345678ABCD" alice [mkOrderItem 1%N "Tee" 20 2]
          40 4 (1 # 10) 10 (mkDiscount 0 "" fixed) 54
          (Some (mkPaymentInfo "stripe" 54)) s
          [mkHistoryEntry pending 1000 "Order created" None]
          None None None None None.

(** The same order after the administrator confirmed it at time 2000. *)
Definition confirmed_order : Order :=
  mkOrder "ORD12345678ABCD" alice [mkOrderItem 1%N "Tee" 20 2]
          40 4 (1 # 10) 10 (mkDiscount 0 "" fixed) 54
          (Some (mkPaymentInfo "stripe" 54)) confirmed
          [mkHistoryEntry pending 1000 "Order created" None;
           mkHistoryEntry confirmed 2000
             "Status changed from pending to confirmed" (Some 1%N)]
          (Some 2000) None None None None.

(** An order whose fixed discount is larger than what it adds up to. *)
Definition overdiscounted_order : Order :=
  mkOrder "ORD12345678WXYZ" alice [mkOrderItem 1%N "Tee" 20 2]
          0 0 (1 # 10) 10 (mkDiscount 100 "WELCOME" fixed) 0
          None pending [] None None None None None.

(** The shop with one order of alice, in the given status. *)
Definition shop_with_order (s : Status) : Db :=
  mkDb {[ 1%N := tee ]} ∅ {[ 7%N := order_in s ]}.

(** The same, after the tee was deleted from the catalogue. *)
Definition archive_with_order (s : Status) : Db :=
  mkDb ∅ ∅ {[ 7%N := order_in s ]}.

Definition admin : Requester := mkRequester 1%N "admin".

(** A rendering of numbers that is right on integers. *)
Definition show (q : Q) : string := pretty (Qnum q / Z.pos (Qden q)).

End Sample.

(** ** Further definitions *)

(** The callback of [this.items.id(itemId)]. *)
Definition has_id (itemId : N) (item : CartItem) : bool :=
  bool_decide (ci_id item = itemId).

(** The pieces of product [pid] that a list of cart lines asks for. *)
Fixpoint sold (pid : N) (its : list CartItem) : Z :=
  match its with
  | [] => 0
  | item :: rest =>
    (if bool_decide (ci_product item = pid) then quantity item else 0)
    + sold pid rest
  end.

(** [p'] is [p] with [n] more pieces sold: the other fields, but for the
    [inStock] flag, are those of [p]. *)
Definition sold_more (n : Z) (p p' : Product) : Prop :=
  soldCount p' = soldCount p + n /\ totalStock p' = totalStock p
  /\ p_name p' = p_name p /\ p_price p' = p_price p
  /\ p_colour p' = p_colour p /\ p_size p' = p_size p
  /\ isActive p' = isActive p.

(** The product collection [ps'] is [ps] with the pieces of [its] sold. *)
Definition products_sold (its : list CartItem) (ps ps' : gmap N Product)
  : Prop :=
  forall pid,
    match ps !! pid, ps' !! pid with
    | Some p, Some p' => sold_more (sold pid its) p p'
    | None, None => True
    | _, _ => False
    end.

(** Every stored product passes the schema validators. *)
Definition products_valid (db : Db) : Prop :=
  forall pid p, products db !! pid = Some p -> Product_validate p = true.

(** The line of [orderSummary.items] and [orderData.items] for a cart
    line and the name of its product. *)
Definition line_of (db : Db) (item : CartItem) : OrderLine :=
  mkOrderLine (ci_product item)
              (match products db !! ci_product item with
               | Some p => p_name p
               | None => ""
               end)
              (variant item) (quantity item) (ci_price item).

(** ** Properties of the database that computations keep *)

(** The computation [m] keeps the property [I] of the database, whether it
    is fulfilled or rejected. *)
Definition preserves (I : Db -> Prop) {A} (m : Async A) : Prop :=
  forall db, I db -> I (snd (m db)).

(** Every stored order passes the schema validators. *)
Definition orders_valid (db : Db) : Prop :=
  forall id o, orders db !! id = Some o -> Order_validate o = true.

(** Every stored cart, product and order passes the numeric validators of
    its schema. *)
Definition documents_valid (db : Db) : Prop :=
  carts_satisfy (fun c => Cart_validate c = true) db
  /\ products_valid db /\ orders_valid db.

(** The [inStock] flag of every stored product is the one its pre-save
    hook computes. *)
Definition inStock_agrees (db : Db) : Prop :=
  forall pid p, products db !! pid = Some p ->
                inStock p = (0 <? availableStock p).

(** ** How the collections evolve *)

(** From [ps] to [ps'] no product was added or removed, and each product
    has sold some more pieces, or none. *)
Definition products_grow (ps ps' : gmap N Product) : Prop :=
  forall pid,
    match ps !! pid, ps' !! pid with
    | Some p, Some p' => exists n, 0 <= n /\ sold_more n p p'
    | None, None => True
    | _, _ => False
    end.

(** The order [o'] is [o] further along: same number, owner, lines and
    amounts, and a status history that continues the one of [o]. *)
Definition order_extends (o o' : Order) : Prop :=
  orderNumber o' = orderNumber o /\ o_user o' = o_user o
  /\ o_items o' = o_items o /\ subtotal o' = subtotal o /\ tax o' = tax o
  /\ taxRate o' = taxRate o /\ shippingCost o' = shippingCost o
  /\ discount o' = discount o /\ total o' = total o
  /\ paymentInfo o' = paymentInfo o
  /\ exists more, statusHistory o' = (statusHistory o ++ more)%list.

(** From [os] to [os'] no order was added or removed, and each order is
    further along. *)
Definition orders_extend (os os' : gmap N Order) : Prop :=
  forall id,
    match os !! id, os' !! id with
    | Some o, Some o' => order_extends o o'
    | None, None => True
    | _, _ => False
    end.

(** ** Sequences of status updates *)

(** The status that the collection holds for an order. *)
Definition stored_status (id : ObjectId) (db : Db) : option Status :=
  status <$> orders db !! id.

(** The requests of the list, sent one after the other to
    [PUT /api/orders/:id/status] for the order [id]: the database they
    leave when every one of them changes the status that is stored for the
    order, and [None] as soon as one does not. *)
Fixpoint status_updates (requester : Requester) (id : ObjectId)
  (reqs : list (Status * string * Date)) (db : Db) : option Db :=
  match reqs with
  | [] => Some db
  | (newStatus, note, now) :: rest =>
    let db' := after (order_status requester id newStatus note now) db in
    if bool_decide (stored_status id db' = stored_status id db) then None
    else status_updates requester id rest db'
  end.

(** How far along the table [validTransitions] a status is: the length of
    the longest way to it from [pending]. *)
Definition status_rank (s : Status) : nat :=
  match s with
  | pending => 0 | confirmed => 1 | processing => 2 | shipped => 3
  | delivered => 4 | returned => 5 | refunded => 6 | cancelled => 6
  end.

(** ** middleware/auth.js: the role check *)

(** What a middleware does with a request: it calls [next()], or it answers
    with status 401 or 403. *)
Inductive Gate := Next | AccessDenied | Forbidden.

(** [authorize(...roles)], applied to [req.user]. *)
Definition authorize (roles : list string) (user : option Requester) : Gate :=
  match user with
  | None => AccessDenied
  | Some u => if negb (JS.includes roles (req_role u)) then Forbidden else Next
  end.

(** A handler behind [authorize(...roles)]: the answer of the middleware
    when it does not call [next()], and the answer of the handler
    otherwise. *)
Definition behind {R} (roles : list string) (user : option Requester)
  (handler : Requester -> Db -> R * Db) (db : Db) : (Gate + R) * Db :=
  match authorize roles user, user with
  | Next, Some requester =>
    let (response, db') := handler requester db in (inr response, db')
  | Next, None => (inl AccessDenied, db)
  | refusal, _ => (inl refusal, db)
  end.

(** ** The other order routes *)

(** [orderSchema.methods.addTracking]; the [tracking] subdocument it
    assigns is not part of the model of an order, so what is left of the
    method is its [save()]. *)
Definition addTracking (id : ObjectId) (this : Order) : Async Order :=
  Order_save id this.

(** [PUT /api/orders/:id/tracking]. *)
Definition order_tracking (requester : Requester) (id : ObjectId)
  (now : Date) : Db -> OrderResponse * Db :=
  try_catch
    (found <- Order_findById id ;;
     match found with
     | None => ret OrderNotFound
     | Some order =>
       tracked <- addTracking id order ;;
       if bool_decide (status tracked = processing) then
         shipped <- updateStatus id tracked shipped
                      "Order shipped with tracking information"
                      (Some (req_id requester)) now ;;
         ret (OrderOk shipped)
       else ret (OrderOk tracked)
     end)
    OrderFailed.

(** The [invoice] object of [GET /api/orders/:id/invoice], without the
    customer, the addresses and the order date. *)
Record Invoice := mkInvoice {
  inv_orderNumber : string;
  inv_items : list OrderItem;
  inv_subtotal : Q;
  inv_tax : Q;
  inv_shippingCost : Q;
  inv_total : Q;
  inv_paymentMethod : string
}.

Inductive OrderView :=
| ViewNotFound
| ViewOrder (order : Order)
| ViewInvoice (invoice : Invoice)
| ViewServerError.

(** [GET /api/orders/:id]. *)
Definition order_get (requester : Requester) (id : ObjectId)
  : Db -> OrderView * Db :=
  try_catch
    (found <- Order_findOwn requester id ;;
     match found with
     | None => ret ViewNotFound
     | Some order => ret (ViewOrder order)
     end)
    ViewServerError.

(** [GET /api/orders/:id/invoice]; reading [order.paymentInfo.method] of an
    order without payment record raises a [TypeError]. *)
Definition order_invoice (requester : Requester) (id : ObjectId)
  : Db -> OrderView * Db :=
  try_catch
    (found <- Order_findOwn requester id ;;
     match found with
     | None => ret ViewNotFound
     | Some order =>
       match paymentInfo order with
       | None => throw TypeError
       | Some pay =>
         ret (ViewInvoice
                (mkInvoice (orderNumber order) (o_items order)
                           (subtotal order) (tax order) (shippingCost order)
                           (total order) (pi_method pay)))
       end
     end)
    ViewServerError.

(** ** [POST /api/orders] *)

(** [product.availableQuantity]: [productSchema] has no path and no virtual
    of this name (the virtual is [availableStock]), so the member access
    yields [undefined]. *)
Definition availableQuantity (p : Product) : option Z := None.

(** [a < b] on numbers, where [a] may be [undefined]: the comparison with
    [undefined] is false. *)
Definition lt_undefined (a : option Z) (b : Z) : bool :=
  match a with
  | Some x => x <? b
  | None => false
  end.

(** [product.reserveInventory(quantity)]: not a member of
    [productSchema.methods], so the call raises a [TypeError]. *)
Definition reserveInventory (id : ObjectId) (this : Product) (qty : Z)
  : Async unit := throw TypeError.

Inductive CreateResponse :=
| CreateProductNotFound (product : ObjectId)
| CreateProductUnavailable (name : string)
| CreateInsufficientStock (name : string)
| OrderCreated (order : Order)
| OrderCreationFailed.

(** [try { ... } catch { }] around a statement: the exception is logged and
    dropped. *)
Definition swallow (m : Async unit) : Async unit :=
  fun db =>
    match m db with
    | (Rejected _, db') => (Fulfilled tt, db')
    | done => done
    end.

(** "Release any reserved inventory on error", the loop of the [catch]
    block. *)
Definition release_on_error (items : list (ObjectId * Z)) : Async unit :=
  for_of items
    (fun item =>
       swallow
         (product <- Product_findById item.1 ;;
          match product with
          | Some p => releaseReservedInventory item.1 p item.2
          | None => ret tt
          end)).

Section OrderCreation.

(** What the handler does with the request once its loop over the items
    has come to its end: the totals, [new Order(orderData)],
    [calculateTotals()] and the first [save()]. *)
Variable create_order : list (ObjectId * Z) -> Async CreateResponse.

(** The loop "Validate and calculate order totals" over the items that are
    left, followed by the rest of the [try] block; a [return] inside the
    loop ends the handler with its answer. The lines and the subtotal that
    the loop collects are read by [create_order] only. *)
Fixpoint create_from (all left : list (ObjectId * Z))
  : Async CreateResponse :=
  match left with
  | [] => create_order all
  | item :: rest =>
    product <- Product_findById item.1 ;;
    match product with
    | None => ret (CreateProductNotFound item.1)
    | Some p =>
      if negb (isActive p) then ret (CreateProductUnavailable (p_name p))
      else if lt_undefined (availableQuantity p) item.2
      then ret (CreateInsufficientStock (p_name p))
      else reserveInventory item.1 p item.2 ;;; create_from all rest
    end
  end.

(** [POST /api/orders], for a body that passed [validateOrder]. *)
Definition order_create (items : list (ObjectId * Z))
  : Db -> CreateResponse * Db :=
  fun db =>
    match create_from items items db with
    | (Fulfilled response, db') => (response, db')
    | (Rejected _, db') =>
      (OrderCreationFailed, snd (release_on_error items db'))
    end.

End OrderCreation.

(** ** middleware/auth.js: the limit on sensitive operations *)

Inductive Limited := Passed | TooManyAttempts.

(** One request through the middleware that
    [sensitiveOperationLimit(maxAttempts, windowMs)] returns. [attempts] is
    the [Map] of the closure, from a key to the times of the attempts that
    are kept for it; [key] is [req.ip + (req.user ? req.user._id : '')] and
    [now] the reading of [Date.now()]. *)
Definition sensitiveOperationLimit (maxAttempts windowMs : Z) (key : string)
  (now : Z) (attempts : gmap string (list Z))
  : Limited * gmap string (list Z) :=
  let windowStart := now - windowMs in
  let attempts1 :=
    match attempts !! key with
    | Some times =>
      <[key := filter (fun time => windowStart < time) times]> attempts
    | None => attempts
    end in
  let userAttempts := default [] (attempts1 !! key) in
  if maxAttempts <=? Z.of_nat (length userAttempts) then
    (TooManyAttempts, attempts1)
  else (Passed, <[key := (userAttempts ++ [now])%list]> attempts1).

(** The [Map] after a sequence of requests, each a key and a time. *)
Fixpoint attempts_after (maxAttempts windowMs : Z)
  (reqs : list (string * Z)) (attempts : gmap string (list Z))
  : gmap string (list Z) :=
  match reqs with
  | [] => attempts
  | (key, now) :: rest =>
    attempts_after maxAttempts windowMs rest
      (snd (sensitiveOperationLimit maxAttempts windowMs key now attempts))
  end.

(** The times of the requests of the sequence that were made under [key]
    and that the middleware let pass. *)
Fixpoint passed_attempts (maxAttempts windowMs : Z) (key : string)
  (reqs : list (string * Z)) (attempts : gmap string (list Z)) : list Z :=
  match reqs with
  | [] => []
  | (k, now) :: rest =>
    let (verdict, attempts') :=
      sensitiveOperationLimit maxAttempts windowMs k now attempts in
    (match verdict with
     | Passed => if bool_decide (k = key) then [now] else []
     | TooManyAttempts => []
     end ++ passed_attempts maxAttempts windowMs key rest attempts')%list
  end.

(** The clock does not go back: no time of the list is earlier than one
    before it. *)
Fixpoint in_time_order (times : list Z) : Prop :=
  match times with
  | [] => True
  | t :: rest => Forall (Z.le t) rest /\ in_time_order rest
  end.

(** What the [Map] and the attempts [acc] that passed under [key] have to
    do with each other once the clock has reached [T]: the kept times are
    the passed ones as far as any later window is concerned, no passed
    attempt is later than [T], and no window holds more than [maxAttempts]
    of them. *)
Definition window_invariant (maxAttempts windowMs : Z) (key : string)
  (attempts : gmap string (list Z)) (acc : list Z) (T : Z) : Prop :=
  (forall c, T - windowMs <= c ->
             filter (fun time => c < time) (default [] (attempts !! key))
             = filter (fun time => c < time) acc)
  /\ Forall (fun a => a <= T) acc
  /\ forall t,
      Z.of_nat (length (filter (fun a => t - windowMs < a /\ a <= t) acc))
      <= maxAttempts.

(** ** models/Order.js: the other virtuals and the statistics *)

(** [orderSchema.virtual('itemsCount')]. *)
Definition itemsCount (this : Order) : Z :=
  JS.reduce (fun total item => total + oi_quantity item) 0 (o_items this).

(** [orderSchema.virtual('isCompleted')]. *)
Definition isCompleted (this : Order) : bool :=
  JS.includes [delivered; cancelled; refunded; returned] (status this).



(** [{ $sum: { $cond: [{ $eq: ['$status', s] }, 1, 0] } }]. *)
Definition count_status (s : Status) (os : list Order) : Z :=
  JS.reduce (fun n o => n + (if bool_decide (status o = s) then 1 else 0))
            0 os.




(** ** middleware/auth.js: the permission checks *)

(** What the permission checks read of [req.user]; [permissions] may be
    missing. *)
Record User := mkUser {
  u_role : string;
  u_permissions : option (list string)
}.

(** [req.user.permissions && req.user.permissions.includes(permission)]. *)
Definition has_permission (u : User) (permission : string) : bool :=
  match u_permissions u with
  | Some granted => JS.includes granted permission
  | None => false
  end.

(** [checkPermission(permission)], applied to [req.user]. *)
Definition checkPermission (permission : string) (user : option User)
  : Gate :=
  match user with
  | None => AccessDenied
  | Some u =>
    if bool_decide (u_role u = "admin") then Next
    else if negb (has_permission u permission) then Forbidden
    else Next
  end.

(** [checkAnyPermission(...permissions)], applied to [req.user]. *)
Definition checkAnyPermission (permissions : list string)
  (user : option User) : Gate :=
  match user with
  | None => AccessDenied
  | Some u =>
    if bool_decide (u_role u = "admin") then Next
    else
      let hasPermission := existsb (has_permission u) permissions in
      if negb hasPermission then Forbidden else Next
  end.

(** * Proofs *)

Local Open Scope list_scope.
Local Open Scope Z_scope.

(** ** Running asynchronous computations *)

Ltac async_unfold :=
  unfold try_catch, bind, ret, throw, get_db, put_db in *.

Ltac case_if :=
  match goal with
  | H : context [if ?b then _ else _] |- _ => destruct b eqn:?
  | |- context [if ?b then _ else _] => destruct b eqn:?
  end.

(** ** Carts: what [save()] persists *)

Lemma reduce_quantities (its : list CartItem) (a : Z) :
  JS.reduce (fun total item => total + quantity item) a its
  = a + sum_quantities its.
Proof.
  unfold JS.reduce. revert a.
  induction its as [|item rest IH]; intros a; simpl.
  - lia.
  - rewrite IH. lia.
Qed.

Lemma reduce_amounts (its : list CartItem) (a : Q) :
  (JS.reduce (fun total item =>
                total + ci_price item * inject_Z (quantity item)) a its
   == a + sum_amounts its)%Q.
Proof.
  unfold JS.reduce. revert a.
  induction its as [|item rest IH]; intros a; simpl.
  - rewrite Qplus_0_r. reflexivity.
  - rewrite IH. rewrite Qplus_assoc. reflexivity.
Qed.

Lemma Cart_preSave_totals (c : Cart) : cart_totals_ok (Cart_preSave c).
Proof.
  unfold cart_totals_ok, Cart_preSave; simpl. split.
  - rewrite reduce_quantities. lia.
  - rewrite reduce_amounts. apply Qplus_0_l.
Qed.

Lemma Cart_save_fulfilled (user : ObjectId) (c c' : Cart) (db db' : Db) :
  Cart_save user c db = (Fulfilled c', db') ->
  Cart_validate c = true /\ c' = Cart_preSave c
  /\ db' = with_carts (<[user := c']> (carts db)) db.
Proof.
  unfold Cart_save. destruct (Cart_validate c); async_unfold; simpl.
  - intros [= <- <-]. auto.
  - discriminate.
Qed.

Lemma Cart_save_rejected (user : ObjectId) (c : Cart) (db db' : Db) e :
  Cart_save user c db = (Rejected e, db') -> db' = db.
Proof.
  unfold Cart_save. destruct (Cart_validate c); async_unfold; simpl.
  - discriminate.
  - intros [= _ <-]. reflexivity.
Qed.

(** Whatever [save()] persists is stored under the owner, with the lines
    it was given and with the aggregates recomputed from them. *)
Lemma Cart_save_persists (user : ObjectId) (c c' : Cart) (db db' : Db) :
  Cart_save user c db = (Fulfilled c', db') ->
  carts db' !! user = Some c' /\ items c' = items c /\ cart_totals_ok c'
  /\ products db' = products db /\ orders db' = orders db.
Proof.
  intros H. apply Cart_save_fulfilled in H as (Hv & -> & ->).
  simpl. rewrite lookup_insert_eq.
  repeat split; try reflexivity; apply Cart_preSave_totals.
Qed.

(** ** [findIndex] *)

Lemma findIndex_none {A} (f : A -> bool) (l : list A) :
  JS.findIndex f l < 0 -> List.filter f l = [].
Proof.
  induction l as [|x l IH]; simpl; [done|].
  destruct (f x); [lia|].
  destruct (JS.findIndex f l <? 0) eqn:E; [|lia].
  intros _. apply IH. lia.
Qed.

Lemma findIndex_none_inv {A} (f : A -> bool) (l : list A) :
  List.filter f l = [] -> JS.findIndex f l = -1.
Proof.
  induction l as [|x l IH]; simpl; [done|].
  destruct (f x); [done|].
  intros H. rewrite (IH H). reflexivity.
Qed.

Lemma alter_middle {A} (f : A -> A) (l1 l2 : list A) (x : A) :
  alter f (length l1) (l1 ++ x :: l2) = l1 ++ f x :: l2.
Proof. induction l1 as [|y l1 IH]; simpl; [done|]. by f_equal. Qed.

Lemma findIndex_split {A} (f : A -> bool) (l : list A) :
  0 <= JS.findIndex f l ->
  exists l1 x l2,
    l = l1 ++ x :: l2 /\ f x = true /\ List.filter f l1 = []
    /\ Z.to_nat (JS.findIndex f l) = length l1.
Proof.
  induction l as [|x l IH]; simpl; [lia|].
  destruct (f x) eqn:Hx.
  - intros _. exists [], x, l. by rewrite Hx.
  - destruct (Z.ltb_spec (JS.findIndex f l) 0) as [Hlt | Hge]; [lia|].
    intros _. destruct (IH Hge) as (l1 & y & l2 & -> & Hy & Hl1 & Hn).
    exists (x :: l1), y, l2. simpl. rewrite Hx.
    repeat split; try done. lia.
Qed.

Lemma insert_middle {A} (l1 l2 : list A) (x y : A) :
  <[length l1 := y]> (l1 ++ x :: l2) = l1 ++ y :: l2.
Proof. induction l1 as [|z l1 IH]; simpl; [done|]. by f_equal. Qed.

Lemma lookup_middle {A} (l1 l2 : list A) (x : A) :
  (l1 ++ x :: l2) !! length l1 = Some x.
Proof. induction l1 as [|z l1 IH]; simpl; [done|]. exact IH. Qed.

(** ** The digits of an [ObjectId] *)

Lemma hex_value_digit (d : N) :
  (d < 16)%N -> hex_value (hex_digit d) = Some d.
Proof.
  intros Hd.
  destruct d as [|p]; [reflexivity|].
  do 4 (destruct p as [p|p|]; try reflexivity); lia.
Qed.

Lemma length_hex_digits (k : nat) (n : N) (acc : string) :
  String.length (hex_digits k n acc) = (k + String.length acc)%nat.
Proof.
  revert n acc. induction k as [|k IH]; intros n acc; simpl; [done|].
  rewrite IH. simpl. lia.
Qed.

(** Reading the [k] digits of [n] back gives [n] modulo [16 ^ k]. *)
Lemma hex_number_digits (k : nat) (n : N) (acc : string) (a : N) :
  hex_number (hex_digits k n acc) a
  = hex_number acc (a * 16 ^ N.of_nat k + n mod 16 ^ N.of_nat k)%N.
Proof.
  revert n acc a. induction k as [|k IH]; intros n acc a.
  - simpl. f_equal. rewrite N.mod_1_r. lia.
  - cbn [hex_digits]. rewrite IH. cbn [hex_number].
    rewrite hex_value_digit by (apply N.mod_upper_bound; lia).
    f_equal.
    rewrite Nat2N.inj_succ, N.pow_succ_r'.
    rewrite (N.Div0.mod_mul_r n 16 (16 ^ N.of_nat k)). lia.
Qed.

Lemma hex_digits_mod (k : nat) (n : N) (acc : string) :
  hex_digits k (n mod 16 ^ N.of_nat k) acc = hex_digits k n acc.
Proof.
  revert n acc. induction k as [|k IH]; intros n acc; [reflexivity|].
  cbn [hex_digits].
  rewrite Nat2N.inj_succ, N.pow_succ_r'.
  rewrite (N.Div0.mod_mul_r n 16 (16 ^ N.of_nat k)).
  assert (H1 : ((n mod 16 + 16 * ((n / 16) mod 16 ^ N.of_nat k)) mod 16
                = n mod 16)%N).
  { rewrite (N.mul_comm 16), N.Div0.mod_add.
    apply N.Div0.mod_mod. }
  assert (H2 : ((n mod 16 + 16 * ((n / 16) mod 16 ^ N.of_nat k)) / 16
                = (n / 16) mod 16 ^ N.of_nat k)%N).
  { rewrite (N.mul_comm 16), N.div_add by lia.
    rewrite (N.div_small (n mod 16) 16) by (apply N.mod_upper_bound; lia).
    lia. }
  rewrite H1, H2. apply IH.
Qed.

(** An id that is sent as it prints is cast to itself; ids are below
    [16 ^ 24]. *)
Lemma ObjectId_cast_toString (id : N) :
  ObjectId_cast (ObjectId_toString id) = Some (id mod 16 ^ 24)%N.
Proof.
  unfold ObjectId_cast, ObjectId_toString.
  rewrite length_hex_digits. simpl String.length.
  change (24 + 0 =? 24)%nat with true. cbv iota.
  rewrite (hex_number_digits 24 id "" 0). reflexivity.
Qed.

(** The id that a string is cast to prints as every id that prints as the
    string does. *)
Lemma ObjectId_toString_cast (s : string) (id id' : N) :
  ObjectId_toString id' = s -> ObjectId_cast s = Some id ->
  ObjectId_toString id = ObjectId_toString id'.
Proof.
  intros <-. rewrite ObjectId_cast_toString. intros [= <-].
  apply (hex_digits_mod 24 id' "").
Qed.

(** ** Merging of cart lines *)

Lemma same_line_key (productId : N) (v : ProductVariant) (item : CartItem) :
  same_line productId v item = true
  <-> line_key item = (productId, colour v, size v).
Proof.
  unfold same_line, line_key. rewrite !andb_true_iff, !bool_decide_eq_true.
  split; [intros [[-> ->] ->]; reflexivity | intros [= -> -> ->]; auto].
Qed.

Lemma filter_nil_not_in (productId : N) (v : ProductVariant)
  (its : list CartItem) :
  List.filter (same_line productId v) its = [] ->
  ~ In (productId, colour v, size v) (map line_key its).
Proof.
  induction its as [|item its IH]; simpl; [tauto|].
  destruct (same_line productId v item) eqn:E; [discriminate|].
  intros H [Hk | Hin]; [|by apply IH].
  apply same_line_key in Hk. congruence.
Qed.

Lemma map_line_key_alter (q : CartItem -> Z) (i : nat) (its : list CartItem) :
  map line_key (alter (fun item => set_quantity (q item) item) i its)
  = map line_key its.
Proof.
  revert i. induction its as [|item its IH]; intros [|i]; simpl; try done.
  f_equal. apply IH.
Qed.

Lemma addItem_items_distinct its productId qty v price fresh :
  distinct_lines its ->
  distinct_lines (addItem_items its productId qty v price fresh).
Proof.
  unfold distinct_lines, addItem_items. intros Hnd.
  destruct (0 <=? JS.findIndex (same_line productId v) its) eqn:Hi.
  - by rewrite map_line_key_alter.
  - rewrite map_app. simpl. apply NoDup_app. repeat split.
    + exact Hnd.
    + intros k Hk Hk'. apply list_elem_of_singleton in Hk'. subst k.
      apply list_elem_of_In in Hk. revert Hk.
      apply filter_nil_not_in, findIndex_none. by apply Z.leb_gt.
    + apply NoDup_singleton.
Qed.

Lemma findIndex_first {A} (f : A -> bool) (l1 l2 : list A) (x : A) :
  f x = true -> List.filter f l1 = [] ->
  JS.findIndex f (l1 ++ x :: l2) = Z.of_nat (length l1).
Proof.
  intros Hx. induction l1 as [|y l1 IH]; simpl.
  - by rewrite Hx.
  - destruct (f y); [discriminate|]. intros H. rewrite (IH H).
    destruct (Z.ltb_spec (Z.of_nat (length l1)) 0); lia.
Qed.

Lemma same_line_new productId qty v price fresh :
  same_line productId v (mkCartItem fresh productId qty v price) = true.
Proof. apply same_line_key. reflexivity. Qed.

(** A product and variant that is not in the cart gets a line of its own,
    at the end. *)
Lemma addItem_items_fresh its productId qty v price fresh :
  lines_of productId v its = [] ->
  addItem_items its productId qty v price fresh
  = its ++ [mkCartItem fresh productId qty v price].
Proof.
  intros H. unfold addItem_items.
  rewrite (findIndex_none_inv _ _ H). reflexivity.
Qed.

(** A product and variant that is in the cart has the quantity of its
    first line raised, and no line is added. *)
Lemma addItem_items_existing l1 l2 line productId qty v price fresh :
  same_line productId v line = true ->
  lines_of productId v l1 = [] ->
  addItem_items (l1 ++ line :: l2) productId qty v price fresh
  = l1 ++ set_quantity (quantity line + qty) line :: l2.
Proof.
  intros Hx Hl1. unfold addItem_items.
  rewrite (findIndex_first _ _ _ _ Hx Hl1).
  rewrite Nat2Z.id.
  destruct (Z.leb_spec 0 (Z.of_nat (length l1))); [|lia].
  apply (alter_middle (fun item => set_quantity (quantity item + qty) item)).
Qed.

Lemma addItem_items_twice its productId a b v price price' fresh fresh' :
  lines_of productId v its = [] ->
  addItem_items (addItem_items its productId a v price fresh)
                productId b v price' fresh'
  = its ++ [mkCartItem fresh productId (a + b) v price].
Proof.
  intros H. rewrite (addItem_items_fresh _ _ _ _ _ _ H).
  apply addItem_items_existing; [apply same_line_new | exact H].
Qed.

(** ** What the handlers write to the cart collection *)

Lemma Cart_save_cases (user : N) (c : Cart) (db : Db) :
  Cart_save user c db
  = (Fulfilled (Cart_preSave c),
     with_carts (<[user := Cart_preSave c]> (carts db)) db)
  \/ Cart_save user c db = (Rejected ValidationError, db).
Proof. unfold Cart_save. destruct (Cart_validate c); [by left | by right]. Qed.

Lemma Cart_save_write user (cart : Cart) its' db :
  cart = or_new_cart (carts db !! user) ->
  cart_write user db (snd (Cart_save user (set_items its' cart) db)).
Proof.
  intros ->.
  destruct (Cart_save_cases user
              (set_items its' (or_new_cart (carts db !! user))) db) as [-> | ->];
    simpl; [right; eauto | by left].
Qed.

(** The ways of [POST /api/cart/add]: it leaves the database as it is, or
    it found the product that the id denotes, active, in stock and of the
    requested variant, and saved the user's cart after one of two changes.
    Either a line matched the id as it was sent, and the first such line
    got the new quantity, a number that is not above the available stock;
    or no line matched and a line with the number of the quantity was
    added at the end. *)
Lemma cart_add_cases user pid qty col sz fresh db resp db' :
  cart_add user pid qty col sz fresh db = (resp, db') ->
  (db' = db /\ forall c, resp <> CartOk c)
  \/ exists id product c' its',
      resp = CartOk c'
      /\ ObjectId_cast pid = Some id
      /\ products db !! id = Some product /\ isActive product = true
      /\ inStock product = true
      /\ p_colour product = col /\ p_size product = sz
      /\ Cart_save user (set_items its' (or_new_cart (carts db !! user))) db
         = (Fulfilled c', db')
      /\ ((exists l1 existing l2 n,
              items (or_new_cart (carts db !! user)) = l1 ++ existing :: l2
              /\ sent_line pid (mkVariant col sz) existing = true
              /\ List.filter (sent_line pid (mkVariant col sz)) l1 = []
              /\ BodyInt_toNumber (plus_body (quantity existing) qty) = Some n
              /\ n <= availableStock product
              /\ its' = l1 ++ set_quantity n existing :: l2)
          \/ (exists n,
                 List.filter (sent_line pid (mkVariant col sz))
                             (items (or_new_cart (carts db !! user))) = []
                 /\ BodyInt_toNumber qty = Some n
                 /\ 1 <= n <= availableStock product
                 /\ its' = items (or_new_cart (carts db !! user))
                           ++ [mkCartItem fresh id n (mkVariant col sz)
                                          (p_price product)])).
Proof.
  unfold cart_add, Product_findOne_active_sent, Product_findOne_active,
    Cart_findOne.
  async_unfold. intros H.
  destruct (isMongoId pid && isInt_min 1 qty && negb (bool_decide (col = "")))
    eqn:Hval; simpl in H; [|left; by simplify_eq].
  apply andb_true_iff in Hval as [Hval _].
  apply andb_true_iff in Hval as [_ Hint].
  destruct (ObjectId_cast pid) as [id|] eqn:Hid; [|left; by simplify_eq].
  destruct (products db !! id) as [product|] eqn:Hp; [|left; by simplify_eq].
  destruct (isActive product) eqn:Hact; [|left; by simplify_eq].
  destruct (negb (bool_decide (p_colour product = col))
            || negb (bool_decide (p_size product = sz))) eqn:Hvar;
    [left; by simplify_eq|].
  destruct (negb (inStock product) || lt_body (availableStock product) qty)
    eqn:Hst; [left; by simplify_eq|].
  apply orb_false_iff in Hvar as [Hc Hs], Hst as [Hin Ha].
  apply negb_false_iff, bool_decide_eq_true in Hc, Hs.
  apply negb_false_iff in Hin.
  set (cart := or_new_cart (carts db !! user)) in *.
  destruct (0 <=? JS.findIndex _ (items cart)) eqn:Hi.
  - apply Z.leb_le in Hi.
    destruct (findIndex_split _ _ Hi)
      as (l1 & existing & l2 & Hitems & Hx & Hl1 & Hidx).
    rewrite Hidx, Hitems in H.
    rewrite lookup_middle in H.
    destruct (lt_body (availableStock product)
                      (plus_body (quantity existing) qty)) eqn:Hnew;
      [left; by simplify_eq|].
    destruct (BodyInt_toNumber (plus_body (quantity existing) qty))
      as [n|] eqn:Hn; [|left; by simplify_eq].
    rewrite insert_middle in H.
    destruct (Cart_save _ _ _) as [[saved|e] db1] eqn:Hsave;
      injection H as <- <-.
    + right. exists id, product, saved, (l1 ++ set_quantity n existing :: l2).
      do 8 (split; [done|]).
      left. exists l1, existing, l2, n. do 4 (split; [done|]).
      split; [|reflexivity].
      unfold lt_body in Hnew. rewrite Hn in Hnew. by apply Z.ltb_ge.
    + left. split; [by apply Cart_save_rejected in Hsave | done].
  - apply Z.leb_gt in Hi.
    destruct (BodyInt_toNumber qty) as [n|] eqn:Hn; [|left; by simplify_eq].
    destruct (Cart_save _ _ _) as [[saved|e] db1] eqn:Hsave;
      injection H as <- <-.
    + right. exists id, product, saved,
        (items cart ++ [mkCartItem fresh id n (mkVariant col sz)
                                   (p_price product)]).
      do 8 (split; [done|]).
      right. exists n. split; [by apply findIndex_none|].
      split; [reflexivity|]. split; [|reflexivity].
      unfold isInt_min in Hint. unfold lt_body in Ha. rewrite Hn in *.
      apply Z.leb_le in Hint. apply Z.ltb_ge in Ha. lia.
    + left. split; [by apply Cart_save_rejected in Hsave | done].
Qed.

Lemma cart_add_writes user pid qty col sz fresh db :
  cart_write user db (after (cart_add user pid qty col sz fresh) db).
Proof.
  unfold after.
  destruct (cart_add user pid qty col sz fresh db) as [resp db'] eqn:H.
  apply cart_add_cases in H
    as [[-> _] | (id & product & c' & its' & _ & _ & _ & _ & _ & _ & _ & H & _)].
  - by left.
  - simpl. apply Cart_save_fulfilled in H as (_ & -> & ->).
    right. eexists. reflexivity.
Qed.

Lemma cart_update_writes user itemId qty db :
  cart_write user db (after (cart_update user itemId qty) db).
Proof.
  unfold after, cart_update, Cart_findOne, Product_findById, updateItemQuantity.
  async_unfold.
  destruct (negb (0 <=? qty)); simpl; [by left|].
  destruct (carts db !! user) as [cart|] eqn:Hc; simpl; [|by left].
  destruct (List.find _ (items cart)) as [item|]; simpl; [|by left].
  destruct ((0 <? qty) && _); simpl; [by left|].
  pose proof (Cart_save_write user cart
                (updateItemQuantity_items (items cart) itemId qty) db) as Hw.
  rewrite Hc in Hw. specialize (Hw eq_refl).
  destruct (Cart_save _ _ _) as [[saved|e] db1]; exact Hw.
Qed.

Lemma cart_remove_writes user itemId db :
  cart_write user db (after (cart_remove user itemId) db).
Proof.
  unfold after, cart_remove, Cart_findOne, removeItem. async_unfold.
  destruct (carts db !! user) as [cart|] eqn:Hc; simpl; [|by left].
  pose proof (Cart_save_write user cart (pull itemId (items cart)) db) as Hw.
  rewrite Hc in Hw. specialize (Hw eq_refl).
  destruct (Cart_save _ _ _) as [[saved|e] db1]; exact Hw.
Qed.

Lemma cart_clear_writes user db :
  cart_write user db (after (cart_clear user) db).
Proof.
  unfold after, cart_clear, Cart_findOne. async_unfold.
  destruct (carts db !! user) as [cart|] eqn:Hc; simpl; [|by left].
  right. exists []. rewrite Hc. reflexivity.
Qed.

(** ** Products: what [save()] persists *)

Lemma Product_save_cases (id : N) (p : Product) (db : Db) :
  (Product_validate p = true
   /\ Product_save id p db
      = (Fulfilled (Product_preSave p),
         with_products (<[id := Product_preSave p]> (products db)) db))
  \/ (Product_validate p = false
      /\ Product_save id p db = (Rejected ValidationError, db)).
Proof.
  unfold Product_save. destruct (Product_validate p); [by left | by right].
Qed.

Lemma Product_save_frame (id : N) (p : Product) (db : Db) :
  carts (snd (Product_save id p db)) = carts db
  /\ orders (snd (Product_save id p db)) = orders db.
Proof.
  destruct (Product_save_cases id p db) as [[_ ->] | [_ ->]]; by simpl.
Qed.

Lemma sell_line_frame line db :
  carts (snd (sell_line line db)) = carts db
  /\ orders (snd (sell_line line db)) = orders db.
Proof.
  destruct line as [item [p0|]]; simpl; [|done].
  unfold Product_findById, updateSoldCount. async_unfold.
  destruct (products db !! ci_product item) as [p|]; simpl; [|done].
  pose proof (Product_save_frame (ci_product item)
    (set_inStock (0 <? availableStock (set_soldCount (soldCount p + quantity item) p))
                 (set_soldCount (soldCount p + quantity item) p)) db) as Hf.
  destruct (Product_save _ _ _) as [[saved|e] db1]; exact Hf.
Qed.

Lemma for_of_sell_line_frame lines db :
  carts (snd (for_of lines sell_line db)) = carts db
  /\ orders (snd (for_of lines sell_line db)) = orders db.
Proof.
  revert db. induction lines as [|line lines IH]; intros db; simpl; [done|].
  unfold bind. pose proof (sell_line_frame line db) as [Hc Ho].
  destruct (sell_line line db) as [[[]|e] db1]; simpl in *.
  - destruct (IH db1) as [-> ->]. done.
  - done.
Qed.

Lemma order_lines_pure lines db :
  snd (order_lines lines db) = db.
Proof.
  induction lines as [|[item [p|]] lines IH]; simpl; try done.
  unfold bind. destruct (order_lines lines db) as [[tl|e] db1]; simpl in *;
    by subst.
Qed.

Lemma checkout_complete_writes user paymentIntentId orderId db :
  cart_write user db (after (checkout_complete user paymentIntentId orderId) db).
Proof.
  unfold after, checkout_complete, Cart_findOne, populate, clearCart.
  async_unfold.
  destruct (_ || _); simpl; [by left|].
  destruct (carts db !! user) as [cart|] eqn:Hc; simpl; [|by left].
  destruct (length (items cart) =? 0)%nat; simpl; [by left|].
  pose proof (for_of_sell_line_frame
                (map (fun item => (item, products db !! ci_product item))
                     (items cart)) db) as [Hcarts _].
  destruct (for_of _ sell_line db) as [[[]|e] db1]; simpl in *;
    [|by left].
  pose proof (order_lines_pure
                (map (fun item => (item, products db !! ci_product item))
                     (items cart)) db1) as Hpure.
  destruct (order_lines _ db1) as [[orderItems|e] db2]; simpl in *; subst db2;
    [|by left].
  right. exists []. by rewrite Hc, Hcarts.
Qed.

(** ** Invariants of the cart collection *)

Lemma cart_request_writes user step db :
  cart_request user step -> cart_write user db (step db).
Proof.
  intros [pid qty col sz fresh | itemId qty | itemId | | paymentIntentId orderId].
  - apply cart_add_writes.
  - apply cart_update_writes.
  - apply cart_remove_writes.
  - apply cart_clear_writes.
  - apply checkout_complete_writes.
Qed.

Lemma cart_write_totals user db db' :
  cart_write user db db' ->
  carts_satisfy cart_totals_ok db -> carts_satisfy cart_totals_ok db'.
Proof.
  intros [Heq | (its' & Heq)] Hinv u c; rewrite Heq.
  - apply Hinv.
  - destruct (decide (user = u)) as [->|Hne].
    + rewrite lookup_insert_eq. intros [= <-]. apply Cart_preSave_totals.
    + rewrite lookup_insert_ne by done. apply Hinv.
Qed.

(** ** What the other handlers leave of the cart collection *)

Lemma validate_stock_pure lines acc db :
  snd (validate_stock lines acc db) = db.
Proof.
  revert acc. induction lines as [|[item [p|]] lines IH]; intros acc; simpl;
    try done.
  destruct (unavailable p item); apply IH.
Qed.

(** The checkout route writes nothing, whatever it answers. *)
Lemma checkout_readonly user db : after (checkout user) db = db.
Proof.
  unfold after, checkout, Cart_findOne, populate. async_unfold.
  destruct (carts db !! user) as [cart|]; simpl; [|done].
  destruct (length (items cart) =? 0)%nat; simpl; [done|].
  pose proof (validate_stock_pure
                (map (fun item => (item, products db !! ci_product item))
                     (items cart)) [] db) as Hv.
  destruct (validate_stock _ _ _) as [[issues|e] db1]; simpl in *; subst db1;
    [|done].
  destruct (0 <? length issues)%nat; simpl; [done|].
  pose proof (order_lines_pure
                (map (fun item => (item, products db !! ci_product item))
                     (items cart)) db) as Ho.
  destruct (order_lines _ _) as [[ls|e] db1]; simpl in *; by subst db1.
Qed.

Lemma Order_save_cases (id : N) (o : Order) (db : Db) :
  (Order_validate o = true
   /\ Order_save id o db
      = (Fulfilled o, with_orders (<[id := o]> (orders db)) db))
  \/ (Order_validate o = false
      /\ Order_save id o db = (Rejected ValidationError, db)).
Proof.
  unfold Order_save. destruct (Order_validate o); [by left | by right].
Qed.

Lemma Order_save_carts (id : N) (o : Order) (db : Db) :
  carts (snd (Order_save id o db)) = carts db.
Proof. destruct (Order_save_cases id o db) as [[_ ->] | [_ ->]]; done. Qed.

Lemma adjust_inventory_readonly operation item db :
  snd (adjust_inventory operation item db) = db.
Proof.
  unfold adjust_inventory, Product_findById, releaseReservedInventory.
  async_unfold. by destruct (products db !! oi_product item).
Qed.

Lemma for_of_adjust_inventory_readonly operation its db :
  snd (for_of its (adjust_inventory operation) db) = db.
Proof.
  induction its as [|item its IH]; simpl; [done|].
  unfold bind. pose proof (adjust_inventory_readonly operation item db) as H.
  destruct (adjust_inventory operation item db) as [[[]|e] db1];
    simpl in *; subst db1; [exact IH | done].
Qed.

Lemma status_inventory_readonly o s db :
  snd (status_inventory o s db) = db.
Proof.
  unfold status_inventory.
  repeat case_if; try apply for_of_adjust_inventory_readonly; done.
Qed.

Lemma order_status_carts requester id s note now db :
  carts (after (order_status requester id s note now) db) = carts db.
Proof.
  unfold after, order_status, Order_findById, updateStatus. async_unfold.
  destruct (orders db !! id) as [o|]; simpl; [|done].
  destruct (negb _); simpl; [done|].
  pose proof (status_inventory_readonly o s db) as Hro.
  destruct (status_inventory o s db) as [[[]|e] db1]; simpl in *; subst db1;
    [|done].
  match goal with |- context [Order_save id ?o3 db] =>
    pose proof (Order_save_carts id o3 db) as Hc;
    destruct (Order_save id o3 db) as [[saved|e] db1] end; exact Hc.
Qed.

Lemma order_cancel_carts requester id reason now db :
  carts (after (order_cancel requester id reason now) db) = carts db.
Proof.
  unfold after, order_cancel, Order_findOwn, updateStatus. async_unfold.
  destruct (orders db !! id) as [o|]; simpl; [|done].
  destruct (_ || _); simpl; [|done].
  destruct (negb _); simpl; [done|].
  match goal with |- context [Order_save id ?o3 db] =>
    pose proof (Order_save_carts id o3 db) as Hc;
    destruct (Order_save id o3 db) as [[saved|e] db1] end; simpl in *;
    [|exact Hc].
  pose proof (for_of_adjust_inventory_readonly "add" (o_items saved) db1) as Hro.
  destruct (for_of _ _ db1) as [[[]|e] db2]; simpl in *; by subst db2.
Qed.

Lemma order_refund_carts render id amount reason refundId now db :
  carts (after (order_refund render id amount reason refundId now) db)
  = carts db.
Proof.
  unfold after, order_refund, Order_findById, processRefund. async_unfold.
  destruct (orders db !! id) as [o|]; simpl; [|done].
  destruct (JS.gt amount (total o)); simpl; [done|].
  match goal with |- context [Order_save id ?o3 db] =>
    pose proof (Order_save_carts id o3 db) as Hc;
    destruct (Order_save id o3 db) as [[saved|e] db1] end; exact Hc.
Qed.

Lemma api_request_writes step db :
  api_request step -> exists user, cart_write user db (step db).
Proof.
  intros [user step' Hreq | user | requester id s note now
         | requester id reason now | render id amount reason refundId now].
  - exists user. by apply cart_request_writes.
  - exists user. left. by rewrite checkout_readonly.
  - exists 0%N. left. apply order_status_carts.
  - exists 0%N. left. apply order_cancel_carts.
  - exists 0%N. left. apply order_refund_carts.
Qed.

Lemma reachable_totals start db :
  carts_satisfy cart_totals_ok start -> reachable start db ->
  carts_satisfy cart_totals_ok db.
Proof.
  intros Hstart Hreach. induction Hreach as [|db step _ IH Hreq]; [done|].
  destruct (api_request_writes step db Hreq) as [user Hw].
  exact (cart_write_totals user db (step db) Hw IH).
Qed.

(** C9. Every mutation of a cart (add, update quantity, remove, clear)
    persists a cart whose [totalItems] is the sum of the line quantities and
    whose [totalAmount] is the sum of price times quantity: each of the four
    methods stores, under the owner, a cart with these aggregates, and they
    hold of every stored cart after any sequence of requests, when they held
    at its start. *)
Theorem cart_totals_recomputed_before_persist :
  forall (user : N) (this : Cart) (db db' : Db) (c' : Cart),
    (forall productId qty v price fresh,
        addItem user this productId qty v price fresh db = (Fulfilled c', db') ->
        carts db' !! user = Some c' /\ cart_totals_ok c')
    /\ (forall itemId qty,
           updateItemQuantity user this itemId qty db = (Fulfilled c', db') ->
           carts db' !! user = Some c' /\ cart_totals_ok c')
    /\ (forall itemId,
           removeItem user this itemId db = (Fulfilled c', db') ->
           carts db' !! user = Some c' /\ cart_totals_ok c')
    /\ (clearCart user this db = (Fulfilled c', db') ->
        carts db' !! user = Some c' /\ cart_totals_ok c')
    /\ (forall start,
           carts_satisfy cart_totals_ok start -> reachable start db ->
           carts_satisfy cart_totals_ok db).
Proof.
  intros user this db db' c'.
  assert (Hsave : forall c, Cart_save user c db = (Fulfilled c', db') ->
                            carts db' !! user = Some c' /\ cart_totals_ok c').
  { intros c H. apply Cart_save_persists in H. tauto. }
  split; [|split; [|split; [|split]]].
  - intros productId qty v price fresh H. exact (Hsave _ H).
  - intros itemId qty H. exact (Hsave _ H).
  - intros itemId H. exact (Hsave _ H).
  - intros H. exact (Hsave _ H).
  - intros start. apply reachable_totals.
Qed.

(** A run of [cart_totals_recomputed_before_persist]: two tees in alice's
    new cart make two items and an amount of 40. *)
Lemma cart_totals_recomputed_before_persist_witness :
  carts Sample.shop_added_once !! Sample.alice = Some Sample.cart_of_two
  /\ cart_totals_ok Sample.cart_of_two
  /\ totalItems Sample.cart_of_two = 2
  /\ (totalAmount Sample.cart_of_two == 40)%Q.
Proof.
  destruct (proj1 (cart_totals_recomputed_before_persist
                     Sample.alice (or_new_cart None) Sample.shop
                     Sample.shop_added_once Sample.cart_of_two)
              1%N 2 (mkVariant "black" md) 20%Q 100%N)
    as [Hstored Htotals].
  - vm_compute. reflexivity.
  - split; [exact Hstored|]. split; [exact Htotals|].
    split; reflexivity.
Defined.

(** C7, at the failing inputs. [POST /api/cart/add] looks for the line to
    merge with by comparing [item.product.toString()], which is in lower
    case, with the id as the request spelled it, and adds the quantity as
    the request sent it. Alice adds one cap under its id in lower case and
    one more under the same id in capitals: both requests are accepted,
    and her cart holds two lines for the same product, colour and size,
    of one piece each. And when she adds two caps and then one more, the
    quantity sent as the string ["1"], both requests are accepted and her
    one line holds 21 pieces, the digits of 2 followed by ["1"], not 3.
    Sent in lower case and as numbers, the same requests give one line of
    2 and one line of 3. *)
Theorem cart_add_fails_to_merge :
  ObjectId_cast Sample.cap_id = Some 10%N
  /\ ObjectId_cast Sample.cap_id_in_capitals = Some 10%N
  /\ isMongoId Sample.cap_id_in_capitals = true
  /\ (exists c1 c2,
         let db1 := after (cart_add Sample.alice Sample.cap_id (AsNumber 1)
                                    "red" lg 100) Sample.cap_shop in
         cart_add Sample.alice Sample.cap_id (AsNumber 1) "red" lg 100
                  Sample.cap_shop
         = (CartOk c1, db1)
         /\ cart_add Sample.alice Sample.cap_id_in_capitals (AsNumber 1)
                     "red" lg 101 db1
            = (CartOk c2, with_carts (<[Sample.alice := c2]> (carts db1)) db1)
         /\ items c2 = [Sample.cap_line 100 1; Sample.cap_line 101 1]
         /\ ~ distinct_lines (items c2))
  /\ (exists c1 c2,
         let db1 := after (cart_add Sample.alice Sample.cap_id (AsNumber 2)
                                    "red" lg 100) Sample.cap_shop in
         cart_add Sample.alice Sample.cap_id (AsNumber 2) "red" lg 100
                  Sample.cap_shop
         = (CartOk c1, db1)
         /\ cart_add Sample.alice Sample.cap_id (AsString "1") "red" lg 101
                     db1
            = (CartOk c2, with_carts (<[Sample.alice := c2]> (carts db1)) db1)
         /\ items c2 = [Sample.cap_line 100 21]
         /\ totalItems c2 = 21)
  /\ (exists c2 c3,
         let db1 := after (cart_add Sample.alice Sample.cap_id (AsNumber 1)
                                    "red" lg 100) Sample.cap_shop in
         let db2 := after (cart_add Sample.alice Sample.cap_id (AsNumber 2)
                                    "red" lg 100) Sample.cap_shop in
         fst (cart_add Sample.alice Sample.cap_id (AsNumber 1) "red" lg 101
                       db1) = CartOk c2
         /\ items c2 = [Sample.cap_line 100 2]
         /\ fst (cart_add Sample.alice Sample.cap_id (AsNumber 1) "red" lg 101
                          db2) = CartOk c3
         /\ items c3 = [Sample.cap_line 100 3]).
Proof.
  split; [reflexivity|]. split; [reflexivity|]. split; [reflexivity|].
  split; [|split].
  - do 2 eexists. cbv zeta.
    split; [vm_compute; reflexivity|].
    split; [vm_compute; reflexivity|].
    split; [reflexivity|].
    unfold distinct_lines. simpl. intros Hnd.
    apply NoDup_cons in Hnd as [Hnot _]. apply Hnot. by left.
  - do 2 eexists. cbv zeta.
    split; [vm_compute; reflexivity|].
    split; [vm_compute; reflexivity|].
    split; reflexivity.
  - do 2 eexists. cbv zeta.
    split; [vm_compute; reflexivity|]. split; [reflexivity|].
    split; [vm_compute; reflexivity | reflexivity].
Qed.

(** ** Order totals *)

Lemma Math_max_0_nonneg (x : Q) : (0 <= JS.Math_max 0 x)%Q.
Proof.
  unfold JS.Math_max. destruct (Qle_bool 0 x) eqn:E.
  - by apply Qle_bool_iff.
  - apply Qle_refl.
Qed.

Lemma Math_max_0_clamps (x : Q) :
  ((0 <= x)%Q /\ JS.Math_max 0 x = x) \/ ((x < 0)%Q /\ JS.Math_max 0 x = 0%Q).
Proof.
  unfold JS.Math_max. destruct (Qle_bool 0 x) eqn:E.
  - left. split; [by apply Qle_bool_iff | reflexivity].
  - right. split; [|reflexivity].
    apply Qnot_le_lt. intros H. apply Qle_bool_iff in H. congruence.
Qed.

(** The discount of an order is a percentage of the subtotal or a fixed
    amount, and nothing when the recorded amount is not positive. *)
Lemma discountAmount_cases (sub : Q) (d : Discount) :
  ((0 < d_amount d)%Q /\ d_type d = percentage
   /\ discountAmount sub d = (sub * (d_amount d / 100))%Q)
  \/ ((0 < d_amount d)%Q /\ d_type d = fixed
      /\ discountAmount sub d = d_amount d)
  \/ ((d_amount d <= 0)%Q /\ discountAmount sub d = 0%Q).
Proof.
  unfold discountAmount, JS.gt.
  destruct (Qle_bool (d_amount d) 0) eqn:E; simpl.
  - right. right. split; [by apply Qle_bool_iff | reflexivity].
  - assert (0 < d_amount d)%Q.
    { apply Qnot_le_lt. intros H. apply Qle_bool_iff in H. congruence. }
    destruct (d_type d); [left | right; left]; auto.
Qed.

Lemma reduce_order_amounts (its : list OrderItem) (a : Q) :
  (JS.reduce (fun total item =>
                total + oi_price item * inject_Z (oi_quantity item)) a its
   == a + sum_order_amounts its)%Q.
Proof.
  unfold JS.reduce. revert a.
  induction its as [|item rest IH]; intros a; simpl.
  - rewrite Qplus_0_r. reflexivity.
  - rewrite IH. rewrite Qplus_assoc. reflexivity.
Qed.

(** C6. [calculateTotals] leaves an order whose total is
    [subtotal + tax + shippingCost - discountAmount] clamped at zero: that
    sum when it is not negative, and zero otherwise. The subtotal is the sum
    of price times quantity over the lines, the tax the subtotal times the
    tax rate, and the discount amount the recorded percentage of the
    subtotal, or the recorded fixed amount, or nothing when the recorded
    amount is not positive. Calling it again changes nothing. *)
Theorem calculateTotals_clamped_idempotent :
  forall o : Order,
    let o' := calculateTotals o in
    let d := discountAmount (subtotal o') (discount o') in
    let sum := (subtotal o' + tax o' + shippingCost o' - d)%Q in
    (subtotal o' == sum_order_amounts (o_items o))%Q
    /\ tax o' = (subtotal o' * taxRate o)%Q
    /\ shippingCost o' = shippingCost o /\ discount o' = discount o
    /\ (((0 < d_amount (discount o))%Q /\ d_type (discount o) = percentage
         /\ d = (subtotal o' * (d_amount (discount o) / 100))%Q)
        \/ ((0 < d_amount (discount o))%Q /\ d_type (discount o) = fixed
            /\ d = d_amount (discount o))
        \/ ((d_amount (discount o) <= 0)%Q /\ d = 0%Q))
    /\ (((0 <= sum)%Q /\ total o' = sum) \/ ((sum < 0)%Q /\ total o' = 0%Q))
    /\ (0 <= total o')%Q
    /\ calculateTotals o' = o'
    /\ total (calculateTotals o') = total o'.
Proof.
  intros o o' d sum.
  assert (Hidem : calculateTotals o' = o').
  { unfold o', calculateTotals; simpl. destruct (paymentInfo o); reflexivity. }
  split; [simpl; rewrite reduce_order_amounts; apply Qplus_0_l|].
  split; [reflexivity|]. split; [reflexivity|]. split; [reflexivity|].
  split; [apply discountAmount_cases|].
  split; [apply Math_max_0_clamps|].
  split; [apply Math_max_0_nonneg|].
  split; [exact Hidem | by rewrite Hidem].
Qed.

(** Two runs of [calculateTotals]: two tees at 20 with 10% tax and 10 for
    shipping make 54; a fixed discount of 100 on the same lines clamps the
    total at zero. *)
Example calculateTotals_sample :
  (total (calculateTotals (Sample.order_in pending)) == 54)%Q
  /\ total (calculateTotals Sample.overdiscounted_order) = 0%Q.
Proof. split; [vm_compute; reflexivity | reflexivity]. Qed.

(** ** Orders: what [save()] persists *)

(** The in-memory part of [updateStatus] writes no field that a validator
    constrains. *)
Lemma updateStatus_fulfilled id o s note updatedBy now db :
  Order_validate o = true ->
  exists o',
    updateStatus id o s note updatedBy now db
    = (Fulfilled o', with_orders (<[id := o']> (orders db)) db)
    /\ status o' = s
    /\ statusHistory o'
       = statusHistory o
         ++ [mkHistoryEntry s now (note_or_default note (status o) s) updatedBy]
    /\ confirmedAt o' = (if decide (s = confirmed) then Some now
                         else confirmedAt o)
    /\ shippedAt o' = (if decide (s = shipped) then Some now else shippedAt o)
    /\ deliveredAt o' = (if decide (s = delivered) then Some now
                         else deliveredAt o)
    /\ cancelledAt o' = (if decide (s = cancelled) then Some now
                         else cancelledAt o)
    /\ o_items o' = o_items o /\ o_user o' = o_user o /\ total o' = total o
    /\ refund o' = refund o.
Proof.
  intros Hv. unfold updateStatus.
  match goal with |- context [Order_save id ?o3 db] => set (o' := o3) end.
  exists o'.
  assert (Hv' : Order_validate o' = true) by (destruct s; exact Hv).
  destruct (Order_save_cases id o' db) as [[_ ->] | [Hno _]]; [|congruence].
  split; [reflexivity|].
  destruct s; repeat split; reflexivity.
Qed.

(** ** [PUT /api/orders/:id/status] *)

Lemma includes_elem_of {A} `{EqDecision A} (l : list A) (x : A) :
  JS.includes l x = true <-> In x l.
Proof.
  unfold JS.includes. rewrite bool_decide_eq_true. apply list_elem_of_In.
Qed.

(** The status route rejects a request with "Invalid Status Transition",
    and leaves the database alone, exactly when the requested status is not
    in the table row of the current status. *)
Lemma order_status_rejects_iff requester id s note now db o :
  orders db !! id = Some o ->
  (order_status requester id s note now db = (InvalidStatusTransition, db)
   <-> ~ In s (validTransitions (status o)))
  /\ (forall db', order_status requester id s note now db
                  = (InvalidStatusTransition, db') -> db' = db).
Proof.
  intros Ho. unfold order_status, Order_findById. async_unfold.
  rewrite Ho.
  destruct (JS.includes (validTransitions (status o)) s) eqn:Hin; simpl.
  - apply includes_elem_of in Hin.
    pose proof (status_inventory_readonly o s db) as Hro.
    destruct (status_inventory o s db) as [[[]|e] db1]; simpl in Hro; subst db1.
    + unfold populate_chain. async_unfold.
      destruct (updateStatus _ _ _ _ _ _ _) as [[saved|e] db1];
        (split; [split; [discriminate | tauto] | discriminate]).
    + split; [split; [discriminate | tauto] | discriminate].
  - split; [|by intros db' [= <-]].
    split; [|reflexivity].
    intros _ H. apply includes_elem_of in H. congruence.
Qed.

(** The handler never reaches its [res.json] with the updated order: on
    every path that saves, the population of the saved document throws. *)
Lemma order_status_never_ok requester id s note now db o' db' :
  order_status requester id s note now db <> (OrderOk o', db').
Proof.
  unfold order_status, Order_findById, populate_chain. async_unfold.
  destruct (orders db !! id) as [o|]; [|discriminate].
  destruct (JS.includes (validTransitions (status o)) s); simpl;
    [|discriminate].
  destruct (status_inventory o s db) as [[[]|e] db1]; [|discriminate].
  destruct (updateStatus _ _ _ _ _ _ _) as [[saved|e] db2]; discriminate.
Qed.

(** A request along the table is stored whenever its inventory step runs
    to completion; the answer is the 500 of the [catch]. *)
Lemma order_status_stores requester id s note now db o :
  orders db !! id = Some o ->
  Order_validate o = true ->
  In s (validTransitions (status o)) ->
  fst (status_inventory o s db) = Fulfilled tt ->
  exists o',
    updateStatus id o s note (Some (req_id requester)) now db
    = (Fulfilled o', with_orders (<[id := o']> (orders db)) db)
    /\ order_status requester id s note now db
       = (OrderFailed, with_orders (<[id := o']> (orders db)) db)
    /\ status o' = s.
Proof.
  intros Ho Hv Hin Hinv.
  destruct (updateStatus_fulfilled id o s note (Some (req_id requester)) now db Hv)
    as (o' & Hu & Hs & _).
  exists o'. split; [exact Hu|]. split; [|exact Hs].
  unfold order_status, Order_findById, populate_chain. async_unfold.
  rewrite Ho.
  apply includes_elem_of in Hin. rewrite Hin. simpl.
  pose proof (status_inventory_readonly o s db) as Hro.
  destruct (status_inventory o s db) as [[[]|e] db1]; simpl in *; subst db1;
    [|discriminate].
  by rewrite Hu.
Qed.

(** The inventory step of the transitions other than into [cancelled] and
    [shipped] is empty. *)
Lemma status_inventory_plain o s db :
  s <> cancelled -> s <> shipped ->
  status_inventory o s db = (Fulfilled tt, db).
Proof.
  intros Hc Hs. unfold status_inventory.
  by rewrite (bool_decide_eq_false_2 _ Hc), (bool_decide_eq_false_2 _ Hs).
Qed.

(** C8. A status update that is saved appends one entry to the status
    history, made of the new status, the clock reading, the note (or the
    generated "Status changed from ... to ..." text when the note is empty)
    and the acting user; the earlier entries are kept as they are, the first
    of them being the "Order created" entry that the first save of an order
    appends; the timestamp field of the new status (confirmedAt, shippedAt,
    deliveredAt, cancelledAt) is set to the clock reading. An answer of
    [PUT /api/orders/:id/status] with the updated order could only come
    from such an update by the requester; and what that route stores for
    a request along its table whose inventory step runs to completion is
    such an update by the requester (the answer is then the 500 of the
    [catch], as the population of the saved order throws). *)
Theorem status_change_recorded :
  forall (id : N) (o : Order) (s : Status) (note : string)
         (updatedBy : option N) (now : Z) (db : Db),
    Order_validate o = true ->
    (exists o',
        updateStatus id o s note updatedBy now db
        = (Fulfilled o', with_orders (<[id := o']> (orders db)) db)
        /\ status o' = s
        /\ statusHistory o'
           = statusHistory o
             ++ [mkHistoryEntry s now (note_or_default note (status o) s)
                                updatedBy]
        /\ (note <> "" -> note_or_default note (status o) s = note)
        /\ (s = confirmed -> confirmedAt o' = Some now)
        /\ (s = shipped -> shippedAt o' = Some now)
        /\ (s = delivered -> deliveredAt o' = Some now)
        /\ (s = cancelled -> cancelledAt o' = Some now))
    /\ (forall created number,
           statusHistory (Order_preSave (Some (created, number)) o)
           = statusHistory o
             ++ [mkHistoryEntry (status o) created "Order created" None])
    /\ (forall requester o' db',
           orders db !! id = Some o ->
           order_status requester id s note now db = (OrderOk o', db') ->
           orders db' !! id = Some o'
           /\ statusHistory o'
              = statusHistory o
                ++ [mkHistoryEntry s now (note_or_default note (status o) s)
                                   (Some (req_id requester))])
    /\ (forall requester,
           orders db !! id = Some o ->
           In s (validTransitions (status o)) ->
           fst (status_inventory o s db) = Fulfilled tt ->
           exists o',
             after (order_status requester id s note now) db
             = with_orders (<[id := o']> (orders db)) db
             /\ status o' = s
             /\ statusHistory o'
                = statusHistory o
                  ++ [mkHistoryEntry s now (note_or_default note (status o) s)
                                     (Some (req_id requester))]).
Proof.
  intros id o s note updatedBy now db Hv. split; [|split; [|split]].
  - destruct (updateStatus_fulfilled id o s note updatedBy now db Hv)
      as (o' & Hu & Hs & Hh & Hc & Hsh & Hd & Hca & _).
    exists o'. split; [exact Hu|]. split; [exact Hs|]. split; [exact Hh|].
    split.
    { intros Hne. unfold note_or_default. by rewrite bool_decide_eq_false_2. }
    split; [|split; [|split]]; intros ->.
    + by rewrite Hc, decide_True.
    + by rewrite Hsh, decide_True.
    + by rewrite Hd, decide_True.
    + by rewrite Hca, decide_True.
  - intros created number. reflexivity.
  - intros requester o' db' Ho H.
    by apply order_status_never_ok in H.
  - intros requester Ho Hin Hinv.
    destruct (order_status_stores requester id s note now db o Ho Hv Hin Hinv)
      as (o' & Hu & Hroute & Hs).
    destruct (updateStatus_fulfilled id o s note (Some (req_id requester))
                now db Hv) as (o1 & Hu1 & _ & Hh & _).
    rewrite Hu1 in Hu. injection Hu as ->.
    exists o'. unfold after. rewrite Hroute. by split.
Qed.

(** A run of [status_change_recorded]: the order of alice is confirmed by
    the administrator. *)
Lemma status_change_recorded_witness :
  (exists o',
      updateStatus 7 (Sample.order_in pending) confirmed "" (Some 1%N) 2000
                   (Sample.shop_with_order pending)
      = (Fulfilled o',
         with_orders (<[7%N := o']> (orders (Sample.shop_with_order pending)))
                     (Sample.shop_with_order pending))
      /\ status o' = confirmed
      /\ statusHistory o'
         = [mkHistoryEntry pending 1000 "Order created" None;
            mkHistoryEntry confirmed 2000
              "Status changed from pending to confirmed" (Some 1%N)]
      /\ confirmedAt o' = Some 2000)
  /\ (exists o',
         after (order_status Sample.admin 7 confirmed "" 2000)
               (Sample.shop_with_order pending)
         = with_orders
             (<[7%N := o']> (orders (Sample.shop_with_order pending)))
             (Sample.shop_with_order pending)
         /\ status o' = confirmed
         /\ statusHistory o'
            = [mkHistoryEntry pending 1000 "Order created" None;
               mkHistoryEntry confirmed 2000
                 "Status changed from pending to confirmed" (Some 1%N)])
  /\ orders (after (order_status Sample.admin 7 confirmed "" 2000)
                   (Sample.shop_with_order pending)) !! 7%N
     = Some Sample.confirmed_order.
Proof.
  destruct (status_change_recorded 7 (Sample.order_in pending) confirmed ""
              (Some 1%N) 2000 (Sample.shop_with_order pending) eq_refl)
    as [(o' & Hu & Hs & Hh & _ & Hc & _) [_ [_ Hroute]]].
  split; [|split].
  - exists o'. split; [exact Hu|]. split; [exact Hs|].
    split; [exact Hh | exact (Hc eq_refl)].
  - apply (Hroute Sample.admin); [reflexivity | simpl; tauto | reflexivity].
  - vm_compute. reflexivity.
Defined.

(** The inventory step of a transition into [cancelled] or [shipped] calls
    [releaseReservedInventory] on the first product it finds, which is not a
    method of the Product model: the handler answers "Update Failed" and the
    order keeps its status. *)
Lemma order_status_inventory_throws requester id s note now db o item rest p :
  orders db !! id = Some o ->
  (s = cancelled /\ In (status o) [pending; confirmed; processing])
  \/ (s = shipped /\ status o = processing) ->
  o_items o = item :: rest ->
  products db !! oi_product item = Some p ->
  order_status requester id s note now db = (OrderFailed, db).
Proof.
  intros Ho Hs Hitems Hp.
  assert (Hin : JS.includes (validTransitions (status o)) s = true).
  { apply includes_elem_of.
    destruct Hs as [[-> Hst] | [-> ->]]; simpl in *; [|tauto].
    destruct Hst as [<- | [<- | [<- | []]]]; simpl; tauto. }
  assert (Hthrow : status_inventory o s db = (Rejected TypeError, db)).
  { unfold status_inventory. rewrite Hitems.
    destruct Hs as [[-> Hst] | [-> ->]].
    - apply includes_elem_of in Hst. rewrite Hst. simpl.
      unfold bind, adjust_inventory, Product_findById. async_unfold.
      by rewrite Hp.
    - simpl. unfold bind, adjust_inventory, Product_findById. async_unfold.
      by rewrite Hp. }
  unfold order_status, Order_findById. async_unfold.
  rewrite Ho, Hin. simpl. by rewrite Hthrow.
Qed.

(** C2, at the failing input. The table allows [pending -> cancelled]; the
    status route, asked to cancel a pending order whose line refers to a
    product in the catalogue, answers with the 500 "Update Failed" and
    leaves the order pending. *)
Theorem order_status_cancel_pending_fails :
  In cancelled (validTransitions (status (Sample.order_in pending)))
  /\ orders (Sample.shop_with_order pending) !! 7%N
     = Some (Sample.order_in pending)
  /\ order_status Sample.admin 7 cancelled "" 2000
                  (Sample.shop_with_order pending)
     = (OrderFailed, Sample.shop_with_order pending).
Proof.
  split; [simpl; tauto|].
  split; [reflexivity|].
  apply (order_status_inventory_throws Sample.admin 7 cancelled "" 2000
           (Sample.shop_with_order pending) (Sample.order_in pending)
           (mkOrderItem 1 "Tee" 20 2) [] Sample.tee).
  - reflexivity.
  - left. split; [reflexivity | simpl; tauto].
  - reflexivity.
  - reflexivity.
Qed.

(** The transitions of the table that have no inventory step are stored,
    and answered with the 500 of the [catch]. *)
Lemma order_status_stores_plain requester id s note now db o :
  orders db !! id = Some o ->
  Order_validate o = true ->
  In s (validTransitions (status o)) ->
  s <> cancelled -> s <> shipped ->
  exists o',
    order_status requester id s note now db
    = (OrderFailed, with_orders (<[id := o']> (orders db)) db)
    /\ status o' = s.
Proof.
  intros Ho Hv Hin Hc Hs.
  destruct (order_status_stores requester id s note now db o Ho Hv Hin)
    as (o' & _ & Hroute & Hs').
  - by rewrite status_inventory_plain.
  - by exists o'.
Qed.

(** ** [POST /api/orders/:id/cancel] *)

Lemma canBeCancelled_iff (o : Order) :
  canBeCancelled o = true <-> status o = pending \/ status o = confirmed.
Proof.
  unfold canBeCancelled. rewrite includes_elem_of. simpl.
  intuition congruence.
Qed.

Lemma Order_findOwn_visible requester id db o :
  orders db !! id = Some o -> visible_to requester o ->
  Order_findOwn requester id db = (Fulfilled (Some o), db).
Proof.
  intros Ho Hvis. unfold Order_findOwn. async_unfold. rewrite Ho.
  destruct Hvis as [Hadm | Howner].
  - by rewrite (bool_decide_eq_true_2 _ Hadm).
  - rewrite (bool_decide_eq_true_2 _ Howner). by rewrite orb_true_r.
Qed.

(** The release loop of the order routes runs to completion when none of
    the lines refers to a stored product. *)
Lemma for_of_adjust_inventory_none operation its db :
  (forall item, In item its -> products db !! oi_product item = None) ->
  for_of its (adjust_inventory operation) db = (Fulfilled tt, db).
Proof.
  induction its as [|item its IH]; intros Hnone; simpl; [done|].
  unfold bind, adjust_inventory at 1, Product_findById. async_unfold.
  rewrite (Hnone item (or_introl eq_refl)).
  apply IH. intros; apply Hnone; by right.
Qed.

(** C5, as amended. For an order the requester may see, the cancel route
    answers "Cannot Cancel Order", and leaves the database as it is,
    exactly when the current status is neither [pending] nor [confirmed]:
    [processing] is refused. It answers with the cancelled order only for
    a status [pending] or [confirmed]; and for such an order it does so,
    the order being stored as [cancelled], when none of the order's lines
    refers to a stored product. *)
Theorem order_cancel_pending_or_confirmed :
  forall (requester : Requester) (id : N) (reason : string) (now : Z)
         (db : Db) (o : Order),
    orders db !! id = Some o ->
    visible_to requester o ->
    Order_validate o = true ->
    (~ (status o = pending \/ status o = confirmed) ->
     order_cancel requester id reason now db = (CannotCancelOrder, db))
    /\ (status o = pending \/ status o = confirmed ->
        fst (order_cancel requester id reason now db) <> CannotCancelOrder)
    /\ (forall o' db',
           order_cancel requester id reason now db = (OrderOk o', db') ->
           status o = pending \/ status o = confirmed)
    /\ ((forall item, In item (o_items o) ->
                      products db !! oi_product item = None) ->
        status o = pending \/ status o = confirmed ->
        exists o',
          order_cancel requester id reason now db
          = (OrderOk o', with_orders (<[id := o']> (orders db)) db)
          /\ status o' = cancelled /\ cancelledAt o' = Some now).
Proof.
  intros requester id reason now db o Ho Hvis Hv.
  pose proof (Order_findOwn_visible requester id db o Ho Hvis) as Hfind.
  unfold order_cancel. async_unfold. rewrite Hfind.
  destruct (canBeCancelled o) eqn:Hcan; simpl.
  - apply canBeCancelled_iff in Hcan.
    destruct (updateStatus_fulfilled id o cancelled
                (if bool_decide (reason = "") then "Cancelled by user"
                 else reason)
                (Some (req_id requester)) now db Hv)
      as (o' & Hu & Hs & _ & _ & _ & _ & Hca & Hitems & _).
    rewrite Hu.
    split; [tauto|]. split; [|split; [intros; exact Hcan|]].
    + intros _.
      destruct (for_of _ _ _) as [[[]|e] db1]; discriminate.
    + intros Hnone _. exists o'.
      rewrite for_of_adjust_inventory_none
        by (rewrite Hitems; exact Hnone).
      by rewrite decide_True in Hca.
  - assert (Hno : ~ (status o = pending \/ status o = confirmed)).
    { intros H. apply canBeCancelled_iff in H. congruence. }
    split; [reflexivity|]. split; [tauto|]. split; [discriminate | tauto].
Qed.

(** C5, the claim as stated fails: an order in [processing] is in the set
    the claim gives, and the cancel route rejects it. *)
Lemma order_cancel_processing_rejected :
  status (Sample.order_in processing) = processing
  /\ orders (Sample.shop_with_order processing) !! 7%N
     = Some (Sample.order_in processing)
  /\ order_cancel Sample.admin 7 "changed my mind" 2000
                  (Sample.shop_with_order processing)
     = (CannotCancelOrder, Sample.shop_with_order processing).
Proof.
  split; [reflexivity|]. split; [reflexivity|].
  vm_compute. reflexivity.
Qed.

(** A run of [order_cancel_pending_or_confirmed]: alice's pending order is
    cancelled after the tee was taken out of the catalogue, and her
    delivered order is not. *)
Lemma order_cancel_pending_or_confirmed_witness :
  (exists o',
      order_cancel Sample.admin 7 "changed my mind" 2000
                   (Sample.archive_with_order pending)
      = (OrderOk o',
         with_orders
           (<[7%N := o']> (orders (Sample.archive_with_order pending)))
           (Sample.archive_with_order pending))
      /\ status o' = cancelled /\ cancelledAt o' = Some 2000)
  /\ order_cancel Sample.admin 7 "changed my mind" 2000
                  (Sample.shop_with_order delivered)
     = (CannotCancelOrder, Sample.shop_with_order delivered).
Proof.
  split.
  - apply (proj2 (proj2 (proj2 (order_cancel_pending_or_confirmed
                    Sample.admin 7 "changed my mind" 2000
                    (Sample.archive_with_order pending)
                    (Sample.order_in pending)
                    eq_refl (or_introl eq_refl) eq_refl)))).
    + intros item [<- | []]. reflexivity.
    + left. reflexivity.
  - apply (proj1 (order_cancel_pending_or_confirmed
                    Sample.admin 7 "changed my mind" 2000
                    (Sample.shop_with_order delivered)
                    (Sample.order_in delivered)
                    eq_refl (or_introl eq_refl) eq_refl)).
    intros [H | H]; discriminate H.
Defined.

(** ** [POST /api/orders/:id/refund] *)

Section Refunds.

Variable Number_toString : Q -> string.

Lemma gt_true_iff (a b : Q) : JS.gt a b = true <-> (b < a)%Q.
Proof.
  unfold JS.gt. rewrite negb_true_iff. split.
  - intros H. apply Qnot_le_lt. intros Hle. apply Qle_bool_iff in Hle.
    congruence.
  - intros H. destruct (Qle_bool a b) eqn:E; [|reflexivity].
    apply Qle_bool_iff in E. exfalso. exact (Qlt_not_le _ _ H E).
Qed.


Lemma processRefund_cases id o amount reason refundId now db :
  (Order_validate (refunded_order Number_toString o amount reason refundId now) = true
   /\ processRefund Number_toString id o amount reason refundId now db
      = (Fulfilled (refunded_order Number_toString o amount reason refundId now),
         with_orders
           (<[id := refunded_order Number_toString o amount reason refundId now]> (orders db))
           db))
  \/ processRefund Number_toString id o amount reason refundId now db
     = (Rejected ValidationError, db).
Proof.
  unfold processRefund. fold (refunded_order Number_toString o amount reason refundId now).
  destruct (Order_save_cases id (refunded_order Number_toString o amount reason refundId now) db)
    as [[Hv ->] | [_ ->]]; [left | right]; auto.
Qed.

Lemma refunded_order_valid o amount reason refundId now :
  Order_validate o = true -> (0 <= amount)%Q ->
  Order_validate (refunded_order Number_toString o amount reason refundId now) = true.
Proof.
  unfold Order_validate. simpl. intros Hv Ha.
  apply andb_true_iff in Hv as [Hrest _].
  rewrite Hrest. simpl. by apply Qle_bool_iff.
Qed.

(** C4. For a stored order, the refund route rejects an amount above the
    order total with "Invalid Refund Amount" and changes nothing; for an
    amount between zero and the total it stores the refund record, sets the
    status to [refunded] whatever the status was, and appends one entry to
    the status history. *)
Theorem refund_amount_checked_status_forced :
  forall (id : N) (amount : Q) (reason : string) (refundId : option string)
         (now : Z) (db : Db) (o : Order),
    orders db !! id = Some o ->
    Order_validate o = true ->
    ((total o < amount)%Q ->
     order_refund Number_toString id amount reason refundId now db
     = (InvalidRefundAmount, db))
    /\ ((0 <= amount)%Q -> (amount <= total o)%Q ->
        exists o',
          order_refund Number_toString id amount reason refundId now db
          = (OrderOk o', with_orders (<[id := o']> (orders db)) db)
          /\ refund o' = Some (mkRefund amount reason now refundId)
          /\ status o' = refunded
          /\ statusHistory o'
             = statusHistory o
               ++ [mkHistoryEntry refunded now
                     (refund_note Number_toString amount reason) None]).
Proof.
  intros id amount reason refundId now db o Ho Hv.
  unfold order_refund, Order_findById. async_unfold. rewrite Ho. split.
  - intros Hgt. apply gt_true_iff in Hgt. by rewrite Hgt.
  - intros H0 Hle.
    assert (Hgt : JS.gt amount (total o) = false).
    { destruct (JS.gt amount (total o)) eqn:E; [|reflexivity].
      apply gt_true_iff in E. exfalso. exact (Qlt_not_le _ _ E Hle). }
    rewrite Hgt. simpl.
    exists (refunded_order Number_toString o amount reason refundId now).
    destruct (processRefund_cases id o amount reason refundId now db)
      as [[_ ->] | Hrej].
    + repeat split.
    + pose proof (refunded_order_valid o amount reason refundId now Hv H0) as Hv'.
      unfold processRefund in Hrej.
      fold (refunded_order Number_toString o amount reason refundId now) in Hrej.
      destruct (Order_save_cases id
                  (refunded_order Number_toString o amount reason refundId now) db)
        as [[_ Heq] | [Hno _]]; [|congruence].
      rewrite Heq in Hrej. discriminate.
Qed.


End Refunds.

(** A run of [refund_amount_checked_status_forced]: the whole total of a
    pending order is refunded, although the transition table has no
    [pending -> refunded]; one cent more is rejected. *)
Lemma refund_amount_checked_status_forced_witness :
  ~ In refunded (validTransitions pending)
  /\ order_refund Sample.show 7 (5401 # 100) "damaged" None 3000
                  (Sample.shop_with_order pending)
     = (InvalidRefundAmount, Sample.shop_with_order pending)
  /\ exists o',
      order_refund Sample.show 7 54 "damaged" None 3000
                   (Sample.shop_with_order pending)
      = (OrderOk o',
         with_orders (<[7%N := o']> (orders (Sample.shop_with_order pending)))
                     (Sample.shop_with_order pending))
      /\ status o' = refunded.
Proof.
  split; [simpl; intuition discriminate|]. split.
  - apply (proj1 (refund_amount_checked_status_forced
                    Sample.show 7 (5401 # 100) "damaged" None 3000
                    (Sample.shop_with_order pending) (Sample.order_in pending)
                    eq_refl eq_refl)).
    reflexivity.
  - destruct (proj2 (refund_amount_checked_status_forced
                       Sample.show 7 54 "damaged" None 3000
                       (Sample.shop_with_order pending)
                       (Sample.order_in pending) eq_refl eq_refl))
      as (o' & Hr & _ & Hs & _).
    + discriminate.
    + discriminate.
    + exists o'. split; [exact Hr | exact Hs].
Defined.

(** ** [POST /api/checkout] *)

Lemma validate_stock_resolved (db : Db) (its : list CartItem)
  (acc : list StockIssue) :
  (forall item, In item its -> is_Some (products db !! ci_product item)) ->
  validate_stock
    (map (fun item => (item, products db !! ci_product item)) its) acc db
  = (Fulfilled (acc ++ conflicts db its), db).
Proof.
  revert acc. induction its as [|item its IH]; intros acc Hres; simpl.
  - by rewrite app_nil_r.
  - destruct (Hres item (or_introl eq_refl)) as [p Hp]. rewrite Hp.
    destruct (unavailable p item); simpl.
    + rewrite IH by (intros; apply Hres; by right).
      by rewrite <- app_assoc.
    + apply IH. intros; apply Hres; by right.
Qed.

Lemma conflicts_complete db its item p :
  In item its -> products db !! ci_product item = Some p ->
  unavailable p item = true -> In (issue_of p item) (conflicts db its).
Proof.
  intros Hin Hp Hun. unfold conflicts. apply in_flat_map.
  exists item. split; [exact Hin|]. rewrite Hp, Hun. by left.
Qed.

Lemma conflicts_sound db its issue :
  In issue (conflicts db its) ->
  exists item p,
    In item its /\ products db !! ci_product item = Some p
    /\ unavailable p item = true /\ issue = issue_of p item.
Proof.
  unfold conflicts. intros H. apply in_flat_map in H as (item & Hin & H).
  destruct (products db !! ci_product item) as [p|] eqn:Hp; [|destruct H].
  destruct (unavailable p item) eqn:Hun; [|destruct H].
  destruct H as [<- | []]. eauto 10.
Qed.

(** X29. When the cart is not empty, its lines refer to products of the
    catalogue, and some line asks for more than the available stock of its
    product (or its product is flagged out of stock), the checkout route
    answers "Stock Issues" with a list that has an entry for every such line
    and for no other; the database, and so every [soldCount], is left as it
    was. *)
Theorem checkout_reports_every_conflict :
  forall (user : N) (db : Db) (cart : Cart),
    carts db !! user = Some cart ->
    items cart <> [] ->
    (forall item, In item (items cart) ->
                  is_Some (products db !! ci_product item)) ->
    (exists item p,
        In item (items cart) /\ products db !! ci_product item = Some p
        /\ unavailable p item = true) ->
    exists details,
      checkout user db = (StockIssues details, db)
      /\ (forall item p,
             In item (items cart) ->
             products db !! ci_product item = Some p ->
             unavailable p item = true ->
             In (issue_of p item) details)
      /\ (forall issue,
             In issue details ->
             exists item p,
               In item (items cart) /\ products db !! ci_product item = Some p
               /\ unavailable p item = true /\ issue = issue_of p item)
      /\ (forall id, soldCount <$> products (after (checkout user) db) !! id
                     = soldCount <$> products db !! id).
Proof.
  intros user db cart Hc Hne Hres (item & p & Hin & Hp & Hun).
  exists (conflicts db (items cart)).
  split; [|split; [|split]].
  - unfold checkout, Cart_findOne, populate. async_unfold. rewrite Hc.
    destruct (items cart) as [|i0 its] eqn:Hits; [done|].
    change (length (i0 :: its) =? 0)%nat with false. cbv iota.
    rewrite <- Hits in *.
    rewrite (validate_stock_resolved db (items cart) [] Hres). simpl.
    pose proof (conflicts_complete db (items cart) item p Hin Hp Hun) as Hex.
    destruct (conflicts db (items cart)) as [|d ds]; [destruct Hex|].
    reflexivity.
  - intros item' p'. apply conflicts_complete.
  - apply conflicts_sound.
  - intros id. by rewrite checkout_readonly.
Qed.

(** A run of [checkout_reports_every_conflict]: carol's cart asks for five
    tees where three are left and for a hat that is sold out; both lines are
    reported. *)
Lemma checkout_reports_every_conflict_witness :
  exists details,
    checkout Sample.carol Sample.stale_shop
    = (StockIssues details, Sample.stale_shop)
    /\ In (mkStockIssue "Tee" "black/md" 5 3) details
    /\ In (mkStockIssue "Hat" "red/lg" 1 0) details.
Proof.
  destruct (checkout_reports_every_conflict
              Sample.carol Sample.stale_shop Sample.stale_cart)
    as (details & Hresp & Hall & _).
  - reflexivity.
  - discriminate.
  - intros item [<- | [<- | [<- | []]]]; eexists; reflexivity.
  - exists (Sample.tee_line 200 5), Sample.tee.
    split; [by left|]. split; reflexivity.
  - exists details. split; [exact Hresp|]. split.
    + apply (Hall (Sample.tee_line 200 5) Sample.tee);
        [by left | reflexivity | reflexivity].
    + apply (Hall (mkCartItem 201 2 1 (mkVariant "red" lg) 15) Sample.hat);
        [right; by left | reflexivity | reflexivity].
Defined.

(** The validation loop of [POST /api/checkout] reads [product.inStock]
    of every line: a line whose product is not stored makes it throw,
    whatever it collected before. *)
Lemma validate_stock_missing (db : Db) (its : list CartItem)
  (acc : list StockIssue) :
  (exists item, In item its /\ products db !! ci_product item = None) ->
  validate_stock
    (map (fun item => (item, products db !! ci_product item)) its) acc db
  = (Rejected TypeError, db).
Proof.
  intros (missing & Hin & Hnone). revert acc.
  induction its as [|item its IH]; intros acc; [destruct Hin|]. simpl.
  destruct (products db !! ci_product item) as [p|] eqn:Hp; [|reflexivity].
  assert (Hrest : In missing its).
  { destruct Hin as [-> | Hin]; [congruence | exact Hin]. }
  destruct (unavailable p item); apply (IH Hrest).
Qed.

Lemma checkout_missing_product (user : N) (db : Db) (cart : Cart) :
  carts db !! user = Some cart ->
  (exists item, In item (items cart)
                /\ products db !! ci_product item = None) ->
  checkout user db = (CheckoutFailed, db).
Proof.
  intros Hc Hmissing.
  unfold checkout, Cart_findOne, populate. async_unfold. rewrite Hc.
  destruct (items cart) as [|i0 its] eqn:Hits.
  { destruct Hmissing as (item & Hin & _). destruct Hin. }
  change (length (i0 :: its) =? 0)%nat with false. cbv beta iota.
  by rewrite (validate_stock_missing db (i0 :: its) [] Hmissing).
Qed.

(** C3, at the failing input. Carol's cart asks for five tees where three
    are left and for a hat that is sold out, and its third line is for
    the scarf, which was deleted from the catalogue since. The validation
    loop throws on the scarf's line, and the handler answers with the 500
    "Checkout Failed" where the claim has the list of stock issues; the
    database is left as it was. With the scarf in the catalogue the answer
    is the list with both issues. *)
Theorem checkout_conflicts_lost_to_deleted_product :
  carts Sample.stale_shop_scarf_deleted !! Sample.carol
  = Some Sample.stale_cart
  /\ items Sample.stale_cart
     = [Sample.tee_line 200 5;
        mkCartItem 201 2 1 (mkVariant "red" lg) 15;
        mkCartItem 202 3 1 (mkVariant "blue" sm) 10]
  /\ products Sample.stale_shop_scarf_deleted !! 1%N = Some Sample.tee
  /\ unavailable Sample.tee (Sample.tee_line 200 5) = true
  /\ products Sample.stale_shop_scarf_deleted !! 3%N = None
  /\ checkout Sample.carol Sample.stale_shop_scarf_deleted
     = (CheckoutFailed, Sample.stale_shop_scarf_deleted)
  /\ checkout Sample.carol Sample.stale_shop
     = (StockIssues [mkStockIssue "Tee" "black/md" 5 3;
                     mkStockIssue "Hat" "red/lg" 1 0],
        Sample.stale_shop).
Proof.
  split; [reflexivity|]. split; [reflexivity|]. split; [reflexivity|].
  split; [reflexivity|]. split; [reflexivity|]. split.
  - apply (checkout_missing_product _ _ Sample.stale_cart); [reflexivity|].
    exists (mkCartItem 202 3 1 (mkVariant "blue" sm) 10).
    split; [right; right; by left | reflexivity].
  - vm_compute. reflexivity.
Qed.

(** ** The stock invariant *)

Lemma Product_validate_soldCount (p : Product) :
  Product_validate p = true -> 0 <= soldCount p /\ 0 <= totalStock p.
Proof.
  unfold Product_validate. rewrite !andb_true_iff. intros [[_ Ht] Hs].
  split; by apply Z.leb_le.
Qed.

(** What [updateSoldCount] stores: the counter raised by the quantity, never
    below zero, with nothing that compares it to [totalStock]. The invariant
    is kept when the quantity is within the available stock. *)
Lemma updateSoldCount_fulfilled id p qty db p' db' :
  updateSoldCount id p qty db = (Fulfilled p', db') ->
  soldCount p' = soldCount p + qty /\ totalStock p' = totalStock p
  /\ 0 <= soldCount p'
  /\ products db' = <[id := p']> (products db)
  /\ (qty <= availableStock p -> stock_invariant p').
Proof.
  unfold updateSoldCount. intros H.
  match type of H with context [Product_save id ?p2 db] =>
    destruct (Product_save_cases id p2 db) as [[Hv Heq] | [_ Heq]] end;
    rewrite Heq in H; [|discriminate].
  injection H as <- <-. apply Product_validate_soldCount in Hv as [Hs Ht].
  simpl in *.
  split; [reflexivity|]. split; [reflexivity|]. split; [exact Hs|].
  split; [reflexivity|].
  intros Hq. unfold stock_invariant, availableStock in *. simpl. lia.
Qed.

(** No save of a product stores a negative [soldCount]. *)
Lemma Product_save_soldCount_nonneg id p db p' db' :
  Product_save id p db = (Fulfilled p', db') -> 0 <= soldCount p'.
Proof.
  intros H. destruct (Product_save_cases id p db) as [[Hv Heq] | [_ Heq]];
    rewrite Heq in H; [|discriminate].
  injection H as <- _. by apply Product_validate_soldCount in Hv as [? _].
Qed.

(** C1, at the failing input. The shop holds one product that satisfies the
    invariant, three pieces in stock and none sold. Alice and bob each add
    three pieces to their carts and each completes a checkout; all four
    requests succeed, and the product ends with [soldCount = 6] above
    [totalStock = 3]; [POST /api/checkout], asked for bob's cart before his
    completion, reports the stock issue that the completion does not look
    for. *)
Theorem checkout_complete_oversells :
  (forall id p, products Sample.shop !! id = Some p -> stock_invariant p)
  /\ (exists c, fst (cart_add Sample.alice Sample.tee_id (AsNumber 3) "black"
                              md 100 Sample.shop)
                = CartOk c)
  /\ (exists c, fst (cart_add Sample.bob Sample.tee_id (AsNumber 3) "black"
                              md 101
                              (after (cart_add Sample.alice Sample.tee_id
                                               (AsNumber 3) "black" md 100)
                                     Sample.shop))
                = CartOk c)
  /\ (exists order, fst (checkout_complete Sample.alice "pi_a" "ORD-A"
                                           Sample.both_carted)
                    = PurchaseCompleted order)
  /\ (exists order, fst (checkout_complete Sample.bob "pi_b" "ORD-B"
                                           Sample.alice_paid)
                    = PurchaseCompleted order)
  /\ (exists p, products Sample.both_paid !! 1%N = Some p
                /\ soldCount p = 6 /\ totalStock p = 3
                /\ ~ stock_invariant p)
  /\ fst (checkout Sample.bob Sample.alice_paid)
     = StockIssues [mkStockIssue "Tee" "black/md" 3 0].
Proof.
  split.
  { intros id p H. destruct (decide (id = 1%N)) as [-> | Hne].
    - vm_compute in H. injection H as <-. unfold stock_invariant. simpl. lia.
    - unfold Sample.shop in H. simpl in H.
      rewrite lookup_singleton_ne in H by done. discriminate. }
  split; [eexists; vm_compute; reflexivity|].
  split; [eexists; vm_compute; reflexivity|].
  split; [eexists; vm_compute; reflexivity|].
  split; [eexists; vm_compute; reflexivity|].
  split; [|vm_compute; reflexivity].
  exists (mkProduct "Tee" 20 "black" md false 3 6 true).
  split; [vm_compute; reflexivity|].
  split; [reflexivity|]. split; [reflexivity|].
  unfold stock_invariant. simpl. lia.
Qed.

(** * Further properties of the modelled code *)

(** ** [POST /api/cart/add] *)

(** The lines of a cart that validates ask for at least one piece. *)
Lemma Cart_validate_In (c : Cart) (line : CartItem) :
  Cart_validate c = true -> In line (items c) -> 1 <= quantity line.
Proof.
  unfold Cart_validate. rewrite forallb_forall. intros H Hin.
  apply Z.leb_le. by apply H.
Qed.

(** X1. A successful [POST /api/cart/add] was for an active product that is
    flagged in stock and has the requested colour and size: the product
    whose id the [productId] of the request is cast to. The request wrote
    the cart collection only. It wrote one line of the user's cart and
    kept the others: the first line that matched the id as it was sent,
    with a new quantity, or else a new last line. That line is for the
    product, colour and size of the request, and it asks for at least one
    piece and for no more than the product's available stock. *)
Theorem cart_add_within_stock :
  forall (user : N) (pid : string) (qty : BodyInt) (col : string) (sz : Size)
         (fresh : N) (db db' : Db) (c' : Cart),
    cart_add user pid qty col sz fresh db = (CartOk c', db') ->
    exists id product l1 line l2,
      ObjectId_cast pid = Some id
      /\ products db !! id = Some product
      /\ isActive product = true /\ inStock product = true
      /\ p_colour product = col /\ p_size product = sz
      /\ db' = with_carts (<[user := c']> (carts db)) db
      /\ items c' = l1 ++ line :: l2
      /\ ((exists existing,
              items (or_new_cart (carts db !! user)) = l1 ++ existing :: l2
              /\ sent_line pid (mkVariant col sz) existing = true
              /\ List.filter (sent_line pid (mkVariant col sz)) l1 = []
              /\ line = set_quantity (quantity line) existing)
          \/ (items (or_new_cart (carts db !! user)) = l1 /\ l2 = []
              /\ List.filter (sent_line pid (mkVariant col sz)) l1 = []
              /\ ci_id line = fresh /\ ci_price line = p_price product))
      /\ ObjectId_toString (ci_product line) = ObjectId_toString id
      /\ variant line = mkVariant col sz
      /\ 1 <= quantity line <= availableStock product.
Proof.
  intros user pid qty col sz fresh db db' c' H.
  apply cart_add_cases in H
    as [[_ Hno] | (id & product & c & its' & [= <-] & Hid & Hp & Hact & Hin
                   & Hc & Hs & Hsave & Hways)];
    [by destruct (Hno c')|].
  apply Cart_save_fulfilled in Hsave as (Hv & -> & ->).
  destruct Hways
    as [(l1 & existing & l2 & n & Hitems & Hx & Hl1 & Hn & Hle & ->)
       | (n & Hnone & Hn & Hb & ->)].
  - exists id, product, l1, (set_quantity n existing), l2.
    do 7 (split; [done|]). split; [reflexivity|].
    split; [left; by exists existing|].
    unfold sent_line in Hx.
    apply andb_true_iff in Hx as [Hx Hsz]. apply andb_true_iff in Hx as [Hx Hcol].
    apply bool_decide_eq_true in Hx, Hcol, Hsz.
    split; [|split].
    + simpl. symmetry. exact (ObjectId_toString_cast pid id _ Hx Hid).
    + simpl. destruct (variant existing). simpl in *. by subst.
    + split; [|exact Hle].
      apply (Cart_validate_In _ _ Hv). simpl. apply in_or_app. right. by left.
  - exists id, product, (items (or_new_cart (carts db !! user))),
      (mkCartItem fresh id n (mkVariant col sz) (p_price product)), [].
    do 7 (split; [done|]). split; [reflexivity|].
    split; [right; by repeat split|].
    split; [reflexivity|]. split; [reflexivity | exact Hb].
Qed.

(** A run of [cart_add_within_stock]: alice's first two tees. *)
Lemma cart_add_within_stock_witness :
  exists id product l1 line l2,
    ObjectId_cast Sample.tee_id = Some id
    /\ products Sample.shop !! id = Some product
    /\ isActive product = true /\ inStock product = true
    /\ p_colour product = "black" /\ p_size product = md
    /\ Sample.shop_added_once
       = with_carts (<[Sample.alice := Sample.cart_of_two]> (carts Sample.shop))
                    Sample.shop
    /\ items Sample.cart_of_two = l1 ++ line :: l2
    /\ ((exists existing,
            items (or_new_cart (carts Sample.shop !! Sample.alice))
            = l1 ++ existing :: l2
            /\ sent_line Sample.tee_id (mkVariant "black" md) existing = true
            /\ List.filter (sent_line Sample.tee_id (mkVariant "black" md)) l1
               = []
            /\ line = set_quantity (quantity line) existing)
        \/ (items (or_new_cart (carts Sample.shop !! Sample.alice)) = l1
            /\ l2 = []
            /\ List.filter (sent_line Sample.tee_id (mkVariant "black" md)) l1
               = []
            /\ ci_id line = 100%N /\ ci_price line = p_price product))
    /\ ObjectId_toString (ci_product line) = ObjectId_toString id
    /\ variant line = mkVariant "black" md
    /\ 1 <= quantity line <= availableStock product.
Proof.
  apply (cart_add_within_stock Sample.alice Sample.tee_id (AsNumber 2)
                               "black" md 100 Sample.shop
                               Sample.shop_added_once Sample.cart_of_two).
  vm_compute. reflexivity.
Defined.

(** X2. [POST /api/cart/add] refuses, in this order: an id that is not
    [isMongoId], a quantity that is not [isInt] from one on, or an empty
    colour; a product that is missing or inactive; a colour or size that
    is not the product's; a product flagged out of stock or with less
    available stock than the quantity; and, when a line of the cart
    matches the id as it was sent, a sum of that line's quantity and the
    quantity of the request above the available stock. The comparisons
    and the sum are those of the handler on the quantity as it was sent
    ([lt_body], [plus_body]): for a number they are [<] and [+]. Whenever
    the answer is anything but the saved cart, the database is as it
    was. *)
Theorem cart_add_refusals :
  forall (user : N) (pid : string) (qty : BodyInt) (col : string) (sz : Size)
         (fresh : N) (db : Db),
    (isMongoId pid = false \/ isInt_min 1 qty = false \/ col = "" ->
     cart_add user pid qty col sz fresh db = (CartValidationError, db))
    /\ (forall id,
           isMongoId pid = true -> isInt_min 1 qty = true -> col <> "" ->
           ObjectId_cast pid = Some id ->
           ((forall p, products db !! id = Some p -> isActive p = false) ->
            cart_add user pid qty col sz fresh db = (ProductNotFound, db))
           /\ (forall p,
                  products db !! id = Some p -> isActive p = true ->
                  (p_colour p <> col \/ p_size p <> sz ->
                   cart_add user pid qty col sz fresh db
                   = (VariantNotAvailable, db))
                  /\ (p_colour p = col -> p_size p = sz ->
                      inStock p = false
                      \/ lt_body (availableStock p) qty = true ->
                      cart_add user pid qty col sz fresh db
                      = (InsufficientStock (availableStock p), db))
                  /\ (forall line rest,
                         p_colour p = col -> p_size p = sz ->
                         inStock p = true ->
                         lt_body (availableStock p) qty = false ->
                         List.filter (sent_line pid (mkVariant col sz))
                                     (items (or_new_cart (carts db !! user)))
                         = line :: rest ->
                         lt_body (availableStock p)
                                 (plus_body (quantity line) qty) = true ->
                         cart_add user pid qty col sz fresh db
                         = (InsufficientStock (availableStock p), db))))
    /\ (forall a n, lt_body a (AsNumber n) = (a <? n)
                    /\ plus_body a (AsNumber n) = AsNumber (a + n))
    /\ (forall resp db',
           cart_add user pid qty col sz fresh db = (resp, db') ->
           (forall c, resp <> CartOk c) -> db' = db).
Proof.
  intros user pid qty col sz fresh db.
  split; [|split; [|split]].
  - intros Hbad. unfold cart_add. async_unfold.
    assert (Hv : isMongoId pid && isInt_min 1 qty
                 && negb (bool_decide (col = "")) = false).
    { destruct Hbad as [-> | [-> | ->]]; [reflexivity | |].
      - by rewrite andb_false_r.
      - by rewrite andb_false_r. }
    by rewrite Hv.
  - intros id Hm Hq Hcol Hid.
    split.
    + intros Hp.
      unfold cart_add, Product_findOne_active_sent, Product_findOne_active.
      async_unfold.
      rewrite Hm, Hq, (bool_decide_eq_false_2 _ Hcol), Hid. simpl.
      destruct (products db !! id) as [p|]; [|reflexivity].
      by rewrite (Hp p eq_refl).
    + intros p Hp Hact. split; [|split].
      * intros Hvar.
        unfold cart_add, Product_findOne_active_sent, Product_findOne_active.
        async_unfold.
        rewrite Hm, Hq, (bool_decide_eq_false_2 _ Hcol), Hid. simpl.
        rewrite Hp, Hact.
        destruct Hvar as [Hne | Hne]; rewrite (bool_decide_eq_false_2 _ Hne);
          simpl; [reflexivity|].
        by rewrite orb_true_r.
      * intros Hc Hs Hst.
        unfold cart_add, Product_findOne_active_sent, Product_findOne_active.
        async_unfold.
        rewrite Hm, Hq, (bool_decide_eq_false_2 _ Hcol), Hid. simpl.
        rewrite Hp, Hact.
        rewrite (bool_decide_eq_true_2 _ Hc), (bool_decide_eq_true_2 _ Hs).
        simpl.
        destruct Hst as [-> | ->]; simpl; [reflexivity|].
        by rewrite orb_true_r.
      * intros line rest Hc Hs Hin Hav Hlines Hover.
        unfold cart_add, Product_findOne_active_sent, Product_findOne_active,
          Cart_findOne.
        async_unfold.
        rewrite Hm, Hq, (bool_decide_eq_false_2 _ Hcol), Hid. simpl.
        rewrite Hp, Hact.
        rewrite (bool_decide_eq_true_2 _ Hc), (bool_decide_eq_true_2 _ Hs), Hin.
        simpl. rewrite Hav.
        set (cart := or_new_cart (carts db !! user)) in *.
        destruct (Z.leb_spec 0 (JS.findIndex (sent_line pid (mkVariant col sz))
                                             (items cart))) as [Hi | Hi].
        -- destruct (findIndex_split _ _ Hi)
             as (l1 & x & l2 & Hsplit & Hx & Hl1 & Hn).
           rewrite Hn, Hsplit, lookup_middle.
           rewrite Hsplit, List.filter_app, Hl1 in Hlines. simpl in Hlines.
           rewrite Hx in Hlines. injection Hlines as -> _.
           by rewrite Hover.
        -- apply findIndex_none in Hi. rewrite Hi in Hlines. discriminate.
  - intros a n. split; reflexivity.
  - intros resp db' H Hno.
    apply cart_add_cases in H as [[-> _] | (id & product & c & its' & -> & _)];
      [reflexivity | by destruct (Hno c)].
Qed.

(** A run of [cart_add_refusals]: with two tees in her cart and three in
    stock, alice is refused two more. *)
Lemma cart_add_refusals_witness :
  cart_add Sample.alice Sample.tee_id (AsNumber 2) "black" md 101
           Sample.shop_added_once
  = (InsufficientStock 3, Sample.shop_added_once).
Proof.
  destruct (cart_add_refusals Sample.alice Sample.tee_id (AsNumber 2) "black"
                              md 101 Sample.shop_added_once)
    as (_ & Hfound & _).
  assert (Hcol : "black" <> "") by discriminate.
  destruct (Hfound 1%N eq_refl eq_refl Hcol eq_refl) as [_ Hproduct].
  destruct (Hproduct Sample.tee eq_refl eq_refl) as (_ & _ & Hmerged).
  exact (Hmerged (Sample.tee_line 100 2) [] eq_refl eq_refl eq_refl eq_refl
                 eq_refl eq_refl).
Defined.

(** ** [PUT /api/cart/update/:itemId], [DELETE /api/cart/remove/:itemId],
       [DELETE /api/cart/clear] *)

Lemma no_id_filter (itemId : N) (l : list CartItem) :
  ~ In itemId (map ci_id l) -> List.filter (has_id itemId) l = [].
Proof.
  induction l as [|y l IH]; simpl; [done|].
  intros Hno. unfold has_id at 1.
  rewrite bool_decide_eq_false_2 by (intros E; apply Hno; by left).
  apply IH. intros Hin. apply Hno. by right.
Qed.

Lemma no_id_pull (itemId : N) (l : list CartItem) :
  ~ In itemId (map ci_id l) -> pull itemId l = l.
Proof.
  induction l as [|y l IH]; simpl; [done|].
  intros Hno.
  rewrite bool_decide_eq_false_2 by (intros E; apply Hno; by left).
  simpl. f_equal. apply IH. intros Hin. apply Hno. by right.
Qed.

Lemma pull_no_id (itemId : N) (l : list CartItem) :
  ~ In itemId (map ci_id (pull itemId l)).
Proof.
  unfold pull. intros Hin. apply in_map_iff in Hin as (x & Hx & Hin).
  apply filter_In in Hin as [_ Hf].
  apply negb_true_iff, bool_decide_eq_false in Hf. done.
Qed.

Lemma find_first_id (itemId : N) (l1 l2 : list CartItem) (x : CartItem) :
  ci_id x = itemId -> ~ In itemId (map ci_id l1) ->
  List.find (has_id itemId) (l1 ++ x :: l2) = Some x
  /\ JS.findIndex (has_id itemId) (l1 ++ x :: l2) = Z.of_nat (length l1).
Proof.
  intros Hx Hno. split.
  - induction l1 as [|y l1 IH]; simpl.
    + unfold has_id. by rewrite bool_decide_eq_true_2.
    + unfold has_id at 1.
      rewrite bool_decide_eq_false_2 by (intros E; apply Hno; by left).
      apply IH. intros Hin. apply Hno. by right.
  - apply findIndex_first; [unfold has_id; by apply bool_decide_eq_true_2|].
    by apply no_id_filter.
Qed.

Lemma Cart_validate_pull (itemId : N) (c : Cart) :
  Cart_validate c = true ->
  Cart_validate (set_items (pull itemId (items c)) c) = true.
Proof.
  unfold Cart_validate, pull. simpl. rewrite !forallb_forall.
  intros H x Hin. apply H. by apply filter_In in Hin as [? _].
Qed.

(** X3. [PUT /api/cart/update/:itemId] on a stored, valid cart that has a line
    with the given [_id]: quantity zero removes the line; a positive
    quantity within the available stock of an in-stock product replaces the
    line's quantity (it is not added to it) and touches no other line; a
    positive quantity for a product that is missing, flagged out of stock
    or short of stock is refused with the available stock (zero when the
    product is missing) and nothing is written. *)
Theorem cart_update_sets_removes_or_refuses :
  forall (user itemId : N) (qty : Z) (db : Db) (cart : Cart)
         (l1 l2 : list CartItem) (line : CartItem),
    carts db !! user = Some cart ->
    Cart_validate cart = true ->
    items cart = l1 ++ line :: l2 ->
    ci_id line = itemId ->
    ~ In itemId (map ci_id l1) ->
    (qty = 0 ->
     exists c',
       cart_update user itemId qty db
       = (CartOk c', with_carts (<[user := c']> (carts db)) db)
       /\ items c' = pull itemId (items cart)
       /\ ~ In itemId (map ci_id (items c')))
    /\ (forall p,
           0 < qty ->
           products db !! ci_product line = Some p ->
           inStock p = true -> qty <= availableStock p ->
           exists c',
             cart_update user itemId qty db
             = (CartOk c', with_carts (<[user := c']> (carts db)) db)
             /\ items c' = l1 ++ set_quantity qty line :: l2)
    /\ (0 < qty ->
        products db !! ci_product line = None ->
        cart_update user itemId qty db = (InsufficientStock 0, db))
    /\ (forall p,
           0 < qty ->
           products db !! ci_product line = Some p ->
           inStock p = false \/ availableStock p < qty ->
           cart_update user itemId qty db
           = (InsufficientStock (availableStock p), db)).
Proof.
  intros user itemId qty db cart l1 l2 line Hc Hv Hitems Hid Hno.
  destruct (find_first_id itemId l1 l2 line Hid Hno) as [Hfind Hidx].
  assert (Hunfold :
    0 <= qty ->
    cart_update user itemId qty db
    = match
        (let product := products db !! ci_product line in
         if (0 <? qty)
            && match product with
               | None => true
               | Some p => negb (inStock p) || (availableStock p <? qty)
               end
         then (Fulfilled (InsufficientStock
                            (match product with
                             | Some p => availableStock p
                             | None => 0
                             end)), db)
         else match updateItemQuantity user cart itemId qty db with
              | (Fulfilled saved, db') => (Fulfilled (CartOk saved), db')
              | (Rejected e, db') => (Rejected e, db')
              end)
      with
      | (Fulfilled r, db') => (r, db')
      | (Rejected _, db') => (CartServerError, db')
      end).
  { intros Hq. unfold cart_update, Cart_findOne, Product_findById.
    async_unfold. apply Z.leb_le in Hq. rewrite Hq. simpl. rewrite Hc.
    fold (has_id itemId). rewrite Hitems, Hfind. simpl.
    by destruct (_ && _). }
  split; [|split; [|split]].
  - intros ->. rewrite Hunfold by lia. simpl.
    unfold updateItemQuantity, updateItemQuantity_items.
    fold (has_id itemId). rewrite Hitems, Hidx.
    destruct (Z.leb_spec 0 (Z.of_nat (length l1))); [|lia]. simpl.
    rewrite <- Hitems.
    destruct (Cart_save_cases user (set_items (pull itemId (items cart)) cart) db)
      as [-> | Hrej].
    + eexists. split; [reflexivity|]. split; [reflexivity|]. apply pull_no_id.
    + unfold Cart_save in Hrej. rewrite (Cart_validate_pull _ _ Hv) in Hrej.
      discriminate.
  - intros p Hq Hp Hin Hav. rewrite Hunfold by lia. simpl. rewrite Hp, Hin.
    apply Z.ltb_ge in Hav. rewrite Hav, andb_false_r.
    unfold updateItemQuantity, updateItemQuantity_items.
    fold (has_id itemId). rewrite Hitems, Hidx, Nat2Z.id.
    destruct (Z.leb_spec 0 (Z.of_nat (length l1))); [|lia].
    destruct (Z.leb_spec qty 0); [lia|].
    rewrite (alter_middle (set_quantity qty)).
    match goal with |- context [Cart_save user ?c db] =>
      destruct (Cart_save_cases user c db) as [-> | Hrej] end.
    + eexists. split; reflexivity.
    + unfold Cart_save in Hrej.
      match type of Hrej with context [Cart_validate ?c] =>
        assert (Hv' : Cart_validate c = true) end.
      { unfold Cart_validate in *. simpl. rewrite Hitems in Hv.
        rewrite forallb_app in *. simpl in *.
        apply andb_true_iff in Hv as [Hv1 Hv2].
        apply andb_true_iff in Hv2 as [_ Hv2]. rewrite Hv1, Hv2.
        simpl. rewrite andb_true_r. apply Z.leb_le. lia. }
      rewrite Hv' in Hrej. discriminate.
  - intros Hq Hp. rewrite Hunfold by lia. simpl. rewrite Hp.
    apply Z.ltb_lt in Hq. by rewrite Hq.
  - intros p Hq Hp Hbad. rewrite Hunfold by lia. simpl. rewrite Hp.
    apply Z.ltb_lt in Hq. rewrite Hq. simpl.
    destruct Hbad as [-> | Hlt]; simpl; [reflexivity|].
    apply Z.ltb_lt in Hlt. by rewrite Hlt, orb_true_r.
Qed.

(** A run of [cart_update_sets_removes_or_refuses]: alice, with two tees in
    her cart, asks for three (the stock) and gets a line of three, not of
    five; asking for zero empties her cart. *)
Lemma cart_update_sets_removes_or_refuses_witness :
  (exists c',
      cart_update Sample.alice 100 3 Sample.shop_added_once
      = (CartOk c',
         with_carts (<[Sample.alice := c']> (carts Sample.shop_added_once))
                    Sample.shop_added_once)
      /\ items c' = [Sample.tee_line 100 3])
  /\ (exists c',
         cart_update Sample.alice 100 0 Sample.shop_added_once
         = (CartOk c',
            with_carts (<[Sample.alice := c']> (carts Sample.shop_added_once))
                       Sample.shop_added_once)
         /\ items c' = []).
Proof.
  pose proof (cart_update_sets_removes_or_refuses
                Sample.alice 100 3 Sample.shop_added_once Sample.cart_of_two
                [] [] (Sample.tee_line 100 2)
                eq_refl eq_refl eq_refl eq_refl (fun H => H)) as H3.
  pose proof (cart_update_sets_removes_or_refuses
                Sample.alice 100 0 Sample.shop_added_once Sample.cart_of_two
                [] [] (Sample.tee_line 100 2)
                eq_refl eq_refl eq_refl eq_refl (fun H => H)) as H0.
  split.
  - destruct (proj1 (proj2 H3) Sample.tee) as (c' & Hr & Hi);
      [lia | reflexivity | reflexivity | discriminate |].
    exists c'. split; [exact Hr | exact Hi].
  - destruct (proj1 H0 eq_refl) as (c' & Hr & Hi & _).
    exists c'. split; [exact Hr | exact Hi].
Defined.

Lemma cart_remove_run (user itemId : N) (db : Db) (cart : Cart) :
  carts db !! user = Some cart -> Cart_validate cart = true ->
  cart_remove user itemId db
  = (CartOk (Cart_preSave (set_items (pull itemId (items cart)) cart)),
     with_carts
       (<[user := Cart_preSave (set_items (pull itemId (items cart)) cart)]>
          (carts db)) db).
Proof.
  intros Hc Hv.
  unfold cart_remove, Cart_findOne, removeItem, Cart_save. async_unfold.
  rewrite Hc. simpl. by rewrite (Cart_validate_pull itemId cart Hv).
Qed.

(** X4. [DELETE /api/cart/remove/:itemId] on a stored, valid cart drops every
    line with the given [_id] and keeps the others in order; a cart without
    such a line keeps all its lines; removing the same [_id] again changes
    nothing more. Without a stored cart the answer is "Cart Not Found" and
    nothing is written. *)
Theorem cart_remove_drops_line :
  forall (user itemId : N) (db : Db),
    (carts db !! user = None ->
     cart_remove user itemId db = (CartNotFound, db))
    /\ (forall cart,
           carts db !! user = Some cart ->
           Cart_validate cart = true ->
           exists c',
             cart_remove user itemId db
             = (CartOk c', with_carts (<[user := c']> (carts db)) db)
             /\ items c' = pull itemId (items cart)
             /\ ~ In itemId (map ci_id (items c'))
             /\ (~ In itemId (map ci_id (items cart)) ->
                 items c' = items cart)
             /\ after (cart_remove user itemId)
                      (after (cart_remove user itemId) db)
                = after (cart_remove user itemId) db).
Proof.
  intros user itemId db. split.
  - intros Hc. unfold cart_remove, Cart_findOne. async_unfold.
    by rewrite Hc.
  - intros cart Hc Hv.
    eexists. split; [apply (cart_remove_run user itemId db cart Hc Hv)|].
    split; [reflexivity|]. split; [apply pull_no_id|].
    split; [intros Hno; simpl; by apply no_id_pull|].
    unfold after. rewrite (cart_remove_run user itemId db cart Hc Hv). simpl.
    erewrite cart_remove_run;
      [| simpl; apply lookup_insert_eq
       | apply (Cart_validate_pull itemId cart Hv) ].
    simpl. rewrite (no_id_pull itemId (pull itemId (items cart)))
      by apply pull_no_id.
    unfold with_carts. simpl. by rewrite insert_insert_eq.
Qed.

(** A run of [cart_remove_drops_line]: alice removes her line of tees. *)
Lemma cart_remove_drops_line_witness :
  exists c',
    cart_remove Sample.alice 100 Sample.shop_added_once
    = (CartOk c',
       with_carts (<[Sample.alice := c']> (carts Sample.shop_added_once))
                  Sample.shop_added_once)
    /\ items c' = [].
Proof.
  destruct (proj2 (cart_remove_drops_line Sample.alice 100
                                          Sample.shop_added_once)
              Sample.cart_of_two eq_refl eq_refl) as (c' & Hr & Hi & _).
  exists c'. split; [exact Hr | exact Hi].
Defined.

(** X5. [DELETE /api/cart/clear] always answers that the cart is cleared: a
    stored cart is replaced by one without lines and with both aggregates
    at zero, every other cart, the products and the orders are left alone,
    and no cart is created for a user who has none. *)
Theorem cart_clear_empties :
  forall (user : N) (db : Db),
    fst (cart_clear user db) = CartCleared
    /\ (carts db !! user = None -> after (cart_clear user) db = db)
    /\ (is_Some (carts db !! user) ->
        carts (after (cart_clear user) db) !! user = Some (mkCart [] 0%Q 0))
    /\ (forall other, other <> user ->
                      carts (after (cart_clear user) db) !! other
                      = carts db !! other)
    /\ products (after (cart_clear user) db) = products db
    /\ orders (after (cart_clear user) db) = orders db.
Proof.
  intros user db. unfold after, cart_clear, Cart_findOne. async_unfold.
  destruct (carts db !! user) as [cart|] eqn:Hc; simpl.
  - split; [reflexivity|]. split; [discriminate|].
    split; [intros _; apply lookup_insert_eq|].
    split; [intros other Hne; by apply lookup_insert_ne|].
    split; reflexivity.
  - split; [reflexivity|]. split; [reflexivity|].
    split; [intros [c Hsome]; discriminate|].
    split; [reflexivity|]. split; reflexivity.
Qed.

(** X6. Adding a product for which the request finds no line in the cart,
    and removing the line again by the [_id] it was given, leaves the cart
    with the lines it had, when no line had that [_id] before. *)
Theorem cart_add_then_remove :
  forall (user : N) (pid : string) (qty : BodyInt) (col : string) (sz : Size)
         (fresh : N) (db db1 : Db) (c1 : Cart),
    List.filter (sent_line pid (mkVariant col sz))
                (items (or_new_cart (carts db !! user))) = [] ->
    ~ In fresh (map ci_id (items (or_new_cart (carts db !! user)))) ->
    cart_add user pid qty col sz fresh db = (CartOk c1, db1) ->
    exists c2,
      cart_remove user fresh db1
      = (CartOk c2, with_carts (<[user := c2]> (carts db1)) db1)
      /\ items c2 = items (or_new_cart (carts db !! user)).
Proof.
  intros user pid qty col sz fresh db db1 c1 Hnone Hfresh Hadd.
  apply cart_add_cases in Hadd
    as [[_ Hno] | (id & product & c & its' & [= <-] & _ & _ & _ & _ & _ & _
                   & Hsave & Hways)];
    [by destruct (Hno c1)|].
  apply Cart_save_fulfilled in Hsave as (Hv & -> & ->).
  destruct Hways
    as [(l1 & existing & l2 & n & Hitems & Hx & _)
       | (n & _ & _ & _ & ->)].
  { rewrite Hitems, List.filter_app in Hnone. simpl in Hnone.
    rewrite Hx in Hnone. by destruct (app_eq_nil _ _ Hnone). }
  eexists. split.
  { apply cart_remove_run; [simpl; apply lookup_insert_eq|].
    exact Hv. }
  simpl. unfold pull. rewrite List.filter_app. simpl.
  rewrite bool_decide_eq_true_2 by reflexivity. simpl.
  rewrite app_nil_r. by apply no_id_pull.
Qed.

(** A run of [cart_add_then_remove]: alice adds two tees to her empty cart
    and removes the line. *)
Lemma cart_add_then_remove_witness :
  exists c2,
    cart_remove Sample.alice 100 Sample.shop_added_once
    = (CartOk c2,
       with_carts (<[Sample.alice := c2]> (carts Sample.shop_added_once))
                  Sample.shop_added_once)
    /\ items c2 = [].
Proof.
  apply (cart_add_then_remove Sample.alice Sample.tee_id (AsNumber 2) "black"
                              md 100 Sample.shop
                              Sample.shop_added_once Sample.cart_of_two).
  - reflexivity.
  - intros H. exact H.
  - vm_compute. reflexivity.
Defined.

(** ** [POST /api/checkout]: the summary *)

Lemma conflicts_none db its :
  (forall item, In item its ->
                exists p, products db !! ci_product item = Some p
                          /\ unavailable p item = false) ->
  conflicts db its = [].
Proof.
  induction its as [|item its IH]; simpl; [done|].
  intros H. destruct (H item (or_introl eq_refl)) as (p & -> & ->). simpl.
  apply IH. intros; apply H; by right.
Qed.

Lemma order_lines_resolved db0 db its :
  (forall item, In item its -> is_Some (products db0 !! ci_product item)) ->
  order_lines (map (fun item => (item, products db0 !! ci_product item)) its)
              db
  = (Fulfilled (map (line_of db0) its), db).
Proof.
  induction its as [|item its IH]; simpl; [done|].
  intros H. unfold line_of at 1.
  destruct (H item (or_introl eq_refl)) as [p Hp]. rewrite Hp.
  unfold bind. rewrite IH by (intros; apply H; by right). reflexivity.
Qed.

(** X7. [POST /api/checkout] answers "Empty Cart" when the user has no cart or
    a cart without lines. For a cart whose lines all refer to products that
    are flagged in stock and have the asked quantity available, it answers
    with a summary and writes nothing: the subtotal is the cart's stored
    [totalAmount], the tax a tenth of it, shipping is free from a subtotal
    of 100 on and 10 below, the total is their sum, and there is one summary
    line per cart line, with the line's quantity and the price recorded in
    the cart (not the product's current price). *)
Theorem checkout_summary :
  forall (user : N) (db : Db),
    (carts db !! user = None -> checkout user db = (EmptyCart, db))
    /\ (forall cart,
           carts db !! user = Some cart -> items cart = [] ->
           checkout user db = (EmptyCart, db))
    /\ (forall cart,
           carts db !! user = Some cart -> items cart <> [] ->
           (forall item, In item (items cart) ->
                         exists p, products db !! ci_product item = Some p
                                   /\ unavailable p item = false) ->
           exists summary,
             checkout user db = (CheckoutSummary summary, db)
             /\ os_subtotal summary = totalAmount cart
             /\ os_tax summary = (totalAmount cart * (1 # 10))%Q
             /\ ((100 <= totalAmount cart)%Q -> os_shipping summary = 0%Q)
             /\ ((totalAmount cart < 100)%Q -> os_shipping summary = 10%Q)
             /\ os_total summary
                = (os_subtotal summary + os_tax summary
                   + os_shipping summary)%Q
             /\ os_totalItems summary = totalItems cart
             /\ os_uniqueProducts summary = length (items cart)
             /\ os_items summary = map (line_of db) (items cart)
             /\ map ol_price (os_items summary) = map ci_price (items cart)
             /\ map ol_quantity (os_items summary)
                = map quantity (items cart)).
Proof.
  intros user db. split; [|split].
  - intros Hc. unfold checkout, Cart_findOne. async_unfold. by rewrite Hc.
  - intros cart Hc Hi. unfold checkout, Cart_findOne. async_unfold.
    by rewrite Hc, Hi.
  - intros cart Hc Hne Hok.
    assert (Hres : forall item, In item (items cart) ->
                                is_Some (products db !! ci_product item)).
    { intros item Hin. destruct (Hok item Hin) as (p & Hp & _). eauto. }
    eexists. split.
    + unfold checkout, Cart_findOne, populate. async_unfold. rewrite Hc.
      destruct (items cart) as [|i0 its] eqn:Hits; [done|].
      change (length (i0 :: its) =? 0)%nat with false. cbv iota.
      rewrite <- Hits in *.
      rewrite (validate_stock_resolved db (items cart) [] Hres).
      rewrite (conflicts_none db (items cart) Hok). simpl.
      rewrite (order_lines_resolved db db (items cart) Hres). reflexivity.
    + simpl. split; [reflexivity|]. split; [reflexivity|].
      split.
      { intros Hle. apply Qle_bool_iff in Hle. by rewrite Hle. }
      split.
      { intros Hlt. destruct (Qle_bool 100 (totalAmount cart)) eqn:E;
          [|reflexivity].
        apply Qle_bool_iff in E. exfalso. exact (Qlt_not_le _ _ Hlt E). }
      split; [reflexivity|]. split; [reflexivity|]. split; [reflexivity|].
      split; [reflexivity|].
      rewrite !map_map. split; reflexivity.
Qed.

(** A run of [checkout_summary]: alice's two tees at 20 make a subtotal of
    40, a tax of 4, shipping of 10 and a total of 54. *)
Lemma checkout_summary_witness :
  exists summary,
    checkout Sample.alice Sample.shop_added_once
    = (CheckoutSummary summary, Sample.shop_added_once)
    /\ os_subtotal summary = 40%Q
    /\ (os_tax summary == 4)%Q
    /\ os_shipping summary = 10%Q
    /\ (os_total summary == 54)%Q
    /\ map ol_quantity (os_items summary) = [2].
Proof.
  destruct (proj2 (proj2 (checkout_summary Sample.alice Sample.shop_added_once))
              Sample.cart_of_two)
    as (summary & Hr & Hsub & Htax & _ & Hship & Htot & _ & _ & _ & _ & Hq).
  - reflexivity.
  - discriminate.
  - intros item [<- | []]. exists Sample.tee. split; reflexivity.
  - exists summary. split; [exact Hr|]. split; [exact Hsub|].
    split; [rewrite Htax; reflexivity|].
    assert (Hs : os_shipping summary = 10%Q) by (apply Hship; reflexivity).
    split; [exact Hs|].
    split; [rewrite Htot, Hsub, Htax, Hs; reflexivity | exact Hq].
Defined.

(** ** [POST /api/checkout/complete]: what a purchase writes *)

Lemma sold_more_refl p : sold_more 0 p p.
Proof. unfold sold_more. repeat split; lia. Qed.

Lemma sold_more_trans n m p q r :
  sold_more n p q -> sold_more m q r -> sold_more (n + m) p r.
Proof.
  unfold sold_more.
  intros (H1 & H2 & H3 & H4 & H5 & H6 & H7) (K1 & K2 & K3 & K4 & K5 & K6 & K7).
  split; [lia|]. split; [lia|]. repeat split; congruence.
Qed.

Lemma products_sold_nil ps : products_sold [] ps ps.
Proof.
  intros pid. destruct (ps !! pid); [apply sold_more_refl | exact I].
Qed.

Lemma products_sold_dom its ps ps' pid :
  products_sold its ps ps' -> is_Some (ps !! pid) -> is_Some (ps' !! pid).
Proof.
  intros H [p Hp]. specialize (H pid). rewrite Hp in H.
  destruct (ps' !! pid); [eauto | contradiction].
Qed.

Lemma products_sold_app l1 l2 ps1 ps2 ps3 :
  products_sold l1 ps1 ps2 -> products_sold l2 ps2 ps3 ->
  products_sold (l1 ++ l2) ps1 ps3.
Proof.
  intros H1 H2 pid. specialize (H1 pid). specialize (H2 pid).
  assert (Hs : sold pid (l1 ++ l2) = sold pid l1 + sold pid l2).
  { clear. induction l1 as [|x l1 IH]; simpl; [lia | rewrite IH; lia]. }
  rewrite Hs.
  destruct (ps1 !! pid), (ps2 !! pid), (ps3 !! pid); try contradiction;
    [eapply sold_more_trans; eassumption | exact I].
Qed.

(** One round of the loop of [POST /api/checkout/complete] on a line whose
    product is stored and valid. *)
Lemma sell_line_step db item snap p :
  products db !! ci_product item = Some p ->
  Product_validate p = true -> 0 <= quantity item ->
  exists p',
    sell_line (item, Some snap) db
    = (Fulfilled tt,
       with_products (<[ci_product item := p']> (products db)) db)
    /\ sold_more (quantity item) p p' /\ Product_validate p' = true.
Proof.
  intros Hp Hv Hq.
  unfold Product_validate in Hv.
  apply andb_true_iff in Hv as [Hv Hs]. apply andb_true_iff in Hv as [Hpr Ht].
  apply Z.leb_le in Hs.
  assert (Hv' : Product_validate
                  (set_inStock
                     (0 <? availableStock
                             (set_soldCount (soldCount p + quantity item) p))
                     (set_soldCount (soldCount p + quantity item) p)) = true).
  { unfold Product_validate. simpl. rewrite Hpr, Ht. simpl.
    apply Z.leb_le. lia. }
  eexists. split; [|split].
  - unfold sell_line, Product_findById, updateSoldCount, Product_save.
    async_unfold. rewrite Hp. cbv zeta. rewrite Hv'. reflexivity.
  - unfold sold_more. simpl. repeat split.
  - unfold Product_validate. simpl. rewrite Hpr, Ht. simpl.
    apply Z.leb_le. lia.
Qed.

Lemma products_sold_one item p p' ps :
  ps !! ci_product item = Some p -> sold_more (quantity item) p p' ->
  products_sold [item] ps (<[ci_product item := p']> ps).
Proof.
  intros Hp Hs pid. simpl.
  destruct (decide (ci_product item = pid)) as [<- | Hne].
  - rewrite Hp, lookup_insert_eq, bool_decide_eq_true_2 by reflexivity.
    by rewrite Z.add_0_r.
  - rewrite lookup_insert_ne, bool_decide_eq_false_2 by assumption.
    destruct (ps !! pid); [apply sold_more_refl | exact I].
Qed.

(** The whole loop, over lines whose products are stored. *)
Lemma sell_lines (snap : CartItem -> option Product) its :
  forall db,
    products_valid db ->
    (forall item, In item its ->
                  is_Some (snap item)
                  /\ is_Some (products db !! ci_product item)
                  /\ 0 <= quantity item) ->
    exists db',
      for_of (map (fun item => (item, snap item)) its) sell_line db
      = (Fulfilled tt, db')
      /\ carts db' = carts db /\ orders db' = orders db
      /\ products_valid db'
      /\ products_sold its (products db) (products db').
Proof.
  induction its as [|item its IH]; intros db Hval Hits.
  - exists db. simpl. split; [reflexivity|]. split; [reflexivity|].
    split; [reflexivity|]. split; [exact Hval | apply products_sold_nil].
  - destruct (Hits item (or_introl eq_refl)) as ([s Hs] & [p Hp] & Hq).
    destruct (sell_line_step db item s p Hp (Hval _ _ Hp) Hq)
      as (p' & Hrun & Hmore & Hv').
    set (db1 := with_products (<[ci_product item := p']> (products db)) db)
      in *.
    assert (Hone : products_sold [item] (products db) (products db1))
      by (apply (products_sold_one item p p'); assumption).
    destruct (IH db1) as (db' & Hloop & Hc & Ho & Hval' & Hsold).
    { intros pid q. simpl.
      destruct (decide (ci_product item = pid)) as [<- | Hne].
      - rewrite lookup_insert_eq. by intros [= <-].
      - rewrite lookup_insert_ne by assumption. apply Hval. }
    { intros it Hin. destruct (Hits it (or_intror Hin)) as (H1 & H2 & H3).
      split; [exact H1|]. split; [|exact H3].
      eapply products_sold_dom; eassumption. }
    exists db'. split.
    { cbn [for_of map]. unfold bind. rewrite Hs, Hrun. exact Hloop. }
    split; [by rewrite Hc|]. split; [by rewrite Ho|].
    split; [exact Hval'|].
    exact (products_sold_app [item] its _ _ _ Hone Hsold).
Qed.

Lemma for_of_app {A} (l1 l2 : list A) (body : A -> Async unit) db db1 :
  for_of l1 body db = (Fulfilled tt, db1) ->
  for_of (l1 ++ l2) body db = for_of l2 body db1.
Proof.
  revert db. induction l1 as [|x l1 IH]; intros db; simpl.
  - by intros [= ->].
  - unfold bind. destruct (body x db) as [[[]|e] db2]; [apply IH | done].
Qed.

(** X8. With a payment intent and an order id, a stored cart that has lines,
    passes the cart validators and refers to stored products only, in a
    product collection that passes the product validators,
    [POST /api/checkout/complete] succeeds: the order data list the cart's
    lines at the prices recorded in the cart, with the cart's stored
    [totalAmount] and status confirmed; the user's cart is stored empty with
    both aggregates 0; no order document is written; and every product's
    [soldCount] grows by exactly the pieces the cart held of it, its
    [totalStock] and other fields unchanged. No stock test is made. *)
Theorem checkout_complete_sells_the_cart :
  forall (user : N) (paymentIntentId orderId : string) (db : Db) (cart : Cart),
    paymentIntentId <> "" -> orderId <> "" ->
    carts db !! user = Some cart -> items cart <> [] ->
    Cart_validate cart = true ->
    products_valid db ->
    (forall item, In item (items cart) ->
                  is_Some (products db !! ci_product item)) ->
    exists db',
      checkout_complete user paymentIntentId orderId db
      = (PurchaseCompleted
           (mkOrderData user orderId (map (line_of db) (items cart))
                        (totalAmount cart) paymentIntentId confirmed), db')
      /\ carts db' = <[user := mkCart [] 0%Q 0]> (carts db)
      /\ orders db' = orders db
      /\ products_sold (items cart) (products db) (products db').
Proof.
  intros user pi oid db cart Hpi Hoid Hc Hne Hcv Hval Hres.
  destruct (sell_lines (fun item => products db !! ci_product item)
                       (items cart) db Hval)
    as (db1 & Hloop & Hc1 & Ho1 & _ & Hsold).
  { intros item Hin. split; [by apply Hres|]. split; [by apply Hres|].
    pose proof (Cart_validate_In _ _ Hcv Hin). lia. }
  exists (with_carts (<[user := mkCart [] 0%Q 0]> (carts db1)) db1).
  split; [|split; [|split]].
  - unfold checkout_complete, try_catch, Cart_findOne, populate.
    rewrite !bool_decide_eq_false_2 by assumption. simpl.
    unfold bind at 1. simpl. rewrite Hc.
    destruct (items cart) as [|i0 its] eqn:Hits; [done|].
    change (length (i0 :: its) =? 0)%nat with false. cbv iota.
    rewrite <- Hits in *.
    unfold bind, get_db, ret. rewrite Hloop.
    rewrite (order_lines_resolved db db1 (items cart) Hres).
    reflexivity.
  - simpl. by rewrite Hc1.
  - simpl. exact Ho1.
  - simpl. exact Hsold.
Qed.

(** A run of [checkout_complete_sells_the_cart]: alice pays for the two tees
    in her cart. *)
Lemma checkout_complete_sells_the_cart_witness :
  exists db',
    checkout_complete Sample.alice "pi_a" "ORD-A" Sample.shop_added_once
    = (PurchaseCompleted
         (mkOrderData Sample.alice "ORD-A"
            [mkOrderLine 1%N "Tee" (mkVariant "black" md) 2 20]
            40 "pi_a" confirmed), db')
    /\ carts db' !! Sample.alice = Some (mkCart [] 0%Q 0)
    /\ exists p', products db' !! 1%N = Some p'
                  /\ soldCount p' = 2 /\ totalStock p' = 3.
Proof.
  destruct (checkout_complete_sells_the_cart Sample.alice "pi_a" "ORD-A"
              Sample.shop_added_once Sample.cart_of_two)
    as (db' & Hrun & Hcarts & _ & Hsold).
  - discriminate.
  - discriminate.
  - reflexivity.
  - discriminate.
  - reflexivity.
  - intros pid p.
    change (products Sample.shop_added_once) with ({[1%N := Sample.tee]} : gmap N Product).
    intros [<- <-]%lookup_singleton_Some. reflexivity.
  - intros item [<- | []]. exists Sample.tee. reflexivity.
  - exists db'. split; [exact Hrun|]. split.
    + rewrite Hcarts. apply lookup_insert_eq.
    + specialize (Hsold 1%N).
      change (products Sample.shop_added_once !! 1%N) with (Some Sample.tee)
        in Hsold.
      destruct (products db' !! 1%N) as [p'|]; [|contradiction].
      destruct Hsold as (Hs & Ht & _).
      exists p'. split; [reflexivity|]. split; [exact Hs | exact Ht].
Defined.

(** X9. When a line of the cart refers to a product that is no longer stored,
    while the lines before it refer to stored products,
    [POST /api/checkout/complete] answers "Checkout Failed" and keeps the
    cart, but the pieces of the lines before the dangling one have already
    been added to their products' [soldCount]: the handler's writes are not
    undone. *)
Theorem checkout_complete_fails_half_way :
  forall (user : N) (paymentIntentId orderId : string) (db : Db) (cart : Cart)
         (l1 l2 : list CartItem) (item : CartItem),
    paymentIntentId <> "" -> orderId <> "" ->
    carts db !! user = Some cart -> items cart = l1 ++ item :: l2 ->
    Cart_validate cart = true ->
    products_valid db ->
    (forall it, In it l1 -> is_Some (products db !! ci_product it)) ->
    products db !! ci_product item = None ->
    exists db',
      checkout_complete user paymentIntentId orderId db
      = (CompletionFailed, db')
      /\ carts db' = carts db
      /\ orders db' = orders db
      /\ products_sold l1 (products db) (products db').
Proof.
  intros user pi oid db cart l1 l2 item Hpi Hoid Hc Hits Hcv Hval Hres Hnone.
  destruct (sell_lines (fun it => products db !! ci_product it) l1 db Hval)
    as (db1 & Hloop & Hc1 & Ho1 & _ & Hsold).
  { intros it Hin. split; [by apply Hres|]. split; [by apply Hres|].
    assert (Hin' : In it (items cart)).
    { rewrite Hits. apply in_or_app. by left. }
    pose proof (Cart_validate_In _ _ Hcv Hin'). lia. }
  exists db1. split; [|split; [|split]]; [|assumption..].
  unfold checkout_complete, try_catch, Cart_findOne, populate.
  rewrite !bool_decide_eq_false_2 by assumption. simpl.
  unfold bind at 1. simpl. rewrite Hc, Hits.
  replace (length (l1 ++ item :: l2) =? 0)%nat with false
    by (symmetry; apply Nat.eqb_neq; rewrite length_app; simpl; lia).
  unfold bind at 1. unfold bind at 1. unfold get_db, ret at 1.
  cbv beta iota. rewrite map_app. cbn [map]. rewrite Hnone.
  unfold bind at 1.
  rewrite (for_of_app _ _ _ _ _ Hloop). reflexivity.
Qed.

(** A run of [checkout_complete_fails_half_way]: carol's cart holds a tee
    and a line for product 9, which is not stored. *)
Lemma checkout_complete_fails_half_way_witness :
  let cart := Cart_preSave
                (mkCart [Sample.tee_line 200 2;
                         mkCartItem 201 9%N 1 (mkVariant "red" lg) 15] 0 0) in
  let db := mkDb {[ 1%N := Sample.tee ]} {[ Sample.carol := cart ]} ∅ in
  exists db',
    checkout_complete Sample.carol "pi_c" "ORD-C" db = (CompletionFailed, db')
    /\ carts db' !! Sample.carol = Some cart
    /\ exists p', products db' !! 1%N = Some p' /\ soldCount p' = 2.
Proof.
  intros cart db.
  destruct (checkout_complete_fails_half_way Sample.carol "pi_c" "ORD-C" db
              cart [Sample.tee_line 200 2] []
              (mkCartItem 201 9%N 1 (mkVariant "red" lg) 15))
    as (db' & Hrun & Hcarts & _ & Hsold).
  - discriminate.
  - discriminate.
  - reflexivity.
  - reflexivity.
  - reflexivity.
  - intros pid p. unfold db. cbn [products].
    intros [<- <-]%lookup_singleton_Some. reflexivity.
  - intros it [<- | []]. exists Sample.tee. reflexivity.
  - reflexivity.
  - exists db'. split; [exact Hrun|]. split.
    + rewrite Hcarts. reflexivity.
    + specialize (Hsold 1%N).
      change (products db !! 1%N) with (Some Sample.tee) in Hsold.
      destruct (products db' !! 1%N) as [p'|]; [|contradiction].
      destruct Hsold as (Hs & _).
      exists p'. split; [reflexivity | exact Hs].
Defined.

(** The loop of [POST /api/checkout/complete] adds and removes no product. *)
Lemma sell_line_dom line db pid :
  is_Some (products (snd (sell_line line db)) !! pid)
  <-> is_Some (products db !! pid).
Proof.
  destruct line as [item [p0|]]; simpl; [|reflexivity].
  unfold Product_findById, updateSoldCount. async_unfold.
  destruct (products db !! ci_product item) as [p|] eqn:Hp; simpl;
    [|reflexivity].
  destruct (Product_save_cases (ci_product item)
    (set_inStock (0 <? availableStock (set_soldCount (soldCount p + quantity item) p))
                 (set_soldCount (soldCount p + quantity item) p)) db)
    as [[_ Hs] | [_ Hs]]; rewrite Hs; simpl; [|reflexivity].
  destruct (decide (ci_product item = pid)) as [<- | Hne].
  - rewrite lookup_insert_eq, Hp. split; eauto.
  - by rewrite lookup_insert_ne.
Qed.

Lemma for_of_sell_line_dom lines db pid :
  is_Some (products (snd (for_of lines sell_line db)) !! pid)
  <-> is_Some (products db !! pid).
Proof.
  revert db. induction lines as [|line lines IH]; intros db; simpl;
    [reflexivity|].
  unfold bind. pose proof (sell_line_dom line db pid) as Hd.
  destruct (sell_line line db) as [[[]|e] db1]; simpl in *.
  - rewrite IH. exact Hd.
  - exact Hd.
Qed.

(** X10. Whatever the request, [POST /api/checkout/complete] stores no order
    document (the order data exist in the response only), leaves the carts
    of the other users as they are and neither adds nor removes a product.
    Without a payment intent id or an order id it answers "Validation
    Error"; with both, but no cart or a cart without lines, it answers
    "Empty Cart"; in both cases nothing is written. *)
Theorem checkout_complete_frame :
  forall (user : N) (paymentIntentId orderId : string) (db : Db),
    let result := checkout_complete user paymentIntentId orderId db in
    orders (snd result) = orders db
    /\ (forall other, other <> user ->
                      carts (snd result) !! other = carts db !! other)
    /\ (forall pid, is_Some (products (snd result) !! pid)
                    <-> is_Some (products db !! pid))
    /\ (paymentIntentId = "" \/ orderId = "" ->
        result = (CompleteValidationError, db))
    /\ (paymentIntentId <> "" -> orderId <> "" ->
        carts db !! user = None
        \/ (exists cart, carts db !! user = Some cart /\ items cart = []) ->
        result = (CompleteEmptyCart, db)).
Proof.
  intros user pi oid db result. subst result.
  split; [|split; [|split; [|split]]].
  - unfold checkout_complete, Cart_findOne, populate, clearCart.
    async_unfold.
    destruct (_ || _); simpl; [reflexivity|].
    destruct (carts db !! user) as [cart|]; simpl; [|reflexivity].
    destruct (length (items cart) =? 0)%nat; simpl; [reflexivity|].
    pose proof (for_of_sell_line_frame
                  (map (fun item => (item, products db !! ci_product item))
                       (items cart)) db) as [_ Ho].
    destruct (for_of _ sell_line db) as [[[]|e] db1]; simpl in *;
      [|exact Ho].
    pose proof (order_lines_pure
                  (map (fun item => (item, products db !! ci_product item))
                       (items cart)) db1) as Hpure.
    destruct (order_lines _ db1) as [[orderItems|e] db2]; simpl in *;
      subst db2; exact Ho.
  - intros other Hne.
    destruct (checkout_complete_writes user pi oid db) as [Hsame | Hw].
    + unfold after in Hsame. by rewrite Hsame.
    + destruct Hw as (its' & Hw). unfold after in Hw.
      rewrite Hw. apply lookup_insert_ne. congruence.
  - intros pid.
    unfold checkout_complete, Cart_findOne, populate, clearCart.
    async_unfold.
    destruct (_ || _); simpl; [reflexivity|].
    destruct (carts db !! user) as [cart|]; simpl; [|reflexivity].
    destruct (length (items cart) =? 0)%nat; simpl; [reflexivity|].
    pose proof (for_of_sell_line_dom
                  (map (fun item => (item, products db !! ci_product item))
                       (items cart)) db pid) as Hd.
    destruct (for_of _ sell_line db) as [[[]|e] db1]; simpl in *;
      [|exact Hd].
    pose proof (order_lines_pure
                  (map (fun item => (item, products db !! ci_product item))
                       (items cart)) db1) as Hpure.
    destruct (order_lines _ db1) as [[orderItems|e] db2]; simpl in *;
      subst db2; exact Hd.
  - intros Hempty. unfold checkout_complete. async_unfold.
    destruct Hempty as [-> | ->]; [reflexivity|].
    rewrite orb_true_r. reflexivity.
  - intros Hpi Hoid Hcart. unfold checkout_complete, Cart_findOne.
    async_unfold. rewrite !bool_decide_eq_false_2 by assumption. simpl.
    destruct Hcart as [-> | (cart & -> & ->)]; reflexivity.
Qed.

(** * What every request keeps *)

(** ** Computations that keep a property of the database *)

Section Preservation.

Variable I : Db -> Prop.

Lemma preserves_ret {A} (a : A) : preserves I (ret a).
Proof. intros db H. exact H. Qed.

Lemma preserves_throw {A} (e : Exception) : preserves I (@throw A e).
Proof. intros db H. exact H. Qed.

Lemma preserves_get_db : preserves I get_db.
Proof. intros db H. exact H. Qed.

Lemma preserves_bind {A B} (m : Async A) (k : A -> Async B) :
  preserves I m -> (forall a, preserves I (k a)) -> preserves I (bind m k).
Proof.
  intros Hm Hk db H. unfold bind. specialize (Hm db H).
  destruct (m db) as [[a|e] db1]; simpl in *; [by apply Hk | exact Hm].
Qed.

Lemma preserves_for_of {A} (xs : list A) (body : A -> Async unit) :
  (forall x, preserves I (body x)) -> preserves I (for_of xs body).
Proof.
  intros Hb. induction xs as [|x xs IH]; simpl.
  - apply preserves_ret.
  - apply preserves_bind; [apply Hb | intros _; exact IH].
Qed.

Lemma preserves_try_catch {R} (body : Async R) (onError : R) db :
  preserves I body -> I db -> I (after (try_catch body onError) db).
Proof.
  intros Hb H. unfold after, try_catch. specialize (Hb db H).
  destruct (body db) as [[r|e] db1]; exact Hb.
Qed.

Lemma preserves_validate_stock lines acc :
  preserves I (validate_stock lines acc).
Proof. intros db H. by rewrite validate_stock_pure. Qed.

Lemma preserves_order_lines lines : preserves I (order_lines lines).
Proof. intros db H. by rewrite order_lines_pure. Qed.

Lemma preserves_adjust_inventory operation item :
  preserves I (adjust_inventory operation item).
Proof. intros db H. by rewrite adjust_inventory_readonly. Qed.

Lemma preserves_status_inventory o s : preserves I (status_inventory o s).
Proof. intros db H. by rewrite status_inventory_readonly. Qed.

Ltac preserve_step :=
  first
    [ match goal with H : forall x y, preserves I _ |- _ => apply H end
    | apply preserves_ret | apply preserves_throw | apply preserves_get_db
    | apply preserves_validate_stock | apply preserves_order_lines
    | apply preserves_status_inventory
    | apply preserves_for_of; intros ?
    | apply preserves_adjust_inventory
    | apply preserves_bind; [|intros ?]
    | match goal with
      | |- preserves I (match ?x with _ => _ end) => destruct x
      | |- preserves I (let _ := _ in _) => cbv zeta
      end ].

Ltac preserve := repeat preserve_step.

(** *** Handlers that write through [Cart.save()] only *)

Section Carts.

Hypothesis Cart_save_keeps : forall user c, preserves I (Cart_save user c).

Lemma cart_add_keeps user pid qty col sz fresh db :
  I db -> I (after (cart_add user pid qty col sz fresh) db).
Proof.
  apply preserves_try_catch.
  unfold Product_findOne_active_sent, Product_findOne_active, Cart_findOne.
  preserve.
Qed.

Lemma cart_update_keeps user itemId qty db :
  I db -> I (after (cart_update user itemId qty) db).
Proof.
  apply preserves_try_catch.
  unfold Cart_findOne, Product_findById, updateItemQuantity. preserve.
Qed.

Lemma cart_remove_keeps user itemId db :
  I db -> I (after (cart_remove user itemId) db).
Proof.
  apply preserves_try_catch. unfold Cart_findOne, removeItem. preserve.
Qed.

Lemma cart_clear_keeps user db : I db -> I (after (cart_clear user) db).
Proof.
  apply preserves_try_catch. unfold Cart_findOne, clearCart. preserve.
Qed.

Lemma checkout_keeps user db : I db -> I (after (checkout user) db).
Proof. rewrite checkout_readonly. exact id. Qed.

(** *** The handler that also writes through [Product.save()] *)

Hypothesis Product_save_keeps : forall id p, preserves I (Product_save id p).

Lemma checkout_complete_keeps user paymentIntentId orderId db :
  I db -> I (after (checkout_complete user paymentIntentId orderId) db).
Proof.
  apply preserves_try_catch.
  unfold Cart_findOne, populate, clearCart. preserve.
  unfold sell_line, Product_findById, updateSoldCount. preserve.
Qed.

End Carts.

(** *** Handlers that write through [Order.save()] only *)

Section Orders.

Hypothesis Order_save_keeps : forall id o, preserves I (Order_save id o).

Lemma order_status_keeps requester id s note now db :
  I db -> I (after (order_status requester id s note now) db).
Proof.
  apply preserves_try_catch.
  unfold Order_findById, updateStatus, populate_chain. preserve.
Qed.

Lemma order_cancel_keeps requester id reason now db :
  I db -> I (after (order_cancel requester id reason now) db).
Proof.
  apply preserves_try_catch. unfold Order_findOwn, updateStatus. preserve.
Qed.

Lemma order_refund_keeps render id amount reason refundId now db :
  I db -> I (after (order_refund render id amount reason refundId now) db).
Proof.
  apply preserves_try_catch. unfold Order_findById, processRefund. preserve.
Qed.

End Orders.

(** A property that every [save()] keeps is kept by every request, and so
    by every sequence of requests. *)
Lemma reachable_keeps start db :
  (forall user c, preserves I (Cart_save user c)) ->
  (forall id p, preserves I (Product_save id p)) ->
  (forall id o, preserves I (Order_save id o)) ->
  I start -> reachable start db -> I db.
Proof.
  intros HC HP HO Hstart Hreach.
  induction Hreach as [|db step _ IH Hreq]; [exact Hstart|].
  destruct Hreq as [user step
                      [pid qty col sz fresh | itemId qty | itemId |
                      | paymentIntentId orderId]
                   | user | requester id s note now
                   | requester id reason now
                   | render id amount reason refundId now].
  - by apply cart_add_keeps.
  - by apply cart_update_keeps.
  - by apply cart_remove_keeps.
  - by apply cart_clear_keeps.
  - by apply checkout_complete_keeps.
  - by apply checkout_keeps.
  - by apply order_status_keeps.
  - by apply order_cancel_keeps.
  - by apply order_refund_keeps.
Qed.

End Preservation.

(** ** What [save()] keeps *)

Lemma Cart_save_run user c db :
  (Cart_validate c = true
   /\ snd (Cart_save user c db)
      = with_carts (<[user := Cart_preSave c]> (carts db)) db)
  \/ snd (Cart_save user c db) = db.
Proof.
  unfold Cart_save. destruct (Cart_validate c); [left | right]; done.
Qed.

Lemma Product_save_run id p db :
  (Product_validate p = true
   /\ snd (Product_save id p db)
      = with_products (<[id := Product_preSave p]> (products db)) db)
  \/ snd (Product_save id p db) = db.
Proof.
  destruct (Product_save_cases id p db) as [[Hv ->] | [_ ->]];
    [left | right]; done.
Qed.

Lemma Order_save_run id o db :
  (Order_validate o = true
   /\ snd (Order_save id o db) = with_orders (<[id := o]> (orders db)) db)
  \/ snd (Order_save id o db) = db.
Proof.
  destruct (Order_save_cases id o db) as [[Hv ->] | [_ ->]];
    [left | right]; done.
Qed.

Lemma Cart_save_documents_valid user c :
  preserves documents_valid (Cart_save user c).
Proof.
  intros db (Hc & Hp & Ho).
  destruct (Cart_save_run user c db) as [[Hv ->] | ->]; [|done].
  split; [|split]; [|exact Hp|exact Ho].
  intros u c'. simpl. destruct (decide (user = u)) as [->|Hne].
  - rewrite lookup_insert_eq. by intros [= <-].
  - rewrite lookup_insert_ne by done. apply Hc.
Qed.

Lemma Product_save_documents_valid id p :
  preserves documents_valid (Product_save id p).
Proof.
  intros db (Hc & Hp & Ho).
  destruct (Product_save_run id p db) as [[Hv ->] | ->]; [|done].
  split; [|split]; [exact Hc| |exact Ho].
  intros pid p'. simpl. destruct (decide (id = pid)) as [->|Hne].
  - rewrite lookup_insert_eq. by intros [= <-].
  - rewrite lookup_insert_ne by done. apply Hp.
Qed.

Lemma Order_save_documents_valid id o :
  preserves documents_valid (Order_save id o).
Proof.
  intros db (Hc & Hp & Ho).
  destruct (Order_save_run id o db) as [[Hv ->] | ->]; [|done].
  split; [|split]; [exact Hc|exact Hp|].
  intros i o'. simpl. destruct (decide (id = i)) as [->|Hne].
  - rewrite lookup_insert_eq. by intros [= <-].
  - rewrite lookup_insert_ne by done. apply Ho.
Qed.

(** X11. When every stored cart, product and order passes the numeric
    validators of its schema (cart lines of at least one piece; product
    price, [totalStock] and [soldCount] not negative; order amounts not
    negative and the tax rate at most 1), the same holds after any sequence
    of requests: a handler writes through [save()] only, and [save()]
    validates. *)
Theorem stored_documents_stay_valid :
  forall (start db : Db),
    documents_valid start -> reachable start db -> documents_valid db.
Proof.
  intros start db Hstart Hreach.
  apply (reachable_keeps documents_valid start db); try assumption.
  - apply Cart_save_documents_valid.
  - apply Product_save_documents_valid.
  - apply Order_save_documents_valid.
Qed.

Lemma documents_valid_shop : documents_valid Sample.shop.
Proof.
  split; [|split].
  - intros u c H. simpl in H. by rewrite lookup_empty in H.
  - intros pid p. simpl. by intros [<- <-]%lookup_singleton_Some.
  - intros i o H. simpl in H. by rewrite lookup_empty in H.
Qed.

Lemma reachable_both_paid : reachable Sample.shop Sample.both_paid.
Proof.
  apply (reachable_step Sample.shop Sample.alice_paid
           (after (checkout_complete Sample.bob "pi_b" "ORD-B")));
    [|apply (api_cart Sample.bob), request_complete].
  apply (reachable_step Sample.shop Sample.both_carted
           (after (checkout_complete Sample.alice "pi_a" "ORD-A")));
    [|apply (api_cart Sample.alice), request_complete].
  apply (reachable_step Sample.shop
           (after (cart_add Sample.alice Sample.tee_id (AsNumber 3) "black" md
                            100) Sample.shop)
           (after (cart_add Sample.bob Sample.tee_id (AsNumber 3) "black" md
                            101)));
    [|apply (api_cart Sample.bob), request_add].
  apply (reachable_step Sample.shop Sample.shop
           (after (cart_add Sample.alice Sample.tee_id (AsNumber 3) "black" md
                            100)));
    [|apply (api_cart Sample.alice), request_add].
  apply reachable_start.
Qed.

(** A run of [stored_documents_stay_valid]: the shop after alice and bob
    filled their carts and paid. *)
Lemma stored_documents_stay_valid_witness : documents_valid Sample.both_paid.
Proof.
  apply (stored_documents_stay_valid Sample.shop Sample.both_paid).
  - exact documents_valid_shop.
  - exact reachable_both_paid.
Defined.

Lemma Product_save_inStock_agrees id p :
  preserves inStock_agrees (Product_save id p).
Proof.
  intros db Hp.
  destruct (Product_save_run id p db) as [[Hv ->] | ->]; [|done].
  intros pid p'. simpl. destruct (decide (id = pid)) as [->|Hne].
  - rewrite lookup_insert_eq. by intros [= <-].
  - rewrite lookup_insert_ne by done. apply Hp.
Qed.

(** X12. When the [inStock] flag of every stored product says whether
    [totalStock - soldCount] is positive, it does so after any sequence of
    requests: the one handler that changes [soldCount] sets the flag anew.
    The test [!product.inStock || product.availableStock < quantity] of the
    cart and checkout routes then is, for a quantity of at least one piece,
    the test [product.availableStock < quantity] alone. *)
Theorem inStock_flag_follows_stock :
  forall (start db : Db),
    inStock_agrees start -> reachable start db ->
    inStock_agrees db
    /\ forall pid p item,
        products db !! pid = Some p -> 1 <= quantity item ->
        unavailable p item = (availableStock p <? quantity item).
Proof.
  intros start db Hstart Hreach.
  assert (Hdb : inStock_agrees db).
  { apply (reachable_keeps inStock_agrees start db); try assumption.
    - intros user c d H.
      destruct (Cart_save_run user c d) as [[_ ->] | ->]; exact H.
    - apply Product_save_inStock_agrees.
    - intros id o d H.
      destruct (Order_save_run id o d) as [[_ ->] | ->]; exact H. }
  split; [exact Hdb|].
  intros pid p item Hp Hq. unfold unavailable. rewrite (Hdb pid p Hp).
  destruct (Z.ltb_spec 0 (availableStock p)) as [Hpos | Hnone]; simpl.
  - reflexivity.
  - symmetry. apply Z.ltb_lt. lia.
Qed.

(** A run of [inStock_flag_follows_stock]: after alice and bob bought six
    tees of three, the tee is flagged out of stock. *)
Lemma inStock_flag_follows_stock_witness :
  inStock_agrees Sample.both_paid
  /\ forall pid p item,
      products Sample.both_paid !! pid = Some p -> 1 <= quantity item ->
      unavailable p item = (availableStock p <? quantity item).
Proof.
  apply (inStock_flag_follows_stock Sample.shop Sample.both_paid).
  - intros pid p. simpl. by intros [<- <-]%lookup_singleton_Some.
  - exact reachable_both_paid.
Defined.

(** ** Which handler writes which collection *)

Lemma Cart_save_products user c db :
  products (snd (Cart_save user c db)) = products db
  /\ orders (snd (Cart_save user c db)) = orders db.
Proof. destruct (Cart_save_run user c db) as [[_ ->] | ->]; done. Qed.

Lemma Order_save_products id o db :
  products (snd (Order_save id o db)) = products db.
Proof. destruct (Order_save_run id o db) as [[_ ->] | ->]; done. Qed.

(** X13. The four cart handlers leave the products and the orders as they
    are: putting pieces into a cart reserves nothing. [POST /api/checkout]
    writes nothing at all. The status, cancel and refund handlers of the
    order routes leave the products as they are: no stock comes back when
    an order is cancelled or refunded. *)
Theorem collections_written_by :
  forall (db : Db),
    (forall user pid qty col sz fresh,
        let db' := after (cart_add user pid qty col sz fresh) db in
        products db' = products db /\ orders db' = orders db)
    /\ (forall user itemId qty,
           let db' := after (cart_update user itemId qty) db in
           products db' = products db /\ orders db' = orders db)
    /\ (forall user itemId,
           let db' := after (cart_remove user itemId) db in
           products db' = products db /\ orders db' = orders db)
    /\ (forall user,
           let db' := after (cart_clear user) db in
           products db' = products db /\ orders db' = orders db)
    /\ (forall user, after (checkout user) db = db)
    /\ (forall requester id s note now,
           products (after (order_status requester id s note now) db)
           = products db)
    /\ (forall requester id reason now,
           products (after (order_cancel requester id reason now) db)
           = products db)
    /\ (forall render id amount reason refundId now,
           products (after (order_refund render id amount reason refundId now)
                           db)
           = products db).
Proof.
  intros db.
  set (I := fun d : Db => products d = products db /\ orders d = orders db).
  set (J := fun d : Db => products d = products db).
  assert (HI : forall user c, preserves I (Cart_save user c)).
  { intros user c d [Hp Ho]. unfold I.
    destruct (Cart_save_products user c d) as [-> ->]. by split. }
  assert (HJ : forall id o, preserves J (Order_save id o)).
  { intros id o d Hp. unfold J. by rewrite Order_save_products. }
  assert (I0 : I db) by (by split).
  assert (J0 : J db) by reflexivity.
  split; [|split; [|split; [|split; [|split; [|split; [|split]]]]]].
  - intros user pid qty col sz fresh. by apply (cart_add_keeps I HI).
  - intros user itemId qty. by apply (cart_update_keeps I HI).
  - intros user itemId. by apply (cart_remove_keeps I HI).
  - intros user. by apply (cart_clear_keeps I HI).
  - intros user. apply checkout_readonly.
  - intros requester id s note now. by apply (order_status_keeps J HJ).
  - intros requester id reason now. by apply (order_cancel_keeps J HJ).
  - intros render id amount reason refundId now.
    by apply (order_refund_keeps J HJ).
Qed.

(** ** The product collection over a sequence of requests *)

Lemma products_grow_refl ps : products_grow ps ps.
Proof.
  intros pid. destruct (ps !! pid); [|exact I].
  exists 0. split; [lia | apply sold_more_refl].
Qed.

Lemma products_grow_trans ps1 ps2 ps3 :
  products_grow ps1 ps2 -> products_grow ps2 ps3 -> products_grow ps1 ps3.
Proof.
  intros H1 H2 pid. specialize (H1 pid). specialize (H2 pid).
  destruct (ps1 !! pid), (ps2 !! pid), (ps3 !! pid); try contradiction;
    [|exact I].
  destruct H1 as (n & Hn & H1), H2 as (m & Hm & H2).
  exists (n + m). split; [lia | eapply sold_more_trans; eassumption].
Qed.

Lemma sell_line_grows item snap db :
  0 <= quantity item ->
  products_grow (products db) (products (snd (sell_line (item, snap) db))).
Proof.
  intros Hq. destruct snap as [p0|]; simpl; [|apply products_grow_refl].
  unfold Product_findById, updateSoldCount. async_unfold.
  destruct (products db !! ci_product item) as [p|] eqn:Hp; simpl;
    [|apply products_grow_refl].
  destruct (Product_save_cases (ci_product item)
    (set_inStock (0 <? availableStock (set_soldCount (soldCount p + quantity item) p))
                 (set_soldCount (soldCount p + quantity item) p)) db)
    as [[_ Hs] | [_ Hs]]; rewrite Hs; simpl; [|apply products_grow_refl].
  intros pid. destruct (decide (ci_product item = pid)) as [<- | Hne].
  - rewrite Hp, lookup_insert_eq. exists (quantity item).
    split; [exact Hq|]. unfold sold_more. simpl. repeat split.
  - rewrite lookup_insert_ne by assumption.
    destruct (products db !! pid); [|exact I].
    exists 0. split; [lia | apply sold_more_refl].
Qed.

Lemma for_of_sell_line_grows lines db :
  (forall line, In line lines -> 0 <= quantity (fst line)) ->
  products_grow (products db) (products (snd (for_of lines sell_line db))).
Proof.
  revert db. induction lines as [|[item snap] lines IH]; intros db Hq.
  - apply products_grow_refl.
  - cbn [for_of]. unfold bind.
    pose proof (sell_line_grows item snap db
                  (Hq (item, snap) (or_introl eq_refl))) as Hone.
    destruct (sell_line (item, snap) db) as [[[]|e] db1]; simpl in *;
      [|exact Hone].
    eapply products_grow_trans; [exact Hone|].
    apply IH. intros line Hin. apply Hq. by right.
Qed.

Lemma checkout_complete_grows user paymentIntentId orderId db :
  carts_satisfy (fun c => Cart_validate c = true) db ->
  products_grow (products db)
    (products (after (checkout_complete user paymentIntentId orderId) db)).
Proof.
  intros Hvalid.
  unfold after, checkout_complete, Cart_findOne, populate, clearCart.
  async_unfold.
  destruct (_ || _); simpl; [apply products_grow_refl|].
  destruct (carts db !! user) as [cart|] eqn:Hc; simpl;
    [|apply products_grow_refl].
  destruct (length (items cart) =? 0)%nat; simpl; [apply products_grow_refl|].
  pose proof (for_of_sell_line_grows
                (map (fun item => (item, products db !! ci_product item))
                     (items cart)) db) as Hg.
  assert (Hq : forall line,
             In line (map (fun item => (item, products db !! ci_product item))
                          (items cart)) ->
             0 <= quantity (fst line)).
  { intros line (item & <- & Hin)%in_map_iff. simpl.
    pose proof (Cart_validate_In _ _ (Hvalid user cart Hc) Hin). lia. }
  specialize (Hg Hq).
  destruct (for_of _ sell_line db) as [[[]|e] db1]; simpl in *;
    [|exact Hg].
  pose proof (order_lines_pure
                (map (fun item => (item, products db !! ci_product item))
                     (items cart)) db1) as Hpure.
  destruct (order_lines _ db1) as [[orderItems|e] db2]; simpl in *;
    subst db2; exact Hg.
Qed.

(** X14. Over any sequence of requests that starts with carts whose lines hold
    at least one piece each, no product is added or removed, no product's
    [soldCount] goes down, and every product keeps its name, price, colour,
    size, [totalStock] and [isActive] flag: stock that was sold is never
    given back, and nothing restocks. *)
Theorem sold_stock_never_returns :
  forall (start db : Db),
    carts_satisfy (fun c => Cart_validate c = true) start ->
    reachable start db ->
    products_grow (products start) (products db).
Proof.
  intros start db Hstart Hreach.
  induction Hreach as [|db step Hreach IH Hreq]; [apply products_grow_refl|].
  assert (Hvalid : carts_satisfy (fun c => Cart_validate c = true) db).
  { apply (reachable_keeps
             (carts_satisfy (fun c => Cart_validate c = true)) start db);
      try assumption.
    - intros user c d H.
      destruct (Cart_save_run user c d) as [[Hv ->] | ->]; [|exact H].
      intros u c'. simpl. destruct (decide (user = u)) as [->|Hne].
      + rewrite lookup_insert_eq. by intros [= <-].
      + rewrite lookup_insert_ne by done. apply H.
    - intros id p d H.
      destruct (Product_save_run id p d) as [[_ ->] | ->]; exact H.
    - intros id o d H.
      destruct (Order_save_run id o d) as [[_ ->] | ->]; exact H. }
  set (I := fun d : Db => products_grow (products start) (products d)).
  assert (HC : forall user c, preserves I (Cart_save user c)).
  { intros user c d H. unfold I.
    by destruct (Cart_save_products user c d) as [-> _]. }
  assert (HO : forall id o, preserves I (Order_save id o)).
  { intros id o d H. unfold I. by rewrite Order_save_products. }
  destruct Hreq as [user step
                      [pid qty col sz fresh | itemId qty | itemId |
                      | paymentIntentId orderId]
                   | user | requester id s note now
                   | requester id reason now
                   | render id amount reason refundId now].
  - by apply (cart_add_keeps I HC).
  - by apply (cart_update_keeps I HC).
  - by apply (cart_remove_keeps I HC).
  - by apply (cart_clear_keeps I HC).
  - eapply products_grow_trans; [exact IH|].
    by apply checkout_complete_grows.
  - by apply (checkout_keeps I).
  - by apply (order_status_keeps I HO).
  - by apply (order_cancel_keeps I HO).
  - by apply (order_refund_keeps I HO).
Qed.

(** A run of [sold_stock_never_returns]: from the shop to the state after
    alice and bob have paid. *)
Lemma sold_stock_never_returns_witness :
  products_grow (products Sample.shop) (products Sample.both_paid).
Proof.
  apply (sold_stock_never_returns Sample.shop Sample.both_paid).
  - intros u c H. simpl in H. by rewrite lookup_empty in H.
  - exact reachable_both_paid.
Defined.

(** ** The order collection over a sequence of requests *)

Lemma order_extends_refl o : order_extends o o.
Proof.
  unfold order_extends. repeat split. exists []. by rewrite app_nil_r.
Qed.

Lemma order_extends_trans o1 o2 o3 :
  order_extends o1 o2 -> order_extends o2 o3 -> order_extends o1 o3.
Proof.
  unfold order_extends.
  intros (A1 & A2 & A3 & A4 & A5 & A6 & A7 & A8 & A9 & A10 & m1 & A11)
         (B1 & B2 & B3 & B4 & B5 & B6 & B7 & B8 & B9 & B10 & m2 & B11).
  repeat (split; [congruence|]).
  exists (m1 ++ m2). by rewrite B11, A11, app_assoc.
Qed.

Lemma orders_extend_refl os : orders_extend os os.
Proof. intros id. destruct (os !! id); [apply order_extends_refl | exact I]. Qed.

Lemma orders_extend_trans os1 os2 os3 :
  orders_extend os1 os2 -> orders_extend os2 os3 -> orders_extend os1 os3.
Proof.
  intros H1 H2 id. specialize (H1 id). specialize (H2 id).
  destruct (os1 !! id), (os2 !! id), (os3 !! id); try contradiction;
    [eapply order_extends_trans; eassumption | exact I].
Qed.

Lemma orders_extend_insert os id o o' :
  os !! id = Some o -> order_extends o o' ->
  orders_extend os (<[id := o']> os).
Proof.
  intros Ho He i. destruct (decide (id = i)) as [<- | Hne].
  - by rewrite Ho, lookup_insert_eq.
  - rewrite lookup_insert_ne by assumption.
    destruct (os !! i); [apply order_extends_refl | exact I].
Qed.

Lemma Order_save_extends id o o' db :
  orders db !! id = Some o -> order_extends o o' ->
  orders_extend (orders db) (orders (snd (Order_save id o' db))).
Proof.
  intros Ho He.
  destruct (Order_save_run id o' db) as [[_ ->] | ->]; simpl.
  - by apply (orders_extend_insert _ _ o).
  - apply orders_extend_refl.
Qed.

Lemma updateStatus_extends id o s note updatedBy now db :
  orders db !! id = Some o ->
  orders_extend (orders db)
    (orders (snd (updateStatus id o s note updatedBy now db))).
Proof.
  intros Ho. unfold updateStatus. cbv zeta.
  apply (Order_save_extends id o); [exact Ho|].
  unfold order_extends.
  destruct s; simpl; repeat (split; [reflexivity|]); eexists; reflexivity.
Qed.

Lemma processRefund_extends render id o amount reason refundId now db :
  orders db !! id = Some o ->
  orders_extend (orders db)
    (orders (snd (processRefund render id o amount reason refundId now db))).
Proof.
  intros Ho. unfold processRefund. cbv zeta.
  apply (Order_save_extends id o); [exact Ho|].
  unfold order_extends. simpl.
  repeat (split; [reflexivity|]); eexists; reflexivity.
Qed.

Lemma order_status_extends requester id s note now db :
  orders_extend (orders db)
    (orders (after (order_status requester id s note now) db)).
Proof.
  unfold after, order_status, Order_findById. async_unfold.
  destruct (orders db !! id) as [o|] eqn:Ho; simpl;
    [|apply orders_extend_refl].
  destruct (negb _); simpl; [apply orders_extend_refl|].
  pose proof (status_inventory_readonly o s db) as Hro.
  destruct (status_inventory o s db) as [[[]|e] db1]; simpl in *; subst db1;
    [|apply orders_extend_refl].
  pose proof (updateStatus_extends id o s note (Some (req_id requester))
                now db Ho) as He.
  destruct (updateStatus _ _ _ _ _ _ db) as [[saved|e] db1]; exact He.
Qed.

Lemma order_cancel_extends requester id reason now db :
  orders_extend (orders db)
    (orders (after (order_cancel requester id reason now) db)).
Proof.
  unfold after, order_cancel, Order_findOwn. async_unfold.
  destruct (orders db !! id) as [o|] eqn:Ho; simpl;
    [|apply orders_extend_refl].
  destruct (_ || _); simpl; [|apply orders_extend_refl].
  destruct (negb _); simpl; [apply orders_extend_refl|].
  match goal with |- context [updateStatus id o cancelled ?n ?u now db] =>
    pose proof (updateStatus_extends id o cancelled n u now db Ho) as He;
    destruct (updateStatus id o cancelled n u now db) as [[saved|e] db1] end;
    simpl in *; [|exact He].
  pose proof (for_of_adjust_inventory_readonly "add" (o_items saved) db1)
    as Hro.
  destruct (for_of _ _ db1) as [[[]|e] db2]; simpl in *; by subst db2.
Qed.

Lemma order_refund_extends render id amount reason refundId now db :
  orders_extend (orders db)
    (orders (after (order_refund render id amount reason refundId now) db)).
Proof.
  unfold after, order_refund, Order_findById. async_unfold.
  destruct (orders db !! id) as [o|] eqn:Ho; simpl;
    [|apply orders_extend_refl].
  destruct (JS.gt amount (total o)); simpl; [apply orders_extend_refl|].
  pose proof (processRefund_extends render id o amount reason refundId now
                db Ho) as He.
  destruct (processRefund _ _ _ _ _ _ _ db) as [[saved|e] db1]; exact He.
Qed.

(** X15. Over any sequence of requests no order document is created or deleted,
    and every order keeps its number, owner, lines, subtotal, tax, tax
    rate, shipping cost, discount, total and payment record; its status
    history is only ever appended to. The handlers change an order's
    status, its history, its four timestamps and its refund record, and
    nothing else. *)
Theorem orders_keep_amounts_and_history :
  forall (start db : Db),
    reachable start db -> orders_extend (orders start) (orders db).
Proof.
  intros start db Hreach.
  induction Hreach as [|db step Hreach IH Hreq]; [apply orders_extend_refl|].
  set (I := fun d : Db => orders_extend (orders start) (orders d)).
  assert (HC : forall user c, preserves I (Cart_save user c)).
  { intros user c d H. unfold I.
    by destruct (Cart_save_products user c d) as [_ ->]. }
  assert (HP : forall id p, preserves I (Product_save id p)).
  { intros id p d H. unfold I.
    by destruct (Product_save_frame id p d) as [_ ->]. }
  destruct Hreq as [user step
                      [pid qty col sz fresh | itemId qty | itemId |
                      | paymentIntentId orderId]
                   | user | requester id s note now
                   | requester id reason now
                   | render id amount reason refundId now].
  - by apply (cart_add_keeps I HC).
  - by apply (cart_update_keeps I HC).
  - by apply (cart_remove_keeps I HC).
  - by apply (cart_clear_keeps I HC).
  - by apply (checkout_complete_keeps I HC HP).
  - by apply (checkout_keeps I).
  - eapply orders_extend_trans; [exact IH | apply order_status_extends].
  - eapply orders_extend_trans; [exact IH | apply order_cancel_extends].
  - eapply orders_extend_trans; [exact IH | apply order_refund_extends].
Qed.

(** A run of [orders_keep_amounts_and_history]: an administrator confirms
    a pending order. *)
Lemma orders_keep_amounts_and_history_witness :
  orders_extend
    (orders (Sample.shop_with_order pending))
    (orders (after (order_status Sample.admin 7 confirmed "" 2000)
                   (Sample.shop_with_order pending))).
Proof.
  apply (orders_keep_amounts_and_history (Sample.shop_with_order pending)).
  apply (reachable_step (Sample.shop_with_order pending)
           (Sample.shop_with_order pending)
           (after (order_status Sample.admin 7 confirmed "" 2000))).
  - apply reachable_start.
  - apply api_order_status.
Defined.

(** ** Sequences of status updates *)

Lemma validTransitions_rank s t :
  In t (validTransitions s) -> (status_rank s < status_rank t)%nat.
Proof. destruct s; simpl; intuition (subst; simpl; lia). Qed.

Lemma status_rank_bound s : (status_rank s <= 6)%nat.
Proof. destruct s; simpl; lia. Qed.

(** What the status route can have written: nothing, or the order [id]
    in the requested status, which the table allows after the stored
    one. *)
Lemma order_status_written requester id s note now db :
  orders (after (order_status requester id s note now) db) = orders db
  \/ exists o o',
      orders db !! id = Some o /\ In s (validTransitions (status o))
      /\ status o' = s /\ o_items o' = o_items o
      /\ orders (after (order_status requester id s note now) db)
         = <[id := o']> (orders db).
Proof.
  unfold after, order_status, Order_findById. async_unfold.
  destruct (orders db !! id) as [o|] eqn:Ho; simpl; [|by left].
  destruct (JS.includes (validTransitions (status o)) s) eqn:Hin; simpl;
    [|by left].
  apply includes_elem_of in Hin.
  pose proof (status_inventory_readonly o s db) as Hro.
  destruct (status_inventory o s db) as [[[]|e] db1]; simpl in *; subst db1;
    [|by left].
  unfold updateStatus. cbv zeta.
  match goal with |- context [Order_save id ?o3 db] =>
    destruct (Order_save_cases id o3 db) as [[_ ->] | [_ ->]];
      [right; exists o, o3 | by left] end.
  simpl. split; [reflexivity|]. split; [exact Hin|].
  destruct s; repeat split; reflexivity.
Qed.

(** The status route answers with the 500 of the [catch] whenever it wrote. *)
Lemma order_status_answers requester id s note now db resp db' :
  order_status requester id s note now db = (resp, db') ->
  resp = OrderFailed \/ db' = db.
Proof.
  unfold order_status, Order_findById, populate_chain. async_unfold.
  destruct (orders db !! id) as [o|]; [|intros [= <- <-]; by right].
  destruct (JS.includes (validTransitions (status o)) s); simpl;
    [|intros [= <- <-]; by right].
  destruct (status_inventory o s db) as [[[]|e] db1];
    [|intros [= <- <-]; by left].
  destruct (updateStatus _ _ _ _ _ _ _) as [[saved|e] db2];
    intros [= <- <-]; by left.
Qed.

Lemma status_updates_rank requester id reqs :
  forall db db' o,
    orders db !! id = Some o ->
    status_updates requester id reqs db = Some db' ->
    (status_rank (status o) + length reqs <= 6)%nat
    /\ NoDup (map (fun r => r.1.1) reqs)
    /\ (forall s, In s (map (fun r => r.1.1) reqs) ->
                  (status_rank (status o) < status_rank s)%nat)
    /\ stored_status id db' = Some (List.last (map (fun r => r.1.1) reqs) (status o)).
Proof.
  induction reqs as [|[[s note] now] reqs IH]; intros db db' o Ho Hrun.
  - simpl in *. injection Hrun as <-.
    pose proof (status_rank_bound (status o)).
    split; [lia|]. split; [apply NoDup_nil_2|]. split; [intros s []|].
    unfold stored_status. by rewrite Ho.
  - cbn [status_updates] in Hrun. cbv zeta in Hrun.
    destruct (bool_decide _) eqn:Hsame; [discriminate|].
    apply bool_decide_eq_false in Hsame.
    destruct (order_status_written requester id s note now db)
      as [Heq | (o0 & o1 & Ho0 & Hin & Hs1 & _ & Hw)].
    { destruct Hsame. unfold stored_status. by rewrite Heq. }
    rewrite Ho in Ho0. injection Ho0 as <-.
    assert (Ho1 : orders (after (order_status requester id s note now) db)
                  !! id = Some o1) by (rewrite Hw; apply lookup_insert_eq).
    destruct (IH _ db' o1 Ho1 Hrun) as (Hlen & Hnd & Hlater & Hlast).
    apply validTransitions_rank in Hin. rewrite Hs1 in *.
    split; [simpl; lia|]. split; [|split].
    + simpl. apply NoDup_cons. split; [|exact Hnd].
      intros Hmem%list_elem_of_In. apply Hlater in Hmem. lia.
    + intros t [<- | Ht]; [exact Hin|].
      apply Hlater in Ht. lia.
    + rewrite Hlast. f_equal. simpl.
      destruct (map (fun r => r.1.1) reqs) as [|t ts]; [reflexivity|].
      clear. revert t. induction ts as [|t' ts IHts]; intros t;
        [reflexivity|]. apply IHts.
Qed.

(** X16. When every request of a sequence sent to
    [PUT /api/orders/:id/status] for one order changes the status that is
    stored for the order, no status is asked for twice, none is the status
    the order started in, the sequence has at most six requests, and the
    order is left in the status of the last request: the table of valid
    transitions has no way back. (Each of these requests is answered with
    the 500 of the [catch], as the population of the saved order
    throws.) *)
Theorem status_route_never_returns :
  forall (requester : Requester) (id : N)
         (reqs : list (Status * string * Z)) (db db' : Db) (o : Order),
    orders db !! id = Some o ->
    status_updates requester id reqs db = Some db' ->
    NoDup (status o :: map (fun r => r.1.1) reqs)
    /\ (length reqs <= 6)%nat
    /\ stored_status id db'
       = Some (List.last (map (fun r => r.1.1) reqs) (status o))
    /\ (forall s note now d,
           stored_status id (after (order_status requester id s note now) d)
           <> stored_status id d ->
           fst (order_status requester id s note now d) = OrderFailed).
Proof.
  intros requester id reqs db db' o Ho Hrun.
  destruct (status_updates_rank requester id reqs db db' o Ho Hrun)
    as (Hlen & Hnd & Hlater & Hlast).
  split; [|split; [lia|split; [exact Hlast|]]].
  - apply NoDup_cons. split; [|exact Hnd].
    intros Hmem%list_elem_of_In. apply Hlater in Hmem. lia.
  - intros s note now d Hne. unfold after in Hne.
    destruct (order_status requester id s note now d) as [resp d1] eqn:Hreq.
    apply order_status_answers in Hreq as [-> | ->]; [reflexivity|].
    by destruct Hne.
Qed.

(** A run of [status_route_never_returns]: a pending order is confirmed and
    then set to processing. *)
Lemma status_route_never_returns_witness :
  NoDup [pending; confirmed; processing]
  /\ (2 <= 6)%nat
  /\ stored_status 7
       (after (order_status Sample.admin 7 processing "" 2500)
              (after (order_status Sample.admin 7 confirmed "" 2000)
                     (Sample.shop_with_order pending)))
     = Some processing
  /\ fst (order_status Sample.admin 7 confirmed "" 2000
                       (Sample.shop_with_order pending)) = OrderFailed.
Proof.
  destruct (status_route_never_returns Sample.admin 7
              [(confirmed, "", 2000); (processing, "", 2500)]
              (Sample.shop_with_order pending)
              (after (order_status Sample.admin 7 processing "" 2500)
                     (after (order_status Sample.admin 7 confirmed "" 2000)
                            (Sample.shop_with_order pending)))
              (Sample.order_in pending) eq_refl eq_refl)
    as (Hnd & Hlen & Hlast & Hanswer).
  split; [exact Hnd|]. split; [exact Hlen|]. split; [exact Hlast|].
  apply Hanswer. discriminate.
Defined.

(** ** After a refund *)

Section AfterRefund.

Variable Number_toString : Q -> string.

Lemma order_refund_run id amount reason refundId now db o :
  orders db !! id = Some o -> Order_validate o = true ->
  (0 <= amount)%Q -> (amount <= total o)%Q ->
  order_refund Number_toString id amount reason refundId now db
  = (OrderOk (refunded_order Number_toString o amount reason refundId now),
     with_orders
       (<[id := refunded_order Number_toString o amount reason refundId now]>
          (orders db)) db).
Proof.
  intros Ho Hv H0 Hle.
  unfold order_refund, Order_findById. async_unfold. rewrite Ho.
  assert (Hgt : JS.gt amount (total o) = false).
  { destruct (JS.gt amount (total o)) eqn:E; [|reflexivity].
    apply gt_true_iff in E. exfalso. exact (Qlt_not_le _ _ E Hle). }
  rewrite Hgt. unfold processRefund. cbv zeta.
  fold (refunded_order Number_toString o amount reason refundId now).
  pose proof (refunded_order_valid Number_toString o amount reason refundId
                now Hv H0) as Hv'.
  destruct (Order_save_cases id
              (refunded_order Number_toString o amount reason refundId now) db)
    as [[_ ->] | [Hno _]]; [reflexivity | congruence].
Qed.

(** X17. Once an order is refunded, [PUT /api/orders/:id/status] rejects every
    status as an invalid transition and [POST /api/orders/:id/cancel]
    refuses to cancel, both without writing. [POST /api/orders/:id/refund],
    in contrast, accepts a further refund of any amount up to the order
    total: it looks at the total only, not at what was refunded before, so
    the second refund record replaces the first, and the status history
    holds an entry for each. *)
Theorem refund_is_final_but_repeatable :
  forall (id : N) (amount : Q) (reason : string) (refundId : option string)
         (now : Z) (db : Db) (o : Order),
    orders db !! id = Some o ->
    Order_validate o = true ->
    (0 <= amount)%Q -> (amount <= total o)%Q ->
    let db1 :=
      after (order_refund Number_toString id amount reason refundId now) db in
    (forall requester s note now',
        order_status requester id s note now' db1
        = (InvalidStatusTransition, db1))
    /\ (forall requester reason' now',
           visible_to requester o ->
           order_cancel requester id reason' now' db1
           = (CannotCancelOrder, db1))
    /\ (forall amount2 reason2 refundId2 now2,
           (0 <= amount2)%Q -> (amount2 <= total o)%Q ->
           exists o2,
             order_refund Number_toString id amount2 reason2 refundId2 now2 db1
             = (OrderOk o2, with_orders (<[id := o2]> (orders db1)) db1)
             /\ refund o2 = Some (mkRefund amount2 reason2 now2 refundId2)
             /\ status o2 = refunded
             /\ statusHistory o2
                = statusHistory o
                  ++ [mkHistoryEntry refunded now
                        (refund_note Number_toString amount reason) None;
                      mkHistoryEntry refunded now2
                        (refund_note Number_toString amount2 reason2) None]).
Proof.
  intros id amount reason refundId now db o Ho Hv H0 Hle db1.
  set (o1 := refunded_order Number_toString o amount reason refundId now).
  assert (Hdb1 : db1 = with_orders (<[id := o1]> (orders db)) db).
  { unfold db1, after.
    by rewrite (order_refund_run id amount reason refundId now db o). }
  assert (Ho1 : orders db1 !! id = Some o1).
  { rewrite Hdb1. apply lookup_insert_eq. }
  assert (Hv1 : Order_validate o1 = true)
    by (by apply refunded_order_valid).
  clearbody db1. split; [|split].
  - intros requester s note now'.
    apply (order_status_rejects_iff requester id s note now' db1 o1 Ho1).
    simpl. tauto.
  - intros requester reason' now' Hvis.
    unfold order_cancel. async_unfold.
    rewrite (Order_findOwn_visible requester id db1 o1 Ho1 Hvis).
    reflexivity.
  - intros amount2 reason2 refundId2 now2 H02 Hle2.
    exists (refunded_order Number_toString o1 amount2 reason2 refundId2 now2).
    split; [|split; [reflexivity|split; [reflexivity|]]].
    + by apply order_refund_run.
    + simpl. by rewrite <- app_assoc.
Qed.

End AfterRefund.

(** A run of [refund_is_final_but_repeatable]: the full total of 54 of a
    delivered order is refunded twice. *)
Lemma refund_is_final_but_repeatable_witness :
  let db1 := after (order_refund Sample.show 7 54 "damaged" None 3000)
                   (Sample.shop_with_order delivered) in
  order_status Sample.admin 7 returned "" 3500 db1
  = (InvalidStatusTransition, db1)
  /\ exists o2,
      order_refund Sample.show 7 54 "again" None 4000 db1
      = (OrderOk o2, with_orders (<[7%N := o2]> (orders db1)) db1)
      /\ refund o2 = Some (mkRefund 54 "again" 4000 None).
Proof.
  intros db1.
  destruct (refund_is_final_but_repeatable Sample.show 7 54 "damaged" None
              3000 (Sample.shop_with_order delivered)
              (Sample.order_in delivered))
    as (Hstatus & _ & Hagain).
  - reflexivity.
  - reflexivity.
  - discriminate.
  - discriminate.
  - split; [apply Hstatus|].
    destruct (Hagain 54%Q "again" None 4000) as (o2 & Hr & Hrec & _).
    + discriminate.
    + discriminate.
    + exists o2. split; [exact Hr | exact Hrec].
Defined.

(** * The other order routes *)

(** ** Who may read and cancel an order *)

Lemma Order_findOwn_hidden requester id db :
  (forall o, orders db !! id = Some o -> ~ visible_to requester o) ->
  Order_findOwn requester id db = (Fulfilled None, db).
Proof.
  intros Hhid. unfold Order_findOwn. async_unfold.
  destruct (orders db !! id) as [o|] eqn:Ho; [|reflexivity].
  destruct (bool_decide (req_role requester = "admin")
            || bool_decide (o_user o = req_id requester)) eqn:E;
    [|reflexivity].
  exfalso. apply (Hhid o eq_refl).
  apply orb_true_iff in E as [E | E]; apply bool_decide_eq_true in E;
    [by left | by right].
Qed.

(** X18. An order is shown, invoiced and cancelled for its owner and for an
    administrator only. To anyone else [GET /api/orders/:id],
    [GET /api/orders/:id/invoice] and [POST /api/orders/:id/cancel] give
    the "Order Not Found" answer of an id that no order has, and write
    nothing; to the owner and to an administrator [GET /api/orders/:id]
    gives the stored order. *)
Theorem orders_of_others_are_hidden :
  forall (requester : Requester) (id : N) (db : Db),
    (forall o, orders db !! id = Some o -> visible_to requester o ->
               order_get requester id db = (ViewOrder o, db))
    /\ ((forall o, orders db !! id = Some o -> ~ visible_to requester o) ->
        order_get requester id db = (ViewNotFound, db)
        /\ order_invoice requester id db = (ViewNotFound, db)
        /\ forall reason now,
            order_cancel requester id reason now db = (OrderNotFound, db)).
Proof.
  intros requester id db. split.
  - intros o Ho Hvis. unfold order_get. async_unfold.
    by rewrite (Order_findOwn_visible requester id db o Ho Hvis).
  - intros Hhid.
    pose proof (Order_findOwn_hidden requester id db Hhid) as Hnone.
    split; [|split].
    + unfold order_get. async_unfold. by rewrite Hnone.
    + unfold order_invoice. async_unfold. by rewrite Hnone.
    + intros reason now. unfold order_cancel. async_unfold. by rewrite Hnone.
Qed.

(** ** [GET /api/orders/:id/invoice] *)

(** X19. For a requester who may see the order, the invoice carries the order's
    number, lines, subtotal, tax, shipping cost and total as stored, and the
    method of its payment record; nothing is recomputed. An order without
    payment record has no invoice: the handler answers with the 500
    "Server Error". *)
Theorem order_invoice_of_stored_amounts :
  forall (requester : Requester) (id : N) (db : Db) (o : Order),
    orders db !! id = Some o -> visible_to requester o ->
    (forall pay,
        paymentInfo o = Some pay ->
        order_invoice requester id db
        = (ViewInvoice
             (mkInvoice (orderNumber o) (o_items o) (subtotal o) (tax o)
                        (shippingCost o) (total o) (pi_method pay)), db))
    /\ (paymentInfo o = None ->
        order_invoice requester id db = (ViewServerError, db)).
Proof.
  intros requester id db o Ho Hvis.
  pose proof (Order_findOwn_visible requester id db o Ho Hvis) as Hfound.
  split.
  - intros pay Hpay. unfold order_invoice. async_unfold.
    by rewrite Hfound, Hpay.
  - intros Hpay. unfold order_invoice. async_unfold.
    by rewrite Hfound, Hpay.
Qed.

(** A run of [order_invoice_of_stored_amounts]: alice's invoice for her
    order, and the failure for an order without payment record. *)
Lemma order_invoice_of_stored_amounts_witness :
  order_invoice (mkRequester Sample.alice "customer") 7
                (Sample.shop_with_order delivered)
  = (ViewInvoice
       (mkInvoice "ORD12345678ABCD" [mkOrderItem 1%N "Tee" 20 2]
                  40 4 10 54 "stripe"),
     Sample.shop_with_order delivered)
  /\ order_invoice Sample.admin 8
       (mkDb ∅ ∅ {[ 8%N := Sample.overdiscounted_order ]})
     = (ViewServerError, mkDb ∅ ∅ {[ 8%N := Sample.overdiscounted_order ]}).
Proof.
  split.
  - destruct (order_invoice_of_stored_amounts
                (mkRequester Sample.alice "customer") 7
                (Sample.shop_with_order delivered)
                (Sample.order_in delivered)) as [Hinv _].
    + reflexivity.
    + right. reflexivity.
    + apply (Hinv (mkPaymentInfo "stripe" 54)). reflexivity.
  - destruct (order_invoice_of_stored_amounts
                Sample.admin 8
                (mkDb ∅ ∅ {[ 8%N := Sample.overdiscounted_order ]})
                Sample.overdiscounted_order) as [_ Hnone].
    + reflexivity.
    + left. reflexivity.
    + apply Hnone. reflexivity.
Defined.

(** ** [PUT /api/orders/:id/tracking] *)

Lemma with_orders_same id o db :
  orders db !! id = Some o -> with_orders (<[id := o]> (orders db)) db = db.
Proof.
  intros Ho. rewrite (insert_id _ _ _ Ho). by destruct db.
Qed.

(** X20. For a stored order that passes the validators, the tracking route sets
    a [processing] order to [shipped], with [shippedAt] and a history entry
    by the requester, and leaves an order in any other status as it is, in
    the fields of the model (the tracking record that the route writes is
    not one of them); it never touches a product. The status route, asked
    for the same [processing -> shipped], fails with "Update Failed" as
    soon as the order's first line refers to a stored product: adding the
    tracking information is then the only way to ship. *)
Theorem order_tracking_ships_processing :
  forall (requester : Requester) (id : N) (now : Z) (db : Db) (o : Order),
    orders db !! id = Some o ->
    Order_validate o = true ->
    (status o = processing ->
     exists o',
       order_tracking requester id now db
       = (OrderOk o', with_orders (<[id := o']> (orders db)) db)
       /\ status o' = shipped /\ shippedAt o' = Some now
       /\ statusHistory o'
          = statusHistory o
            ++ [mkHistoryEntry shipped now
                  "Order shipped with tracking information"
                  (Some (req_id requester))])
    /\ (status o <> processing ->
        order_tracking requester id now db = (OrderOk o, db))
    /\ (status o = processing ->
        forall note item rest p,
          o_items o = item :: rest ->
          products db !! oi_product item = Some p ->
          order_status requester id shipped note now db = (OrderFailed, db)).
Proof.
  intros requester id now db o Ho Hv.
  assert (Hsave : Order_save id o db = (Fulfilled o, db)).
  { destruct (Order_save_cases id o db) as [[_ ->] | [Hno _]]; [|congruence].
    by rewrite (with_orders_same id o db Ho). }
  split; [|split].
  - intros Hst.
    destruct (updateStatus_fulfilled id o shipped
                "Order shipped with tracking information"
                (Some (req_id requester)) now db Hv)
      as (o' & Hu & Hs & Hh & _ & Hship & _).
    exists o'. split; [|split; [exact Hs|split; [exact Hship|]]].
    + unfold order_tracking, Order_findById, addTracking. async_unfold.
      rewrite Ho, Hsave.
      rewrite (bool_decide_eq_true_2 _ Hst). by rewrite Hu.
    + rewrite Hh, Hst. reflexivity.
  - intros Hst. unfold order_tracking, Order_findById, addTracking.
    async_unfold. rewrite Ho, Hsave.
    by rewrite (bool_decide_eq_false_2 _ Hst).
  - intros Hst note item rest p Hitems Hp.
    apply (order_status_inventory_throws requester id shipped note now db o
             item rest p Ho); [right; by split | exact Hitems | exact Hp].
Qed.

(** A run of [order_tracking_ships_processing]: the order in [processing]
    is shipped by the tracking route and not by the status route. *)
Lemma order_tracking_ships_processing_witness :
  (exists o',
      order_tracking Sample.admin 7 5000 (Sample.shop_with_order processing)
      = (OrderOk o',
         with_orders (<[7%N := o']>
                        (orders (Sample.shop_with_order processing)))
                     (Sample.shop_with_order processing))
      /\ status o' = shipped)
  /\ order_status Sample.admin 7 shipped "" 5000
                  (Sample.shop_with_order processing)
     = (OrderFailed, Sample.shop_with_order processing).
Proof.
  destruct (order_tracking_ships_processing Sample.admin 7 5000
              (Sample.shop_with_order processing)
              (Sample.order_in processing) eq_refl eq_refl)
    as (Hship & _ & Hfail).
  split.
  - destruct (Hship eq_refl) as (o' & Hr & Hs & _).
    exists o'. split; [exact Hr | exact Hs].
  - apply (Hfail eq_refl "" (mkOrderItem 1%N "Tee" 20 2) [] Sample.tee);
      reflexivity.
Defined.

(** ** Who may write an order *)

Lemma behind_refused {R} roles user (handler : Requester -> Db -> R * Db) db :
  snd (behind roles user handler db) <> db ->
  exists u, user = Some u /\ In (req_role u) roles.
Proof.
  unfold behind, authorize. destruct user as [u|]; simpl; [|done].
  destruct (JS.includes roles (req_role u)) eqn:E; simpl; [|done].
  intros _. exists u. split; [reflexivity | by apply includes_elem_of].
Qed.

(** X21. A request changes the database through the status or the tracking
    route only when it comes from an administrator or a moderator, and
    through the refund route only when it comes from an administrator:
    behind [authorize], everyone else is answered by the middleware. The
    cancel route, which checks no role, changes the database only for an
    order that exists and that the requester owns or, as an administrator,
    may see. *)
Theorem order_writes_are_authorized :
  forall (user : option Requester) (id : N) (db : Db),
    (forall s note now,
        snd (behind ["admin"; "moderator"] user
               (fun requester => order_status requester id s note now) db)
        <> db ->
        exists u, user = Some u
                  /\ (req_role u = "admin" \/ req_role u = "moderator"))
    /\ (forall now,
           snd (behind ["admin"; "moderator"] user
                  (fun requester => order_tracking requester id now) db)
           <> db ->
           exists u, user = Some u
                     /\ (req_role u = "admin" \/ req_role u = "moderator"))
    /\ (forall render amount reason refundId now,
           snd (behind ["admin"] user
                  (fun _ => order_refund render id amount reason refundId now)
                  db)
           <> db ->
           exists u, user = Some u /\ req_role u = "admin")
    /\ (forall requester reason now,
           after (order_cancel requester id reason now) db <> db ->
           exists o, orders db !! id = Some o /\ visible_to requester o).
Proof.
  intros user id db. split; [|split; [|split]].
  - intros s note now (u & -> & Hin)%behind_refused.
    exists u. split; [reflexivity|]. simpl in Hin. intuition congruence.
  - intros now (u & -> & Hin)%behind_refused.
    exists u. split; [reflexivity|]. simpl in Hin. intuition congruence.
  - intros render amount reason refundId now (u & -> & Hin)%behind_refused.
    exists u. split; [reflexivity|]. simpl in Hin. intuition congruence.
  - intros requester reason now Hchanged.
    destruct (orders db !! id) as [o|] eqn:Ho.
    + exists o. split; [reflexivity|].
      destruct (bool_decide (req_role requester = "admin")
                || bool_decide (o_user o = req_id requester)) eqn:E.
      * apply orb_true_iff in E as [E | E]; apply bool_decide_eq_true in E;
          [by left | by right].
      * exfalso. apply Hchanged.
        unfold after, order_cancel, Order_findOwn. async_unfold.
        by rewrite Ho, E.
    + exfalso. apply Hchanged.
      unfold after, order_cancel, Order_findOwn. async_unfold.
      by rewrite Ho.
Qed.

(** * Order totals and the validators *)

Lemma reduce_order_amounts_nonneg (its : list OrderItem) (a : Q) :
  forallb (fun item => nonneg (oi_price item) && (1 <=? oi_quantity item))
          its = true ->
  (0 <= a)%Q ->
  (0 <= JS.reduce (fun total item =>
                     total + oi_price item * inject_Z (oi_quantity item))
                  a its)%Q.
Proof.
  unfold JS.reduce. revert a.
  induction its as [|item rest IH]; intros a Hv Ha; simpl; [exact Ha|].
  simpl in Hv. apply andb_true_iff in Hv as [Hitem Hrest].
  apply andb_true_iff in Hitem as [Hp Hq].
  apply Qle_bool_iff in Hp. apply Z.leb_le in Hq.
  apply IH; [exact Hrest|].
  rewrite <- (Qplus_0_r 0). apply Qplus_le_compat; [exact Ha|].
  apply Qmult_le_0_compat; [exact Hp|].
  unfold Qle. simpl. lia.
Qed.

(** X22. [calculateTotals] on an order that passes the validators gives an
    order that passes them too, so that the [save()] that follows it
    cannot be rejected for an amount. The payment record, when there is
    one, keeps its method and gets the new total as its amount; an order
    without payment record stays without. The lines, the status and the
    status history are not touched. *)
Theorem calculateTotals_keeps_valid :
  forall (o : Order),
    Order_validate o = true ->
    Order_validate (calculateTotals o) = true
    /\ (forall id db,
           Order_save id (calculateTotals o) db
           = (Fulfilled (calculateTotals o),
              with_orders (<[id := calculateTotals o]> (orders db)) db))
    /\ (forall pay,
           paymentInfo o = Some pay ->
           paymentInfo (calculateTotals o)
           = Some (mkPaymentInfo (pi_method pay) (total (calculateTotals o))))
    /\ (paymentInfo o = None -> paymentInfo (calculateTotals o) = None)
    /\ o_items (calculateTotals o) = o_items o
    /\ status (calculateTotals o) = status o
    /\ statusHistory (calculateTotals o) = statusHistory o.
Proof.
  intros o Hv.
  assert (Hv' : Order_validate (calculateTotals o) = true).
  { unfold Order_validate in *.
    repeat (apply andb_true_iff in Hv as [Hv ?]).
    assert (Hsub : (0 <= subtotal (calculateTotals o))%Q).
    { simpl. by apply reduce_order_amounts_nonneg. }
    assert (Htax : (0 <= tax (calculateTotals o))%Q).
    { simpl. apply Qmult_le_0_compat; [exact Hsub|]. by apply Qle_bool_iff. }
    assert (Htot : (0 <= total (calculateTotals o))%Q)
      by apply Math_max_0_nonneg.
    repeat (apply andb_true_iff; split); try assumption.
    - by apply Qle_bool_iff.
    - by apply Qle_bool_iff.
    - by apply Qle_bool_iff.
    - simpl. destruct (paymentInfo o); [|reflexivity].
      by apply Qle_bool_iff. }
  split; [exact Hv'|]. split.
  - intros id db.
    destruct (Order_save_cases id (calculateTotals o) db)
      as [[_ ->] | [Hno _]]; [reflexivity | congruence].
  - split; [intros pay Hpay; simpl; by rewrite Hpay|].
    split; [intros Hpay; simpl; by rewrite Hpay|].
    split; [reflexivity|]. split; reflexivity.
Qed.

(** A run of [calculateTotals_keeps_valid]: the sample order. *)
Lemma calculateTotals_keeps_valid_witness :
  Order_validate (calculateTotals (Sample.order_in pending)) = true
  /\ paymentInfo (calculateTotals (Sample.order_in pending))
     = Some (mkPaymentInfo "stripe"
               (total (calculateTotals (Sample.order_in pending)))).
Proof.
  destruct (calculateTotals_keeps_valid (Sample.order_in pending) eq_refl)
    as (Hv & _ & Hpay & _).
  split; [exact Hv|].
  apply (Hpay (mkPaymentInfo "stripe" 54)). reflexivity.
Defined.

(** * [POST /api/orders] *)

Lemma release_on_error_readonly items db :
  release_on_error items db = (Fulfilled tt, db).
Proof.
  unfold release_on_error.
  induction items as [|item rest IH]; simpl; [reflexivity|].
  unfold bind at 1.
  assert (Hstep : swallow
                    (product <- Product_findById item.1 ;;
                     match product with
                     | Some p => releaseReservedInventory item.1 p item.2
                     | None => ret tt
                     end) db = (Fulfilled tt, db)).
  { unfold swallow, Product_findById, releaseReservedInventory.
    async_unfold. by destruct (products db !! item.1). }
  rewrite Hstep. exact IH.
Qed.

(** X23. For a body with at least one item, [POST /api/orders] never gets as
    far as building the order. When the first item's product is not stored
    it answers "Product Not Found"; when that product is inactive,
    "Product Unavailable"; and otherwise the stock test
    [product.availableQuantity < item.quantity] reads a member that
    products do not have and lets every quantity pass, the call of
    [product.reserveInventory], which products do not have either,
    throws, and the answer is the 500 "Order Creation Failed". In all
    three cases the database is left as it was: no order is created,
    whatever the rest of the handler would do. *)
Theorem order_create_never_creates :
  forall (create_order : list (N * Z) -> Async CreateResponse)
         (item : N * Z) (rest : list (N * Z)) (db : Db),
    let result := order_create create_order (item :: rest) db in
    snd result = db
    /\ (products db !! item.1 = None ->
        fst result = CreateProductNotFound item.1)
    /\ (forall p,
           products db !! item.1 = Some p -> isActive p = false ->
           fst result = CreateProductUnavailable (p_name p))
    /\ (forall p,
           products db !! item.1 = Some p -> isActive p = true ->
           fst result = OrderCreationFailed).
Proof.
  intros create_order item rest db result. subst result.
  unfold order_create. cbn [create_from].
  unfold Product_findById, reserveInventory. async_unfold.
  destruct (products db !! item.1) as [p|] eqn:Hp.
  - destruct (isActive p) eqn:Hact; simpl.
    + rewrite release_on_error_readonly. simpl.
      split; [reflexivity|]. split; [discriminate|].
      split; [intros p' [= <-]; congruence | reflexivity].
    + split; [reflexivity|]. split; [discriminate|].
      split; [by intros p' [= <-] | intros p' [= <-]; congruence].
  - simpl. split; [reflexivity|]. split; [reflexivity|].
    split; intros p' ?; discriminate.
Qed.

(** * [updateSoldCount] *)

Lemma Product_validate_set_soldCount (p : Product) (n : Z) (b : bool) :
  Product_validate p = true -> 0 <= n ->
  Product_validate (set_inStock b (set_soldCount n p)) = true.
Proof.
  unfold Product_validate. simpl. intros Hv Hn.
  apply andb_true_iff in Hv as [Hv _]. rewrite Hv. by apply Z.leb_le.
Qed.

(** X24. For a product that passes the validators, [updateSoldCount] stores the
    product with the quantity added to [soldCount] and with [inStock]
    saying whether the new count is below [totalStock], the other fields
    kept, whenever the new count is not negative; the quantity may be
    negative and the new count may exceed [totalStock]. A quantity that
    would make the count negative is rejected by the validator and nothing
    is stored. Taking the same quantity back afterwards restores the
    count, and the whole product when its flag agreed with its stock. *)
Theorem updateSoldCount_adds_or_rejects :
  forall (id : N) (p : Product) (qty : Z) (db : Db),
    Product_validate p = true ->
    (0 <= soldCount p + qty ->
     exists p',
       updateSoldCount id p qty db
       = (Fulfilled p', with_products (<[id := p']> (products db)) db)
       /\ sold_more qty p p'
       /\ inStock p' = (soldCount p + qty <? totalStock p)
       /\ exists p'',
           updateSoldCount id p' (- qty)
             (with_products (<[id := p']> (products db)) db)
           = (Fulfilled p'', with_products (<[id := p'']> (products db)) db)
           /\ soldCount p'' = soldCount p
           /\ (inStock p = (0 <? availableStock p) -> p'' = p))
    /\ (soldCount p + qty < 0 ->
        updateSoldCount id p qty db = (Rejected ValidationError, db)).
Proof.
  intros id p qty db Hv.
  pose proof (Product_validate_soldCount p Hv) as [Hs Ht].
  split.
  - intros Hq.
    set (p' := Product_preSave
                 (set_inStock
                    (0 <? availableStock
                            (set_soldCount (soldCount p + qty) p))
                    (set_soldCount (soldCount p + qty) p))).
    set (p'' := Product_preSave
                  (set_inStock
                     (0 <? availableStock
                             (set_soldCount (soldCount p' + - qty) p'))
                     (set_soldCount (soldCount p' + - qty) p'))).
    assert (Hback : soldCount p' + - qty = soldCount p) by (simpl; lia).
    exists p'. split; [|split; [|split]].
    + unfold updateSoldCount. cbv zeta.
      destruct (Product_save_cases id
                  (set_inStock
                     (0 <? availableStock
                             (set_soldCount (soldCount p + qty) p))
                     (set_soldCount (soldCount p + qty) p)) db)
        as [[_ ->] | [Hno _]]; [reflexivity|].
      rewrite Product_validate_set_soldCount in Hno by assumption.
      discriminate.
    + unfold sold_more. simpl. repeat split.
    + simpl. unfold availableStock. simpl.
      destruct (Z.ltb_spec 0 (totalStock p - (soldCount p + qty)));
        symmetry; [apply Z.ltb_lt | apply Z.ltb_ge]; lia.
    + exists p''. split; [|split].
      * unfold updateSoldCount. cbv zeta.
        destruct (Product_save_cases id
                    (set_inStock
                       (0 <? availableStock
                               (set_soldCount (soldCount p' + - qty) p'))
                       (set_soldCount (soldCount p' + - qty) p'))
                    (with_products (<[id := p']> (products db)) db))
          as [[_ ->] | [Hno _]].
        -- simpl. by rewrite insert_insert_eq.
        -- rewrite Product_validate_set_soldCount in Hno;
             [discriminate | | lia].
           by apply Product_validate_set_soldCount.
      * exact Hback.
      * intros Hflag. unfold p''. rewrite Hback.
        destruct p as [n pr c s flag t sc a]. unfold availableStock in *.
        simpl in *. by rewrite Hflag.
  - intros Hq. unfold updateSoldCount. cbv zeta.
    destruct (Product_save_cases id
                (set_inStock
                   (0 <? availableStock
                           (set_soldCount (soldCount p + qty) p))
                   (set_soldCount (soldCount p + qty) p)) db)
      as [[Hyes _] | [_ ->]]; [|reflexivity].
    apply Product_validate_soldCount in Hyes as [Hneg _]. simpl in Hneg. lia.
Qed.

(** A run of [updateSoldCount_adds_or_rejects]: five tees of three are
    sold, and one cannot be taken back from a count of zero. *)
Lemma updateSoldCount_adds_or_rejects_witness :
  (exists p',
      updateSoldCount 1 Sample.tee 5 Sample.shop
      = (Fulfilled p',
         with_products (<[1%N := p']> (products Sample.shop)) Sample.shop)
      /\ soldCount p' = 5 /\ inStock p' = false)
  /\ updateSoldCount 1 Sample.tee (-1) Sample.shop
     = (Rejected ValidationError, Sample.shop).
Proof.
  destruct (updateSoldCount_adds_or_rejects 1 Sample.tee 5 Sample.shop
              eq_refl) as [Hsell _].
  destruct (updateSoldCount_adds_or_rejects 1 Sample.tee (-1) Sample.shop
              eq_refl) as [_ Hreject].
  split.
  - destruct Hsell as (p' & Hrun & Hmore & Hflag & _); [simpl; lia|].
    exists p'. split; [exact Hrun|].
    split; [exact (proj1 Hmore) | exact Hflag].
  - apply Hreject. simpl. lia.
Defined.

(** * The limit on sensitive operations *)

Lemma Forall_times (P : Z -> Prop) (reqs : list (string * Z)) :
  Forall P (map snd reqs) -> Forall (fun r => P r.2) reqs.
Proof.
  induction reqs as [|r rest IH]; simpl; intros H; [apply Forall_nil_2|].
  apply Forall_cons in H as [Hr Hrest].
  apply Forall_cons. split; [exact Hr | by apply IH].
Qed.

Section SlidingWindow.

Variables (maxAttempts windowMs : Z) (key : string).

Lemma window_invariant_later attempts acc T U :
  window_invariant maxAttempts windowMs key attempts acc T -> T <= U ->
  window_invariant maxAttempts windowMs key attempts acc U.
Proof.
  intros (Hkept & Hpast & Hbound) HTU. split; [|split; [|exact Hbound]].
  - intros c Hc. apply Hkept. lia.
  - eapply Forall_impl; [exact Hpast|]. simpl. intros a Ha. lia.
Qed.

Lemma kept_of (attempts : gmap string (list Z)) (k : string) (now : Z) :
  default []
    (match attempts !! k with
     | Some times =>
       <[k := filter (fun time => now - windowMs < time) times]> attempts
     | None => attempts
     end !! k)
  = filter (fun time => now - windowMs < time) (default [] (attempts !! k)).
Proof.
  destruct (attempts !! k) as [times|] eqn:Hk.
  - by rewrite lookup_insert_eq.
  - by rewrite Hk.
Qed.

Lemma kept_other (attempts : gmap string (list Z)) (k : string) (now : Z)
  (k' : string) :
  k <> k' ->
  match attempts !! k with
  | Some times =>
    <[k := filter (fun time => now - windowMs < time) times]> attempts
  | None => attempts
  end !! k' = attempts !! k'.
Proof.
  intros Hne. destruct (attempts !! k); [by rewrite lookup_insert_ne|done].
Qed.

Lemma window_count_new acc now t :
  Forall (fun a => a <= now) acc -> t - windowMs < now -> now <= t ->
  (length (filter (fun a => (t - windowMs < a /\ a <= t)%Z) acc)
   <= length (filter (fun time => (now - windowMs < time)%Z) acc))%nat.
Proof.
  intros Hpast Hin Hle.
  rewrite <- (list_filter_filter_l
                (fun a => t - windowMs < a /\ a <= t)
                (fun time => now - windowMs < time) acc)
    by (intros x [? ?]; lia).
  apply length_filter.
Qed.

(** One request keeps the invariant, and passes exactly when fewer than
    [maxAttempts] attempts have passed under its key in the window that
    ends with it. *)
Lemma window_step attempts acc T k now :
  window_invariant maxAttempts windowMs key attempts acc T -> T <= now ->
  let result := sensitiveOperationLimit maxAttempts windowMs k now attempts in
  window_invariant maxAttempts windowMs key (snd result)
    (acc ++ match fst result with
            | Passed => if bool_decide (k = key) then [now] else []
            | TooManyAttempts => []
            end) now
  /\ (k = key ->
      (fst result = Passed
       <-> Z.of_nat (length (filter (fun time => now - windowMs < time) acc))
           < maxAttempts)).
Proof.
  intros Hinv HT result. subst result.
  pose proof (window_invariant_later _ _ _ _ Hinv HT) as (Hkept & Hpast & Hbound).
  unfold sensitiveOperationLimit. cbv zeta. rewrite kept_of.
  destruct (decide (k = key)) as [-> | Hne].
  - rewrite (proj1 Hinv (now - windowMs)) by lia.
    destruct (Z.leb_spec maxAttempts
                (Z.of_nat (length (filter (fun time => now - windowMs < time)
                                          acc)))) as [Hfull | Hroom];
      simpl.
    + split; [|intros _; split; [discriminate | lia]].
      rewrite app_nil_r. split; [|split; [exact Hpast | exact Hbound]].
      intros c Hc. rewrite kept_of.
      rewrite (list_filter_filter_l (fun time => c < time)
                 (fun time => now - windowMs < time)) by (intros x ?; lia).
      apply Hkept. exact Hc.
    + rewrite bool_decide_eq_true_2 by reflexivity.
      split; [|intros _; split; [intros _; exact Hroom | reflexivity]].
      split; [|split].
      * intros c Hc. rewrite lookup_insert_eq. simpl.
        rewrite !filter_app.
        rewrite (list_filter_filter_l (fun time => c < time)
                   (fun time => now - windowMs < time)) by (intros x ?; lia).
        reflexivity.
      * apply Forall_app. split; [exact Hpast|].
        apply Forall_singleton. lia.
      * intros t. rewrite filter_app, length_app.
        destruct (decide (t - windowMs < now /\ now <= t)) as [[Hin Hle] | Hout].
        -- rewrite (filter_singleton_True _ now []) by (split; assumption).
           pose proof (window_count_new acc now t Hpast Hin Hle). simpl. lia.
        -- rewrite (filter_singleton_False _ now []) by exact Hout.
           specialize (Hbound t). simpl. lia.
  - split; [|intros Heq; contradiction].
    assert (Hacc : acc ++ match
                       (if maxAttempts <=?
                           Z.of_nat
                             (length
                                (filter (fun time => now - windowMs < time)
                                        (default [] (attempts !! k))))
                        then (TooManyAttempts,
                              match attempts !! k with
                              | Some times =>
                                <[k := filter
                                         (fun time => now - windowMs < time)
                                         times]> attempts
                              | None => attempts
                              end)
                        else (Passed,
                              <[k := filter
                                       (fun time => now - windowMs < time)
                                       (default [] (attempts !! k)) ++ [now]]>
                                match attempts !! k with
                                | Some times =>
                                  <[k := filter
                                           (fun time => now - windowMs < time)
                                           times]> attempts
                                | None => attempts
                                end)).1
                     with
                     | Passed => if bool_decide (k = key) then [now] else []
                     | TooManyAttempts => []
                     end = acc).
    { destruct (maxAttempts <=? _); simpl; [apply app_nil_r|].
      rewrite bool_decide_eq_false_2 by exact Hne. apply app_nil_r. }
    rewrite Hacc. split; [|split; [exact Hpast | exact Hbound]].
    intros c Hc. rewrite <- (Hkept c Hc). f_equal. f_equal.
    destruct (maxAttempts <=? _); simpl.
    + by apply kept_other.
    + rewrite lookup_insert_ne by exact Hne. by apply kept_other.
Qed.

Lemma window_run reqs :
  forall attempts acc T,
    window_invariant maxAttempts windowMs key attempts acc T ->
    Forall (fun r => T <= r.2) reqs ->
    in_time_order (map snd reqs) ->
    forall U,
      T <= U -> Forall (fun r => r.2 <= U) reqs ->
      window_invariant maxAttempts windowMs key
        (attempts_after maxAttempts windowMs reqs attempts)
        (acc ++ passed_attempts maxAttempts windowMs key reqs attempts) U.
Proof.
  induction reqs as [|[k now] rest IH];
    intros attempts acc T Hinv Hafter Hsorted U HTU Hbefore.
  - simpl. rewrite app_nil_r. by apply (window_invariant_later _ _ T).
  - apply Forall_cons in Hafter as [Hnow Hafter].
    apply Forall_cons in Hbefore as [HnowU Hbefore].
    simpl in Hsorted. destruct Hsorted as [Hlater Hsorted].
    destruct (window_step attempts acc T k now Hinv Hnow) as [Hstep _].
    cbn [attempts_after passed_attempts].
    destruct (sensitiveOperationLimit maxAttempts windowMs k now attempts)
      as [verdict attempts'] eqn:Hrun.
    simpl in Hstep. rewrite app_assoc.
    apply (IH attempts' _ now Hstep); try assumption.
    by apply (Forall_times (Z.le now)).
Qed.

End SlidingWindow.

(** X25. Started with an empty [Map] and fed requests in the order of their
    times, the middleware of
    [sensitiveOperationLimit(maxAttempts, windowMs)] lets at most
    [maxAttempts] requests of one key pass in any span of [windowMs]
    milliseconds; and it answers "Too Many Attempts" only for that reason:
    a request passes exactly when fewer than [maxAttempts] requests of its
    key have passed in the [windowMs] milliseconds before it. Refused
    requests do not count. *)
Theorem sensitive_operations_sliding_window :
  forall (maxAttempts windowMs : Z) (key : string)
         (reqs : list (string * Z)),
    0 <= maxAttempts ->
    in_time_order (map snd reqs) ->
    (forall t,
        Z.of_nat
          (length (filter (fun a => t - windowMs < a /\ a <= t)
                          (passed_attempts maxAttempts windowMs key reqs ∅)))
        <= maxAttempts)
    /\ (forall now,
           Forall (fun r => r.2 <= now) reqs ->
           fst (sensitiveOperationLimit maxAttempts windowMs key now
                  (attempts_after maxAttempts windowMs reqs ∅))
           = Passed
           <-> Z.of_nat
                 (length (filter (fun time => now - windowMs < time)
                            (passed_attempts maxAttempts windowMs key reqs ∅)))
               < maxAttempts).
Proof.
  intros maxAttempts windowMs key reqs Hmax Hsorted.
  assert (Hrun : forall U,
             Forall (fun r => r.2 <= U) reqs ->
             window_invariant maxAttempts windowMs key
               (attempts_after maxAttempts windowMs reqs ∅)
               (passed_attempts maxAttempts windowMs key reqs ∅) U).
  { intros U Hbefore.
    destruct reqs as [|[k0 t0] rest] eqn:Hreqs.
    - split; [|split]; [reflexivity | apply Forall_nil_2 | intros t; simpl; lia].
    - rewrite <- Hreqs in *.
      assert (Hfirst : Forall (fun r => t0 <= r.2) reqs).
      { rewrite Hreqs. apply Forall_cons. split; [simpl; lia|].
        rewrite Hreqs in Hsorted. simpl in Hsorted.
        destruct Hsorted as [Hlater _].
        by apply (Forall_times (Z.le t0)). }
      apply (window_run maxAttempts windowMs key reqs ∅ [] t0);
        try assumption.
      + split; [|split];
          [reflexivity | apply Forall_nil_2 | intros t; simpl; lia].
      + rewrite Hreqs in Hbefore. apply Forall_cons in Hbefore as [H0 _].
        exact H0. }
  split.
  - intros t.
    set (U := fold_right Z.max 0 (map snd reqs)).
    assert (Hbefore : Forall (fun r => r.2 <= U) reqs).
    { unfold U. clear. induction reqs as [|r rest IH]; [apply Forall_nil_2|].
      apply Forall_cons. split; [simpl; lia|].
      eapply Forall_impl; [exact IH|]. simpl. intros x Hx. lia. }
    destruct (Hrun U Hbefore) as (_ & _ & Hbound). apply Hbound.
  - intros now Hbefore.
    destruct (window_step maxAttempts windowMs key
                (attempts_after maxAttempts windowMs reqs ∅)
                (passed_attempts maxAttempts windowMs key reqs ∅)
                now key now (Hrun now Hbefore) (Z.le_refl now)) as [_ Hiff].
    exact (Hiff eq_refl).
Qed.

(** A run of [sensitive_operations_sliding_window]: with two attempts per
    second, the third request within the second is refused, and one that
    comes after the first has left the window passes. *)
Lemma sensitive_operations_sliding_window_witness :
  passed_attempts 2 1000 "ip"
    [("ip", 0); ("ip", 100); ("ip", 200); ("ip", 1050)] ∅
  = [0; 100; 1050]
  /\ forall t,
      Z.of_nat
        (length (filter (fun a => t - 1000 < a /\ a <= t)
                   (passed_attempts 2 1000 "ip"
                      [("ip", 0); ("ip", 100); ("ip", 200); ("ip", 1050)] ∅)))
      <= 2.
Proof.
  split; [reflexivity|].
  apply (sensitive_operations_sliding_window 2 1000 "ip"
           [("ip", 0); ("ip", 100); ("ip", 200); ("ip", 1050)]).
  - lia.
  - simpl. repeat split; repeat constructor; lia.
Defined.

(** * Order statistics *)

Lemma count_status_from (s : Status) (os : list Order) (a : Z) :
  JS.reduce (fun n o => n + (if bool_decide (status o = s) then 1 else 0))
            a os
  = a + count_status s os.
Proof.
  unfold count_status, JS.reduce. revert a.
  induction os as [|o os IH]; intros a; simpl; [lia|].
  rewrite IH. rewrite (IH (0 + _)). lia.
Qed.

Lemma count_status_cons (s : Status) (o : Order) (os : list Order) :
  count_status s (o :: os)
  = (if bool_decide (status o = s) then 1 else 0) + count_status s os.
Proof.
  unfold count_status at 1. unfold JS.reduce. simpl.
  apply (count_status_from s os).
Qed.

Lemma count_status_length (s : Status) (os : list Order) :
  count_status s os
  = Z.of_nat (length (List.filter (fun o => bool_decide (status o = s)) os)).
Proof.
  induction os as [|o os IH]; [reflexivity|].
  rewrite count_status_cons, IH. simpl.
  destruct (bool_decide (status o = s)); simpl; lia.
Qed.





(** * Completed orders *)

(** What the other order routes can have written: nothing, or the order
    [id] in the status that the route is for. *)
Lemma order_cancel_written requester id reason now db :
  orders (after (order_cancel requester id reason now) db) = orders db
  \/ exists o o',
      orders db !! id = Some o /\ canBeCancelled o = true
      /\ status o' = cancelled /\ o_items o' = o_items o
      /\ orders (after (order_cancel requester id reason now) db)
         = <[id := o']> (orders db).
Proof.
  unfold after, order_cancel, Order_findOwn. async_unfold.
  destruct (orders db !! id) as [o|] eqn:Ho; simpl; [|by left].
  destruct (_ || _); simpl; [|by left].
  destruct (canBeCancelled o) eqn:Hcan; simpl; [|by left].
  unfold updateStatus. cbv zeta.
  match goal with |- context [Order_save id ?o3 db] =>
    destruct (Order_save_cases id o3 db) as [[_ ->] | [_ ->]];
      [|by left]; set (saved := o3) end.
  simpl.
  pose proof (for_of_adjust_inventory_readonly "add" (o_items saved)
                (with_orders (<[id := saved]> (orders db)) db)) as Hro.
  destruct (for_of _ _ _) as [[[]|e] db2]; simpl in *; subst db2;
    (right; exists o, saved; split; [reflexivity|];
     split; [exact Hcan|]; repeat split; reflexivity).
Qed.

Lemma order_refund_written render id amount reason refundId now db :
  orders (after (order_refund render id amount reason refundId now) db)
  = orders db
  \/ exists o o',
      orders db !! id = Some o
      /\ status o' = refunded /\ o_items o' = o_items o
      /\ orders (after (order_refund render id amount reason refundId now) db)
         = <[id := o']> (orders db).
Proof.
  unfold after, order_refund, Order_findById. async_unfold.
  destruct (orders db !! id) as [o|] eqn:Ho; simpl; [|by left].
  destruct (JS.gt amount (total o)); simpl; [by left|].
  destruct (processRefund_cases render id o amount reason refundId now db)
    as [[_ ->] | ->]; [|by left].
  right. exists o, (refunded_order render o amount reason refundId now).
  repeat split; reflexivity.
Qed.

Lemma isCompleted_iff (o : Order) :
  isCompleted o = true
  <-> status o = delivered \/ status o = cancelled \/ status o = refunded
      \/ status o = returned.
Proof.
  unfold isCompleted. rewrite includes_elem_of. simpl.
  intuition congruence.
Qed.

Lemma completed_row (o : Order) (s : Status) :
  isCompleted o = true -> In s (validTransitions (status o)) ->
  s = returned \/ s = refunded.
Proof.
  intros Hc%isCompleted_iff Hin.
  destruct Hc as [H | [H | [H | H]]]; rewrite H in Hin; simpl in Hin;
    intuition.
Qed.

(** X27. An order that is completed (delivered, cancelled, refunded or
    returned) is still stored and completed after any sequence of the
    requests, with the lines and so the [itemsCount] it had: the status
    route takes a completed order to [returned] or [refunded] only, the
    cancel route refuses it, and the refund route makes it [refunded].
    Such an order is never one that can be cancelled. *)
Theorem completed_orders_stay_completed :
  forall (start db : Db) (id : N) (o : Order),
    reachable start db ->
    orders start !! id = Some o -> isCompleted o = true ->
    exists o',
      orders db !! id = Some o' /\ isCompleted o' = true
      /\ canBeCancelled o' = false
      /\ o_items o' = o_items o /\ itemsCount o' = itemsCount o.
Proof.
  intros start db id o Hreach Ho Hdone.
  assert (Hinv : exists o', orders db !! id = Some o'
                            /\ isCompleted o' = true
                            /\ o_items o' = o_items o).
  { induction Hreach as [|db step Hreach IH Hreq]; [by exists o|].
    destruct IH as (o1 & Ho1 & Hdone1 & Hitems1).
    set (I := fun d : Db => orders d = orders db).
    assert (HC : forall user c, preserves I (Cart_save user c)).
    { intros user c d H. unfold I.
      by destruct (Cart_save_products user c d) as [_ ->]. }
    assert (HP : forall pid p, preserves I (Product_save pid p)).
    { intros pid p d H. unfold I.
      by destruct (Product_save_frame pid p d) as [_ ->]. }
    assert (Hsame : forall d, orders d = orders db ->
                              exists o', orders d !! id = Some o'
                                         /\ isCompleted o' = true
                                         /\ o_items o' = o_items o).
    { intros d ->. by exists o1. }
    assert (Hwritten : forall d id' o0 o' s,
               orders db !! id' = Some o0 -> o_items o' = o_items o0 ->
               status o' = s ->
               (id' = id -> s = returned \/ s = refunded \/ s = cancelled) ->
               orders d = <[id' := o']> (orders db) ->
               exists o2, orders d !! id = Some o2
                          /\ isCompleted o2 = true
                          /\ o_items o2 = o_items o).
    { intros d id' o0 o' s Ho0 Hits Hs Hto ->.
      destruct (decide (id' = id)) as [-> | Hne].
      - exists o'. rewrite lookup_insert_eq. split; [reflexivity|].
        rewrite Ho1 in Ho0. injection Ho0 as <-.
        split; [|congruence].
        apply isCompleted_iff. rewrite Hs.
        destruct (Hto eq_refl) as [-> | [-> | ->]]; tauto.
      - exists o1. by rewrite lookup_insert_ne. }
    destruct Hreq as [user step
                        [pid qty col sz fresh | itemId qty | itemId |
                        | paymentIntentId orderId]
                     | user | requester id' s note now
                     | requester id' reason now
                     | render id' amount reason refundId now].
    - apply Hsame. by apply (cart_add_keeps I HC).
    - apply Hsame. by apply (cart_update_keeps I HC).
    - apply Hsame. by apply (cart_remove_keeps I HC).
    - apply Hsame. by apply (cart_clear_keeps I HC).
    - apply Hsame. by apply (checkout_complete_keeps I HC HP).
    - apply Hsame. by apply (checkout_keeps I).
    - destruct (order_status_written requester id' s note now db)
        as [Heq | (o0 & o' & Ho0 & Hin & Hs & Hits & Heq)];
        [by apply Hsame|].
      apply (Hwritten _ id' o0 o' s Ho0 Hits Hs); [|exact Heq].
      intros ->. rewrite Ho1 in Ho0. injection Ho0 as <-.
      destruct (completed_row o1 s Hdone1 Hin); tauto.
    - destruct (order_cancel_written requester id' reason now db)
        as [Heq | (o0 & o' & Ho0 & Hcan & Hs & Hits & Heq)];
        [by apply Hsame|].
      apply (Hwritten _ id' o0 o' cancelled Ho0 Hits Hs); [tauto | exact Heq].
    - destruct (order_refund_written render id' amount reason refundId now db)
        as [Heq | (o0 & o' & Ho0 & Hs & Hits & Heq)];
        [by apply Hsame|].
      apply (Hwritten _ id' o0 o' refunded Ho0 Hits Hs); [tauto | exact Heq]. }
  destruct Hinv as (o' & Ho' & Hdone' & Hitems').
  exists o'. split; [exact Ho'|]. split; [exact Hdone'|].
  split; [|split; [exact Hitems'|]].
  - apply isCompleted_iff in Hdone'. unfold canBeCancelled.
    apply bool_decide_eq_false. rewrite list_elem_of_In. simpl.
    destruct Hdone' as [H | [H | [H | H]]]; rewrite H;
      intuition discriminate.
  - unfold itemsCount. by rewrite Hitems'.
Qed.

(** A run of [completed_orders_stay_completed]: a delivered order after a
    refund. *)
Lemma completed_orders_stay_completed_witness :
  exists o',
    orders (after (order_refund Sample.show 7 54 "damaged" None 3000)
                  (Sample.shop_with_order delivered)) !! 7%N
    = Some o'
    /\ isCompleted o' = true /\ itemsCount o' = 2.
Proof.
  destruct (completed_orders_stay_completed
              (Sample.shop_with_order delivered)
              (after (order_refund Sample.show 7 54 "damaged" None 3000)
                     (Sample.shop_with_order delivered))
              7 (Sample.order_in delivered))
    as (o' & Ho' & Hdone & _ & _ & Hcount).
  - apply (reachable_step (Sample.shop_with_order delivered)
             (Sample.shop_with_order delivered)
             (after (order_refund Sample.show 7 54 "damaged" None 3000))).
    + apply reachable_start.
    + apply api_order_refund.
  - reflexivity.
  - reflexivity.
  - exists o'. split; [exact Ho'|]. split; [exact Hdone | exact Hcount].
Defined.

(** * The permission checks *)

(** X28. [checkAnyPermission] with one permission is [checkPermission] of it,
    answer for answer. With a list, it lets a request pass exactly when
    [checkPermission] does for one permission of the list, or when the
    user is an administrator, who passes even an empty list; anyone else
    is refused by the empty list, and so is a user without [permissions]
    field by every list. Asking for more alternatives never turns a pass
    into a refusal. *)
Theorem permission_checks_agree :
  forall (user : option User),
    (forall p, checkAnyPermission [p] user = checkPermission p user)
    /\ (forall ps,
           checkAnyPermission ps user = Next
           <-> (exists u, user = Some u /\ u_role u = "admin")
               \/ exists p, In p ps /\ checkPermission p user = Next)
    /\ (forall ps qs,
           checkAnyPermission ps user = Next ->
           checkAnyPermission (ps ++ qs) user = Next)
    /\ (forall u ps,
           user = Some u -> u_role u <> "admin" -> u_permissions u = None ->
           checkAnyPermission ps user = Forbidden).
Proof.
  intros [u|].
  - split; [|split; [|split]].
    + intros p. unfold checkAnyPermission, checkPermission. simpl.
      by rewrite orb_false_r.
    + intros ps. unfold checkAnyPermission, checkPermission.
      destruct (bool_decide (u_role u = "admin")) eqn:Hadm.
      * apply bool_decide_eq_true in Hadm.
        split; [intros _; left; by exists u | reflexivity].
      * apply bool_decide_eq_false in Hadm. cbv zeta.
        destruct (existsb (has_permission u) ps) eqn:Hex; simpl.
        -- split; [intros _ | reflexivity].
           apply existsb_exists in Hex as (p & Hin & Hp).
           right. exists p. split; [exact Hin|]. by rewrite Hp.
        -- split; [discriminate|].
           intros [(u' & [= <-] & Hrole) | (p & Hin & Hp)]; [contradiction|].
           destruct (has_permission u p) eqn:Hhas; [|discriminate].
           assert (existsb (has_permission u) ps = true)
             by (apply existsb_exists; eauto).
           congruence.
    + intros ps qs. unfold checkAnyPermission.
      destruct (bool_decide (u_role u = "admin")); [reflexivity|].
      cbv zeta. rewrite existsb_app.
      destruct (existsb (has_permission u) ps); [reflexivity | discriminate].
    + intros u' ps [= <-] Hrole Hnone. unfold checkAnyPermission.
      rewrite (bool_decide_eq_false_2 _ Hrole). cbv zeta.
      assert (Hno : existsb (has_permission u) ps = false).
      { induction ps as [|p ps IH]; [reflexivity|]. simpl.
        unfold has_permission at 1. by rewrite Hnone. }
      by rewrite Hno.
  - split; [|split; [|split]].
    + reflexivity.
    + intros ps. simpl. split; [discriminate|].
      intros [(u & Hu & _) | (p & _ & Hp)]; discriminate.
    + intros ps qs. simpl. discriminate.
    + intros u ps Hu. discriminate.
Qed.

(** ** [POST /api/orders/:id/cancel] after the write *)

(** X30. The cancel route saves the order as [cancelled] before it releases
    the inventory, and the release calls [releaseReservedInventory], which
    is not a method of the Product model, on the first product it finds.
    So for a pending or confirmed order whose first line refers to a
    stored product, the route answers with the 500 "Cancellation Failed",
    the order is stored as [cancelled], with the time of the request, and
    the products are as they were; a second request for the same order is
    refused with "Cannot Cancel Order". *)
Theorem order_cancel_fails_after_the_write :
  forall (requester : Requester) (id : N) (reason : string) (now later : Z)
         (db : Db) (o : Order) (item : OrderItem) (rest : list OrderItem)
         (p : Product),
    orders db !! id = Some o ->
    visible_to requester o ->
    Order_validate o = true ->
    status o = pending \/ status o = confirmed ->
    o_items o = item :: rest ->
    products db !! oi_product item = Some p ->
    exists o',
      order_cancel requester id reason now db
      = (OrderFailed, with_orders (<[id := o']> (orders db)) db)
      /\ status o' = cancelled /\ cancelledAt o' = Some now
      /\ products (after (order_cancel requester id reason now) db)
         = products db
      /\ order_cancel requester id reason later
                      (after (order_cancel requester id reason now) db)
         = (CannotCancelOrder,
            after (order_cancel requester id reason now) db).
Proof.
  intros requester id reason now later db o item rest p Ho Hvis Hv Hst Hitems
         Hp.
  pose proof (Order_findOwn_visible requester id db o Ho Hvis) as Hfind.
  destruct (updateStatus_fulfilled id o cancelled
              (if bool_decide (reason = "") then "Cancelled by user"
               else reason)
              (Some (req_id requester)) now db Hv)
    as (o' & Hu & Hs & _ & _ & _ & _ & Hca & Hitems' & Huser & _).
  rewrite decide_True in Hca by reflexivity.
  assert (Hrun : order_cancel requester id reason now db
                 = (OrderFailed, with_orders (<[id := o']> (orders db)) db)).
  { unfold order_cancel. async_unfold. rewrite Hfind.
    apply canBeCancelled_iff in Hst. rewrite Hst. simpl. rewrite Hu.
    rewrite Hitems', Hitems. simpl.
    unfold bind, adjust_inventory, Product_findById. async_unfold.
    simpl. by rewrite Hp. }
  exists o'. split; [exact Hrun|]. split; [exact Hs|]. split; [exact Hca|].
  unfold after. rewrite Hrun. simpl. split; [reflexivity|].
  assert (Hvis' : visible_to requester o').
  { unfold visible_to in *. by rewrite Huser. }
  assert (Ho' : orders (with_orders (<[id := o']> (orders db)) db) !! id
                = Some o') by apply lookup_insert_eq.
  pose proof (Order_findOwn_visible requester id _ o' Ho' Hvis') as Hfind'.
  unfold order_cancel. async_unfold. rewrite Hfind'.
  assert (Hcan : canBeCancelled o' = false).
  { destruct (canBeCancelled o') eqn:E; [|reflexivity].
    apply canBeCancelled_iff in E. rewrite Hs in E.
    destruct E; discriminate. }
  by rewrite Hcan.
Qed.

(** A run of [order_cancel_fails_after_the_write]: alice's pending order
    for two tees. *)
Lemma order_cancel_fails_after_the_write_witness :
  exists o',
    order_cancel Sample.admin 7 "changed my mind" 2000
                 (Sample.shop_with_order pending)
    = (OrderFailed,
       with_orders (<[7%N := o']> (orders (Sample.shop_with_order pending)))
                   (Sample.shop_with_order pending))
    /\ status o' = cancelled /\ cancelledAt o' = Some 2000.
Proof.
  destruct (order_cancel_fails_after_the_write
              Sample.admin 7 "changed my mind" 2000 2100
              (Sample.shop_with_order pending) (Sample.order_in pending)
              (mkOrderItem 1 "Tee" 20 2) [] Sample.tee
              eq_refl (or_introl eq_refl) eq_refl (or_introl eq_refl)
              eq_refl eq_refl)
    as (o' & Hrun & Hs & Hca & _).
  exists o'. split; [exact Hrun|]. split; [exact Hs | exact Hca].
Defined.

(** ** [cartSchema.methods.addItem] *)

Lemma not_in_filter_nil (productId : N) (v : ProductVariant)
  (its : list CartItem) :
  ~ In (productId, colour v, size v) (map line_key its) ->
  lines_of productId v its = [].
Proof.
  unfold lines_of. induction its as [|item its IH]; simpl; [done|].
  intros Hno.
  destruct (same_line productId v item) eqn:E.
  - apply same_line_key in E. destruct Hno. by left.
  - apply IH. intros Hin. apply Hno. by right.
Qed.

(** [cartSchema.methods.addItem], called with an [ObjectId] and a
    number. When no line of the cart has the product, colour and size, a
    line with the quantity is added at the end, under the new [_id], and a
    second call for the same product, colour and size raises the quantity
    of that line to [a + b] and adds no line. When a line of the cart has
    the product, colour and size, the quantity of the first such line is
    raised and nothing else changes. Lines that were all for different
    products, colours or sizes stay so. *)
Lemma addItem_merges_lines :
  forall (its : list CartItem) (productId : N) (a b : Z) (v : ProductVariant)
         (price price' : Q) (fresh fresh' : N),
    (~ In (productId, colour v, size v) (map line_key its) ->
     addItem_items its productId a v price fresh
     = its ++ [mkCartItem fresh productId a v price]
     /\ addItem_items (addItem_items its productId a v price fresh)
                      productId b v price' fresh'
        = its ++ [mkCartItem fresh productId (a + b) v price])
    /\ (forall l1 line l2,
           its = l1 ++ line :: l2 ->
           line_key line = (productId, colour v, size v) ->
           ~ In (productId, colour v, size v) (map line_key l1) ->
           addItem_items its productId a v price fresh
           = l1 ++ set_quantity (quantity line + a) line :: l2)
    /\ (distinct_lines its ->
        distinct_lines (addItem_items its productId a v price fresh)).
Proof.
  intros its productId a b v price price' fresh fresh'.
  split; [|split].
  - intros Hno. apply not_in_filter_nil in Hno. split.
    + by apply addItem_items_fresh.
    + by apply addItem_items_twice.
  - intros l1 line l2 -> Hkey Hno.
    apply addItem_items_existing.
    + by apply same_line_key.
    + by apply not_in_filter_nil.
  - apply addItem_items_distinct.
Qed.
